(** * rlm-icf: extraction routing, response recovery and validation

    A shallow embedding of the decision-and-recovery core of the ICF
    pipeline ([icf/registry.py], [icf/extract.py], [icf/validate.py],
    [icf/pipeline.py], [icf/types.py], [icf/ingest.py]) and the properties
    of it that the specification states, with further properties of the
    same code.

    Conventions.
    - A Python [str] is a [string]; a character is a code point below 256
      (Latin-1), which is where [str.lower], [str.isspace] and the regular
      expression class [\s] are modelled.
    - [len] is [String.length] (a [nat]); the brace depth counter, which the
      source lets go below zero, is a [Z].
    - Values whose type the source does not fix (everything read out of a
      decoded record with [dict.get]) are [pyval]s.
    - Library calls ([json.loads], [ast.literal_eval], [html.unescape],
      [repr], the RLM agent, [textstat]) are the fields of interface classes:
      the development holds for every behaviour of theirs. *)

From Stdlib Require Import String Ascii List ZArith Lia Bool Arith Sorted.
Import ListNotations.
Open Scope string_scope.
Open Scope nat_scope.

(* ===================================================================== *)
(** * Python strings *)
(* ===================================================================== *)

Module PyStr.

(** [str.isspace] on one character: TAB..CR, FS..US, space, NEL, NBSP. *)
Definition is_space (c : ascii) : bool :=
  let n := nat_of_ascii c in
  ((9 <=? n) && (n <=? 13)) || ((28 <=? n) && (n <=? 32))
  || (n =? 133) || (n =? 160).

(** [str.lower] on one character: A..Z and the accented capitals
    U+00C0..U+00DE (the multiplication sign U+00D7 apart) move up by 32.
    On a text of Latin-1 characters [str.lower] works character by
    character, as [lower] below does; outside Latin-1 it does not (a capital
    sigma is lowered by its place in the word), so every property of this
    file that cuts a lowered text into parts is a property of Latin-1
    texts. *)
Definition lower_char (c : ascii) : ascii :=
  let n := nat_of_ascii c in
  if ((65 <=? n) && (n <=? 90))
     || ((192 <=? n) && (n <=? 222) && negb (n =? 215))
  then ascii_of_nat (n + 32) else c.

Fixpoint lower (s : string) : string :=
  match s with
  | EmptyString => EmptyString
  | String c r => String (lower_char c) (lower r)
  end.

Fixpoint lstrip (s : string) : string :=
  match s with
  | EmptyString => EmptyString
  | String c r => if is_space c then lstrip r else s
  end.

Fixpoint rstrip (s : string) : string :=
  match s with
  | EmptyString => EmptyString
  | String c r =>
      match rstrip r with
      | EmptyString => if is_space c then EmptyString else String c EmptyString
      | r' => String c r'
      end
  end.

(** [s.strip()] *)
Definition strip (s : string) : string := rstrip (lstrip s).

(** [s.split()]: the maximal runs of non-space characters, in order.
    [cur] is the word being read. *)
Fixpoint split_from (cur : string) (s : string) : list string :=
  match s with
  | EmptyString => match cur with EmptyString => [] | _ => [cur] end
  | String c r =>
      if is_space c
      then match cur with
           | EmptyString => split_from EmptyString r
           | _ => cur :: split_from EmptyString r
           end
      else split_from (cur ++ String c EmptyString) r
  end.

Definition split (s : string) : list string := split_from EmptyString s.

(** [sep.join(parts)] *)
Fixpoint join (sep : string) (parts : list string) : string :=
  match parts with
  | [] => EmptyString
  | [p] => p
  | p :: rest => p ++ sep ++ join sep rest
  end.

(** [s.startswith(p)] *)
Fixpoint startswith (p s : string) : bool :=
  match p, s with
  | EmptyString, _ => true
  | String _ _, EmptyString => false
  | String a p', String b s' => Ascii.eqb a b && startswith p' s'
  end.

(** [needle in hay] *)
Fixpoint contains (needle hay : string) : bool :=
  startswith needle hay
  || match hay with
     | EmptyString => false
     | String _ r => contains needle r
     end.

(** [s[:n]] *)
Fixpoint take (n : nat) (s : string) : string :=
  match n, s with
  | O, _ => EmptyString
  | _, EmptyString => EmptyString
  | S n', String c r => String c (take n' r)
  end.

(** [s[n:]] *)
Fixpoint drop (n : nat) (s : string) : string :=
  match n, s with
  | O, _ => s
  | _, EmptyString => EmptyString
  | S n', String _ r => drop n' r
  end.

(** [s[a:b]] for [0 <= a] and [0 <= b] *)
Definition slice (a b : nat) (s : string) : string := take (b - a) (drop a s).

(** [s.replace(a, b)] for one-character [a] and [b] *)
Fixpoint replace_char (a b : ascii) (s : string) : string :=
  match s with
  | EmptyString => EmptyString
  | String c r =>
      String (if Ascii.eqb c a then b else c) (replace_char a b r)
  end.

(** [re.split] on a one-character class: the pieces between the
    separators, empty pieces kept. *)
Fixpoint split_on (sep : ascii -> bool) (cur : string) (s : string)
  : list string :=
  match s with
  | EmptyString => [cur]
  | String c r =>
      if sep c then cur :: split_on sep EmptyString r
      else split_on sep (cur ++ String c EmptyString) r
  end.

(** The position of the first occurrence of [needle] in [hay]
    ([hay.find(needle)], [None] for -1). *)
Fixpoint find (needle hay : string) : option nat :=
  if startswith needle hay then Some 0
  else match hay with
       | EmptyString => None
       | String _ r => option_map S (find needle r)
       end.

Definition newline : ascii := ascii_of_nat 10.
Definition dquote_char : ascii := ascii_of_nat 34.
Definition nl : string := String newline EmptyString.
Definition dq : string := String dquote_char EmptyString.

(** Writing aid: [quoted s] is [s] with every apostrophe turned into a
    double quote, so that JSON text stays legible in this file. *)
Definition quoted (s : string) : string :=
  replace_char "'"%char dquote_char s.

(** All characters of [s] are white space. *)
Fixpoint all_space (s : string) : bool :=
  match s with
  | EmptyString => true
  | String c r => is_space c && all_space r
  end.

(** No character of [s] is white space. *)
Fixpoint no_space (s : string) : bool :=
  match s with
  | EmptyString => true
  | String c r => negb (is_space c) && no_space r
  end.

(** [sub] occurs in [s]: the meaning of "literal substring". *)
Definition substring_of (sub s : string) : Prop :=
  exists pre post, s = pre ++ sub ++ post.

End PyStr.

(* ===================================================================== *)
(** * Python values, exceptions and the library interfaces *)
(* ===================================================================== *)

(** A dynamically typed value: what [json.loads] can build, and the tuple
    that [ast.literal_eval] adds.  A float is kept as its IEEE-754 bit
    pattern.  The pairs of a [PDict] have distinct keys.  (The literals that
    only [ast.literal_eval] reads - bytes, sets, complex numbers - are left
    out of the model.) *)
#[warnings="-register-all"] Inductive pyval : Type :=
| PNone
| PBool (b : bool)
| PInt (z : Z)
| PFloat (bits : Z)
| PStr (s : string)
| PList (items : list pyval)
| PTuple (items : list pyval)
| PDict (pairs : list (pyval * pyval)).

(** An instance of a subclass of [Exception]: its type name and [str(e)]. *)
Inductive exn : Type := Exn (type_name : string) (message : string).

(** The outcome of code that may raise an [Exception]. *)
Inductive result (A : Type) : Type :=
| Ok (a : A)
| Raise (e : exn).
Arguments Ok {A} a.
Arguments Raise {A} e.

Definition bind {A B : Type} (r : result A) (k : A -> result B) : result B :=
  match r with
  | Ok a => k a
  | Raise e => Raise e
  end.

Notation "x <- r ;; k" := (bind r (fun x => k))
  (at level 61, r at next level, right associativity).

(** The outcome of [ast.literal_eval]: a value; [ValueError] or
    [SyntaxError] (the two classes the source catches, subclasses included);
    or any other exception, which the source does not catch - [TypeError]
    for an unhashable dictionary key, for one. *)
Inductive literal_outcome : Type :=
| LitValue (v : pyval)
| LitMalformed
| LitRaises (e : exn).

(** The outcome of [json.loads] on a [str]: a value;
    [json.JSONDecodeError]; a [ValueError] that is no [JSONDecodeError]
    (an integer literal of more digits than the interpreter converts);
    or an exception that is no [ValueError] at all ([RecursionError] on
    deep nesting).  The source catches the second class in strategies 1
    and 3, and the first class alone in strategy 4. *)
Inductive json_outcome : Type :=
| JsonValue (v : pyval)
| JsonDecodeError
| JsonValueError (e : exn)
| JsonRaises (e : exn).

(** The Python library as the source uses it. *)
Class PyLib : Type := {
json_loads : string -> json_outcome;
literal_eval : string -> literal_outcome;
(** [repr], which is what [str] returns on a value that is not a [str] *)
py_repr : pyval -> string;
html_unescape : string -> string
}.

(** What one agent call ([RLM(...)] followed by [rlm.completion]) can do:
    answer, raise an [Exception], or be interrupted ([KeyboardInterrupt],
    which is not an [Exception]). *)
Inductive agent_outcome : Type :=
| Response (response : string)
| AgentRaises (e : exn)
| AgentInterrupted.

(** The external agent, and the prompt text handed to it.  [World] is
    whatever the agent's answers depend on besides its arguments; a call
    takes the protocol text, the root prompt and the iteration budget. *)
Class Agent : Type := {
  World : Type;
  rlm_completion : World -> string -> string -> Z -> agent_outcome * World
}.

(** [textstat]: absent when the import fails.  A grade is a float, of
    which the source only asks whether it exceeds 8.0 and prints it. *)
Class Textstat : Type := {
  Grade : Type;
  flesch_kincaid_grade : option (string -> Grade);
  above_reading_level_warn : Grade -> bool;
  format_grade : Grade -> string
}.

Module Py.
Import PyStr.

(** [isinstance(v, dict)] *)
Definition is_dict (v : pyval) : bool :=
  match v with PDict _ => true | _ => false end.

(** [v == s] for a [str] [s] *)
Definition eq_str (v : pyval) (s : string) : bool :=
  match v with PStr t => String.eqb t s | _ => false end.

(** [v in (s1, s2, ...)] for a tuple of [str] *)
Definition in_strs (v : pyval) (l : list string) : bool :=
  existsb (eq_str v) l.

(** Lookup of a [str] key in the pairs of a dict. *)
Fixpoint lookup (pairs : list (pyval * pyval)) (key : string)
  : option pyval :=
  match pairs with
  | [] => None
  | (k, v) :: rest => if eq_str k key then Some v else lookup rest key
  end.

(** [d.get(key, default)] *)
Definition get (pairs : list (pyval * pyval)) (key : string)
    (default : pyval) : pyval :=
  match lookup pairs key with Some v => v | None => default end.

(** [key in d] *)
Definition has_key (pairs : list (pyval * pyval)) (key : string) : bool :=
  match lookup pairs key with Some _ => true | None => false end.

(** [bool(v)] *)
Definition truthy (v : pyval) : bool :=
  match v with
  | PNone => false
  | PBool b => b
  | PInt z => negb (Z.eqb z 0)
  | PFloat bits => negb (Z.eqb (Z.land bits (Z.ones 63)) 0)
  | PStr s => negb (String.eqb s EmptyString)
  | PList l | PTuple l => match l with [] => false | _ => true end
  | PDict l => match l with [] => false | _ => true end
  end.

(** [type(v).__name__] *)
Definition type_name (v : pyval) : string :=
  match v with
  | PNone => "NoneType"
  | PBool _ => "bool"
  | PInt _ => "int"
  | PFloat _ => "float"
  | PStr _ => "str"
  | PList _ => "list"
  | PTuple _ => "tuple"
  | PDict _ => "dict"
  end.

Fixpoint chars (s : string) : list pyval :=
  match s with
  | EmptyString => []
  | String c r => PStr (String c EmptyString) :: chars r
  end.

(** [for e in v]: the elements, or [TypeError] when [v] is not iterable. *)
Definition iterate (v : pyval) : result (list pyval) :=
  match v with
  | PList l | PTuple l => Ok l
  | PStr s => Ok (chars s)
  | PDict pairs => Ok (map fst pairs)
  | _ => Raise (Exn "TypeError"
                    ("'" ++ type_name v ++ "' object is not iterable"))
  end.

(** [str(v)] *)
Definition str `{PyLib} (v : pyval) : string :=
  match v with PStr s => s | _ => py_repr v end.

End Py.

(* ===================================================================== *)
(** * icf/types.py *)
(* ===================================================================== *)

Module TemplateVariable.
Import PyStr.

Record t : Type := make {
  section_id : string;
  heading : string;
  sub_section : option string;
  required : bool;
  instructions : string;
  required_text : string;
  suggested_text : string;
  complexity : list string;
  protocol_mapping : string;
  sponsor_mapping : string;
  is_in_protocol : bool;
  partially_in_protocol : bool;
  is_standard_text : bool;
  notes : string;
  csv_status : string
}.

(** The loop of [get_complexity_label]: the first tag that names a tier. *)
Fixpoint first_label (tags : list string) : option string :=
  match tags with
  | [] => None
  | c :: rest =>
      let cl := lower c in
      if contains "easy" cl then Some "Easy"
      else if contains "moderate" cl then Some "Moderate"
      else if contains "complex mapping" cl then Some "Complex"
      else if contains "potentially in protocol" cl then Some "Moderate"
      else first_label rest
  end.

Definition get_complexity_label (self : t) : string :=
  match first_label (complexity self) with
  | Some label => label
  | None => if negb (is_in_protocol self) then "Not in protocol"
            else "Moderate"
  end.
End TemplateVariable.

Module Evidence.
Record t : Type := make {
  quote : string;
  page : string;
  section : string
}.
End Evidence.

(** The fields that [_parse_response] fills with [data.get(...)] hold
    whatever the decoded record holds: they are [pyval]s. *)
Module ExtractionResult.
Record t : Type := make {
  section_id : pyval;
  heading : string;
  sub_section : option string;
  status : pyval;
  answer : pyval;
  filled_template : pyval;
  evidence : list Evidence.t;
  confidence : pyval;
  notes : pyval;
  raw_response : string;
  error : option string
}.

(** The six kinds of status that the class lists for its [status] field. *)
Definition statuses : list string :=
  ["FOUND"; "NOT_FOUND"; "PARTIAL"; "SKIPPED"; "STANDARD_TEXT"; "ERROR"].
End ExtractionResult.

Module ValidationResult.
Record t `{Textstat} : Type := make {
  section_id : pyval;
  quotes_verified : list bool;
  reading_grade_level : option Grade;
  issues : list string
}.
Arguments t {_}.
Arguments make {_} _ _ _ _.
Arguments section_id {_} _.
Arguments quotes_verified {_} _.
Arguments reading_grade_level {_} _.
Arguments issues {_} _.
End ValidationResult.

(* ===================================================================== *)
(** * icf/registry.py *)
(* ===================================================================== *)

Module Registry.
Import PyStr.

Section Complexity.
Context `{PyLib}.

Definition _parse_complexity (raw : string) : result (list string) :=
  let raw := strip raw in
  if String.eqb raw EmptyString then Ok []
  else if startswith "[" raw then
    match literal_eval raw with
    | LitValue (PList items) => Ok (map Py.str items)
    | LitValue _ => Ok [raw]
    | LitMalformed => Ok [raw]
    | LitRaises e => Raise e
    end
  else Ok [raw].
End Complexity.

Definition _classify_availability (complexity : list string)
  : bool * bool * bool :=
  let tags_lower := map lower complexity in
  let joined := join " " tags_lower in
  let has_not_in := contains "not in protocol" joined in
  let has_mapping :=
    existsb (fun kw => contains kw joined)
            ["easy mapping"; "moderate mapping"; "complex mapping"] in
  let has_standard := contains "standard text" joined in
  let has_potentially := contains "potentially in protocol" joined in
  if has_standard then (true, false, true)
  else if has_not_in && negb has_mapping && negb has_potentially
  then (false, false, false)
  else if has_not_in && (has_mapping || has_potentially)
  then (true, true, false)
  else (true, false, false).

Definition _parse_required (raw : string) : bool :=
  let lower := lower (strip raw) in
  if startswith "required" lower then true
  else if startswith "optional" lower then false
  else contains "required" lower && negb (contains "optional" lower).

Section Loading.
Context `{PyLib}.

(** [row[i]] when the row is long enough, the empty text otherwise: the
    source reads columns 0..7 after its length test and guards the others. *)
Definition cell (row : list string) (i : nat) : string :=
  nth i row EmptyString.

(** The body of the row loop after the two [continue] tests. *)
Definition variable_of_row (row : list string)
  : result TemplateVariable.t :=
  let csv_status := strip (cell row 1) in
  let section_id := strip (cell row 0) in
  let complexity_raw := strip (cell row 2) in
  let heading := html_unescape (strip (cell row 3)) in
  let sub_section :=
    match html_unescape (strip (cell row 4)) with
    | EmptyString => None
    | s => Some s
    end in
  let required_raw := strip (cell row 5) in
  let instructions := html_unescape (strip (cell row 6)) in
  let required_text := html_unescape (strip (cell row 7)) in
  let suggested_text :=
    if 8 <? List.length row then html_unescape (strip (cell row 8))
    else EmptyString in
  let protocol_mapping :=
    if 11 <? List.length row then html_unescape (strip (cell row 11))
    else EmptyString in
  let sponsor_mapping :=
    if 12 <? List.length row then html_unescape (strip (cell row 12))
    else EmptyString in
  let notes :=
    if 14 <? List.length row then html_unescape (strip (cell row 14))
    else EmptyString in
  complexity <- _parse_complexity complexity_raw ;;
  let '(is_in, partial, standard) := _classify_availability complexity in
  let required := _parse_required required_raw in
  Ok (TemplateVariable.make section_id heading sub_section required
        instructions required_text suggested_text complexity
        protocol_mapping sponsor_mapping is_in partial standard notes
        csv_status).

(** The rows that the loop passes over: fewer than 8 cells, or a status
    cell that reads "excluded" in any case. *)
Definition dropped (row : list string) : Prop :=
  List.length row < 8 \/ lower (cell row 1) = "excluded".

(** The row loop: [variables] is the list built so far. *)
Fixpoint load_rows (rows : list (list string))
    (variables : list TemplateVariable.t)
  : result (list TemplateVariable.t) :=
  match rows with
  | [] => Ok variables
  | row :: rest =>
      if List.length row <? 8 then load_rows rest variables
      else if String.eqb (lower (strip (cell row 1))) "excluded"
      then load_rows rest variables
      else
        v <- variable_of_row row ;;
        load_rows rest (variables ++ [v])%list
  end.

(** [load_template_registry(csv_path)].  [file] is what is at
    [csv_path]: nothing, or the rows that [csv.reader] yields. *)
Definition load_template_registry (csv_path : string)
    (file : option (list (list string)))
  : result (list TemplateVariable.t) :=
  match file with
  | None =>
      Raise (Exn "FileNotFoundError"
                 ("Template CSV not found: " ++ csv_path))
  | Some [] => Raise (Exn "StopIteration" EmptyString)
  | Some (_header :: rows) =>
      variables <- load_rows rows [] ;;
      match variables with
      | [] => Raise (Exn "ValueError"
                         ("No variables loaded from CSV: " ++ csv_path))
      | _ => Ok variables
      end
  end.
End Loading.

End Registry.

(* ===================================================================== *)
(** * icf/prompts.py *)
(* ===================================================================== *)

(** The text of the root prompt plays no part in the properties below: it
    is handed to the agent and never read again. *)
Class Prompts : Type := {
  build_extraction_prompt : TemplateVariable.t -> string
}.

(* ===================================================================== *)
(** * icf/extract.py *)
(* ===================================================================== *)

Module Extract.
Import PyStr.

(** The pairs of a decoded record. *)
Definition pydict : Type := list (pyval * pyval).

(** ** Balanced-brace candidates *)

(** The loop of [_extract_brace_candidates]: [rest] is the text from index
    [i] on. *)
Fixpoint brace_loop (text rest : string) (i : nat) (depth : Z)
    (start : option nat) (results : list string) : list string :=
  match rest with
  | EmptyString => results
  | String ch rest' =>
      if Ascii.eqb ch "{" then
        let start := if Z.eqb depth 0 then Some i else start in
        brace_loop text rest' (S i) (depth + 1) start results
      else if Ascii.eqb ch "}" then
        let depth := (depth - 1)%Z in
        match Z.eqb depth 0, start with
        | true, Some st =>
            brace_loop text rest' (S i) depth None
                       (results ++ [slice st (i + 1) text])%list
        | _, _ => brace_loop text rest' (S i) depth start results
        end
      else brace_loop text rest' (S i) depth start results
  end.

Definition _extract_brace_candidates (text : string) : list string :=
  brace_loop text text 0 0%Z None [].

(** ** The code fence

    [re.search(r"```(?:json)?\s*\n?(.*?)\n?```", raw, re.DOTALL)], group 1.

    A match starts at the first run of three backticks that has another
    such run after it, and that is the first run there is: the optional
    parts can all be empty and the lazy group takes any text.  From there
    the greedy parts take [json] when it is there and then all the white
    space ([\n?] finds none left), which never runs over a backtick; the
    lazy group then stops at the first place where a fence, or a newline
    and a fence, begins. *)
Definition fence : string := "```".

Fixpoint lazy_group (s : string) : option string :=
  if startswith (nl ++ fence) s || startswith fence s then Some EmptyString
  else match s with
       | EmptyString => None
       | String c r => option_map (String c) (lazy_group r)
       end.

Definition md_match_group1 (raw : string) : option string :=
  match find fence raw with
  | None => None
  | Some p =>
      let rest := drop (p + 3) raw in
      let rest := if startswith "json" rest then drop 4 rest else rest in
      lazy_group (lstrip rest)
  end.

Section Recovery.
Context `{PyLib}.

(** ** The strategies of [parse_extraction_json] *)

(** 1. [json.loads(stripped)] under
    [except (json.JSONDecodeError, ValueError)], accepted when a dict; an
    exception that is no [ValueError] leaves the function. *)
Definition direct_parse (stripped : string) : result (option pydict) :=
  match json_loads stripped with
  | JsonValue (PDict d) => Ok (Some d)
  | JsonValue _ => Ok None
  | JsonDecodeError => Ok None
  | JsonValueError _ => Ok None
  | JsonRaises e => Raise e
  end.

(** 2. [ast.literal_eval(stripped)], accepted when a dict; an exception
    other than [ValueError] and [SyntaxError] leaves the function. *)
Definition python_literal (stripped : string) : result (option pydict) :=
  match literal_eval stripped with
  | LitValue (PDict d) => Ok (Some d)
  | LitValue _ => Ok None
  | LitMalformed => Ok None
  | LitRaises e => Raise e
  end.

(** 3. The inside of a markdown code fence, parsed under the same
    handler as strategy 1. *)
Definition code_fence (raw : string) : result (option pydict) :=
  match md_match_group1 raw with
  | Some inner => direct_parse (strip inner)
  | None => Ok None
  end.

(** [json.loads(candidate)] under [except json.JSONDecodeError], as the
    loop of strategy 4 calls it: a dict, nothing, or the exception that
    this handler does not catch - a plain [ValueError] included. *)
Definition candidate_parse (candidate : string) : result (option pydict) :=
  match json_loads candidate with
  | JsonValue (PDict d) => Ok (Some d)
  | JsonValue _ => Ok None
  | JsonDecodeError => Ok None
  | JsonValueError e => Raise e
  | JsonRaises e => Raise e
  end.

(** 4+5. The loop over [reversed(candidates)]: [inl d] when the loop
    returns [d], [inr any_valid] when it runs to its end; an exception
    other than [JSONDecodeError] leaves the loop and the function. *)
Fixpoint scan_candidates (cands : list string) (any_valid : option pydict)
  : result (pydict + option pydict) :=
  match cands with
  | [] => Ok (inr any_valid)
  | candidate :: rest =>
      match json_loads candidate with
      | JsonValue (PDict data) =>
          if Py.has_key data "status" then Ok (inl data)
          else scan_candidates rest
                 (match any_valid with None => Some data | _ => any_valid end)
      | JsonValue _ => scan_candidates rest any_valid
      | JsonDecodeError => scan_candidates rest any_valid
      | JsonValueError e => Raise e
      | JsonRaises e => Raise e
      end
  end.

Definition balanced_braces (raw : string) : result (option pydict) :=
  match scan_candidates (rev (_extract_brace_candidates raw)) None with
  | Ok (inl data) => Ok (Some data)
  | Ok (inr any_valid) => Ok any_valid
  | Raise e => Raise e
  end.

(** Strategy 4 passes over [candidate]: [json.loads] raises
    [JSONDecodeError] on it, or yields a value that is no dict, or a dict
    without a "status" key. *)
Definition without_status (candidate : string) : Prop :=
  candidate_parse candidate = Ok None
  \/ exists data, candidate_parse candidate = Ok (Some data)
                  /\ Py.has_key data "status" = false.

Definition free_form_note : string :=
  "RLM returned free-form text instead of JSON. "
  ++ "Content may need manual review.".

(** 6. The free-form fallback. *)
Definition fallback (stripped : string) : option pydict :=
  if 20 <? String.length stripped then
    Some [ (PStr "status", PStr "PARTIAL");
           (PStr "answer", PStr stripped);
           (PStr "filled_template", PStr EmptyString);
           (PStr "evidence", PList []);
           (PStr "confidence", PStr "LOW");
           (PStr "notes", PStr free_form_note) ]
  else None.

Definition parse_extraction_json (raw : string) : result (option pydict) :=
  if String.eqb raw EmptyString then Ok None
  else
    let stripped := strip raw in
    data <- direct_parse stripped ;;
    match data with
    | Some data => Ok (Some data)
    | None =>
        obj <- python_literal stripped ;;
        match obj with
        | Some obj => Ok (Some obj)
        | None =>
            data <- code_fence raw ;;
            match data with
            | Some data => Ok (Some data)
            | None =>
                data <- balanced_braces raw ;;
                match data with
                | Some data => Ok (Some data)
                | None => Ok (fallback stripped)
                end
            end
        end
    end.

End Recovery.

(** ** The engine *)

Record ExtractionEngine : Type := { max_iterations : Z }.

(** What [extract_variable] does: return a result, or let a
    [KeyboardInterrupt] through. *)
Inductive extraction_outcome : Type :=
| Extracted (r : ExtractionResult.t)
| Interrupted.

Section Engine.
Context `{PyLib} `{Agent} `{Prompts}.
Variable self : ExtractionEngine.

Definition _iterations_for (variable : TemplateVariable.t) : Z :=
  let label := TemplateVariable.get_complexity_label variable in
  let budget :=
    if String.eqb label "Easy" then 10%Z
    else if String.eqb label "Moderate" then 15%Z
    else if String.eqb label "Complex" then max_iterations self
    else if String.eqb label "Not in protocol" then 8%Z
    else 12%Z in
  Z.min budget (max_iterations self).

Definition _make_standard_result (variable : TemplateVariable.t)
  : ExtractionResult.t :=
  ExtractionResult.make
    (PStr (TemplateVariable.section_id variable))
    (TemplateVariable.heading variable)
    (TemplateVariable.sub_section variable)
    (PStr "STANDARD_TEXT")
    (PStr (TemplateVariable.required_text variable))
    (PStr (TemplateVariable.required_text variable))
    []
    (PStr "HIGH")
    (PStr "Standard required text - no extraction needed.")
    EmptyString
    None.

Definition _make_skipped_result (variable : TemplateVariable.t)
  : ExtractionResult.t :=
  ExtractionResult.make
    (PStr (TemplateVariable.section_id variable))
    (TemplateVariable.heading variable)
    (TemplateVariable.sub_section variable)
    (PStr "SKIPPED")
    (PStr EmptyString)
    (PStr EmptyString)
    []
    (PStr "N/A")
    (PStr ("Section marked as 'Not in protocol - requires manual entry'. "
           ++ "Use suggested text from template as a starting point."))
    EmptyString
    None.

(** The result of the [except Exception as e] handler. *)
Definition exception_result (variable : TemplateVariable.t) (e : exn)
  : ExtractionResult.t :=
  let '(Exn type_name message) := e in
  ExtractionResult.make
    (PStr (TemplateVariable.section_id variable))
    (TemplateVariable.heading variable)
    (TemplateVariable.sub_section variable)
    (PStr "ERROR")
    (PStr EmptyString)
    (PStr EmptyString)
    []
    (PStr "LOW")
    (PStr EmptyString)
    EmptyString
    (Some (type_name ++ ": " ++ message)).

(** The result of [_parse_response] when [data is None]. *)
Definition parse_failure_result (raw : string)
    (variable : TemplateVariable.t) : ExtractionResult.t :=
  ExtractionResult.make
    (PStr (TemplateVariable.section_id variable))
    (TemplateVariable.heading variable)
    (TemplateVariable.sub_section variable)
    (PStr "ERROR")
    (PStr EmptyString)
    (PStr EmptyString)
    []
    (PStr "LOW")
    (PStr "Failed to parse JSON from RLM response.")
    raw
    (Some "JSON parse failure").

(** The evidence loop: one [Evidence] per element that is a dict. *)
Fixpoint evidence_of (items : list pyval) : list Evidence.t :=
  match items with
  | [] => []
  | PDict e :: rest =>
      Evidence.make (Py.str (Py.get e "quote" (PStr EmptyString)))
                    (Py.str (Py.get e "page" (PStr EmptyString)))
                    (Py.str (Py.get e "section" (PStr EmptyString)))
      :: evidence_of rest
  | _ :: rest => evidence_of rest
  end.

Definition _parse_response (raw : string) (variable : TemplateVariable.t)
  : result ExtractionResult.t :=
  data <- parse_extraction_json raw ;;
  match data with
  | None => Ok (parse_failure_result raw variable)
  | Some data =>
      items <- Py.iterate (Py.get data "evidence" (PList [])) ;;
      let evidence := evidence_of items in
      Ok (ExtractionResult.make
            (Py.get data "section_id"
                    (PStr (TemplateVariable.section_id variable)))
            (TemplateVariable.heading variable)
            (TemplateVariable.sub_section variable)
            (Py.get data "status" (PStr "ERROR"))
            (Py.get data "answer" (PStr EmptyString))
            (Py.get data "filled_template" (PStr EmptyString))
            evidence
            (Py.get data "confidence" (PStr "LOW"))
            (Py.get data "notes" (PStr EmptyString))
            raw
            None)
  end.

Definition _run_rlm_extraction (w : World) (protocol_text : string)
    (variable : TemplateVariable.t) : extraction_outcome * World :=
  let max_iter := _iterations_for variable in
  let root_prompt := build_extraction_prompt variable in
  match rlm_completion w protocol_text root_prompt max_iter with
  | (Response response, w') =>
      match _parse_response response variable with
      | Ok r => (Extracted r, w')
      | Raise e => (Extracted (exception_result variable e), w')
      end
  | (AgentRaises e, w') => (Extracted (exception_result variable e), w')
  | (AgentInterrupted, w') => (Interrupted, w')
  end.

Definition extract_variable (w : World) (protocol_text : string)
    (variable : TemplateVariable.t) : extraction_outcome * World :=
  if TemplateVariable.is_standard_text variable
  then (Extracted (_make_standard_result variable), w)
  else if negb (TemplateVariable.is_in_protocol variable)
          && negb (TemplateVariable.partially_in_protocol variable)
  then (Extracted (_make_skipped_result variable), w)
  else _run_rlm_extraction w protocol_text variable.

End Engine.
End Extract.

(* ===================================================================== *)
(** * icf/validate.py *)
(* ===================================================================== *)

Module Validate.
Import PyStr.

Definition _normalise (text : string) : string :=
  join " " (split (lower text)).

(** The separators of [re.split(r"[,.]", ...)]. *)
Definition comma_or_period (c : ascii) : bool :=
  Ascii.eqb c "," || Ascii.eqb c ".".

(** [verify_quote(quote, protocol_text)].  The test
    [found / len(phrases) >= 0.5] on two counts is [len <= 2 * found]. *)
Definition verify_quote (quote protocol_text : string) : bool :=
  if String.eqb quote EmptyString || String.eqb protocol_text EmptyString
  then false
  else
    let norm_q := _normalise quote in
    let norm_p := _normalise protocol_text in
    if contains norm_q norm_p then true
    else
      let prefix := take 120 norm_q in
      if (30 <? String.length prefix) && contains prefix norm_p then true
      else
        let phrases :=
          map strip
              (filter (fun p => 15 <? String.length (strip p))
                      (split_on comma_or_period EmptyString norm_q)) in
        match phrases with
        | [] => false
        | _ =>
            let found :=
              List.length (filter (fun p => contains p norm_p) phrases) in
            List.length phrases <=? 2 * found
        end.

(** The message appended for a quote that is not verified. *)
Definition quote_issue (quote : string) : string :=
  let short := replace_char newline " " (take 80 quote) in
  "Quote not verified in protocol: " ++ dq ++ short ++ "..." ++ dq.

(** The test [not ok] of the loop below: the quote of [ev] is not
    verified. *)
Definition failed (protocol_text : string) (ev : Evidence.t) : bool :=
  negb (verify_quote (Evidence.quote ev) protocol_text).

(** The loop over [ext.evidence]: the flags and the issues, both in the
    order of the evidence. *)
Fixpoint verify_quotes (evidence : list Evidence.t) (protocol_text : string)
    (quotes_ok : list bool) (issues : list string)
  : list bool * list string :=
  match evidence with
  | [] => (quotes_ok, issues)
  | ev :: rest =>
      let ok := verify_quote (Evidence.quote ev) protocol_text in
      let quotes_ok := (quotes_ok ++ [ok])%list in
      let issues :=
        if negb ok then (issues ++ [quote_issue (Evidence.quote ev)])%list
        else issues in
      verify_quotes rest protocol_text quotes_ok issues
  end.

Section Checks.
Context `{Textstat}.

(** [check_reading_level(text)].  The source calls [text.split()], which
    only a [str] has. *)
Definition check_reading_level (text : pyval) : result (option Grade) :=
  if negb (Py.truthy text) then Ok None
  else
    match text with
    | PStr s =>
        if List.length (split s) <? 10 then Ok None
        else match flesch_kincaid_grade with
             | Some grade_of => Ok (Some (grade_of s))
             | None => Ok None
             end
    | _ => Raise (Exn "AttributeError"
                      ("'" ++ Py.type_name text
                           ++ "' object has no attribute 'split'"))
    end.

Definition skipped_statuses : list string :=
  ["SKIPPED"; "ERROR"; "NOT_FOUND"; "STANDARD_TEXT"].

Definition reading_level_issue (grade : Grade) : string :=
  "Reading level (" ++ format_grade grade ++ ") exceeds Grade 8 target.".

(** The body of the loop of [validate_extractions] for one extraction. *)
Definition validate_one (ext : ExtractionResult.t) (protocol_text : string)
  : result ValidationResult.t :=
  if Py.in_strs (ExtractionResult.status ext) skipped_statuses
  then Ok (ValidationResult.make (ExtractionResult.section_id ext) [] None [])
  else
    let '(quotes_ok, issues) :=
      verify_quotes (ExtractionResult.evidence ext) protocol_text [] [] in
    grade <- check_reading_level (ExtractionResult.answer ext) ;;
    let issues :=
      match grade with
      | Some g => if above_reading_level_warn g
                  then (issues ++ [reading_level_issue g])%list
                  else issues
      | None => issues
      end in
    Ok (ValidationResult.make (ExtractionResult.section_id ext)
                              quotes_ok grade issues).

(** The reading-level check can be made on the answer of [ext], or is not
    reached: the status is one that is skipped, or the answer is a [str],
    or it is a value that counts as false. *)
Definition checkable (ext : ExtractionResult.t) : bool :=
  Py.in_strs (ExtractionResult.status ext) skipped_statuses
  || negb (Py.truthy (ExtractionResult.answer ext))
  || match ExtractionResult.answer ext with PStr _ => true | _ => false end.

Fixpoint validate_loop (extractions : list ExtractionResult.t)
    (protocol_text : string) (results : list ValidationResult.t)
  : result (list ValidationResult.t) :=
  match extractions with
  | [] => Ok results
  | ext :: rest =>
      v <- validate_one ext protocol_text ;;
      validate_loop rest protocol_text (results ++ [v])%list
  end.

Definition validate_extractions (extractions : list ExtractionResult.t)
    (protocol_text : string) : result (list ValidationResult.t) :=
  validate_loop extractions protocol_text [].

End Checks.
End Validate.

(* ===================================================================== *)
(** * icf/pipeline.py *)
(* ===================================================================== *)

Module Pipeline.

Section Run.
Context `{PyLib} `{Agent} `{Prompts} `{Textstat}.
Variable engine : Extract.ExtractionEngine.

(** The extraction loop of [ICFPipeline.run] with its
    [except KeyboardInterrupt]: an interrupted call ends the loop and
    leaves the results gathered so far.  The interrupt of this model is
    the one that arrives while the agent call runs, which is where a run
    spends its time; one that arrives at another point of the loop body
    is not modelled. *)
Fixpoint extract_all (w : World) (protocol_text : string)
    (variables : list TemplateVariable.t)
    (extractions : list ExtractionResult.t)
  : list ExtractionResult.t * World :=
  match variables with
  | [] => (extractions, w)
  | var :: rest =>
      match Extract.extract_variable engine w protocol_text var with
      | (Extract.Extracted result, w') =>
          extract_all w' protocol_text rest (extractions ++ [result])%list
      | (Extract.Interrupted, w') => (extractions, w')
      end
  end.

(** Stages 3 to 5 of [ICFPipeline.run]: the extractions and their
    validations, as they go into the [PipelineResult]. *)
Definition run_extract_validate (w : World) (protocol_text : string)
    (variables : list TemplateVariable.t)
  : result (list ExtractionResult.t * list ValidationResult.t) * World :=
  let '(extractions, w') := extract_all w protocol_text variables [] in
  (validations <- Validate.validate_extractions extractions protocol_text ;;
   Ok (extractions, validations), w').

(** What the router's result for a work item takes from the item: the
    headings always; the identifier, unless the result is built from a
    recovered record that has a "section_id" key of its own, whose value
    it then carries.  (A result that is not built from a record keeps no
    raw response from which recovery yields one.) *)
Definition routed (variable : TemplateVariable.t) (r : ExtractionResult.t)
  : Prop :=
  ExtractionResult.heading r = TemplateVariable.heading variable
  /\ ExtractionResult.sub_section r = TemplateVariable.sub_section variable
  /\ ExtractionResult.section_id r
     = match Extract.parse_extraction_json (ExtractionResult.raw_response r)
       with
       | Ok (Some data) =>
           Py.get data "section_id"
                  (PStr (TemplateVariable.section_id variable))
       | _ => PStr (TemplateVariable.section_id variable)
       end.

(** No call of the agent is interrupted during the run over
    [variables].  (This says nothing of an interrupt that arrives outside
    a call of the agent.) *)
Fixpoint uninterrupted (w : World) (protocol_text : string)
    (variables : list TemplateVariable.t) : bool :=
  match variables with
  | [] => true
  | var :: rest =>
      match Extract.extract_variable engine w protocol_text var with
      | (Extract.Extracted _, w') => uninterrupted w' protocol_text rest
      | (Extract.Interrupted, _) => false
      end
  end.

End Run.

(** The router needs no agent for [variable]: it is standard text, or
    not in the protocol at all. *)
Definition needs_no_agent (variable : TemplateVariable.t) : bool :=
  TemplateVariable.is_standard_text variable
  || negb (TemplateVariable.is_in_protocol variable)
     && negb (TemplateVariable.partially_in_protocol variable).

(** The result of the router for such a variable. *)
Definition short_circuit (variable : TemplateVariable.t)
  : ExtractionResult.t :=
  if TemplateVariable.is_standard_text variable
  then Extract._make_standard_result variable
  else Extract._make_skipped_result variable.

End Pipeline.

(* ===================================================================== *)
(** * The specification's wording, for comparison *)
(* ===================================================================== *)

Module Spec.
Import PyStr.

(** ** The decision table of the item classifier, tag by tag

    The specification tests the tags one by one: "any tag contains ..." and
    "the tag set contains ...", case-insensitively. *)
Definition any_tag_contains (kw : string) (tags : list string) : bool :=
  existsb (fun tag => contains kw (lower tag)) tags.

Definition decision_table_by_tag (tags : list string) : bool * bool * bool :=
  let not_in := any_tag_contains "not in protocol" tags in
  let mapping :=
    existsb (fun kw => any_tag_contains kw tags)
            ["easy mapping"; "moderate mapping"; "complex mapping"] in
  let potentially := any_tag_contains "potentially in protocol" tags in
  if any_tag_contains "standard text" tags then (true, false, true)
  else if not_in && negb mapping && negb potentially
  then (false, false, false)
  else if not_in && (mapping || potentially) then (true, true, false)
  else (true, false, false).

(** ** Maximal brace-balanced substrings

    A brace group of a text is a substring that starts at a [{] and ends at
    the [}] that closes it; it is maximal when no other group of the text
    encloses it. *)

(** The number of characters of [s] up to and including the [}] that
    brings a depth of [depth] back to zero. *)
Fixpoint close_at (s : string) (depth : nat) : option nat :=
  match s with
  | EmptyString => None
  | String c r =>
      if Ascii.eqb c "{" then option_map S (close_at r (S depth))
      else if Ascii.eqb c "}" then
        match depth with
        | 0 => None
        | 1 => Some 1
        | S d => option_map S (close_at r d)
        end
      else option_map S (close_at r depth)
  end.

(** The length of the group that starts at the head of [s], if one does. *)
Definition group_length (s : string) : option nat :=
  match s with
  | String c r =>
      if Ascii.eqb c "{" then option_map S (close_at r 1) else None
  | EmptyString => None
  end.

(** The groups of the text whose suffix from index [i] is [s], as spans
    [(start, stop)], in the order of their starts. *)
Fixpoint groups_from (s : string) (i : nat) : list (nat * nat) :=
  match s with
  | EmptyString => []
  | String _ r =>
      match group_length s with
      | Some n => (i, i + n) :: groups_from r (S i)
      | None => groups_from r (S i)
      end
  end.

(** Span [a] encloses the different span [b]. *)
Definition encloses (a b : nat * nat) : bool :=
  (fst a <=? fst b) && (snd b <=? snd a)
  && negb ((fst a =? fst b) && (snd a =? snd b)).

(** A group is maximal among [groups] when none of them encloses it. *)
Definition maximal_in (groups : list (nat * nat)) (g : nat * nat) : bool :=
  negb (existsb (fun h => encloses h g) groups).

Definition maximal_brace_groups (text : string) : list string :=
  let groups := groups_from text 0 in
  map (fun g => slice (fst g) (snd g) text)
      (filter (maximal_in groups) groups).

(** ** Texts whose braces are all matched *)

(** Reading [s] at depth [depth], no closing brace comes without an open
    one before it, and the depth is back at zero at the end. *)
Fixpoint closes (s : string) (depth : nat) : bool :=
  match s with
  | EmptyString => depth =? 0
  | String c r =>
      if Ascii.eqb c "{" then closes r (S depth)
      else if Ascii.eqb c "}" then
        match depth with
        | 0 => false
        | S d => closes r d
        end
      else closes r depth
  end.

Definition balanced (s : string) : bool := closes s 0.

(** ** Well-nested texts

    A text in which every brace has its partner is a sequence of plain
    characters and of groups, each group holding such a sequence. *)
Inductive nest : Type :=
| Stop
| Plain (c : ascii) (rest : nest)
| Group (inner rest : nest).

Fixpoint text_of (n : nest) : string :=
  match n with
  | Stop => EmptyString
  | Plain c rest => String c (text_of rest)
  | Group inner rest =>
      String "{" (text_of inner ++ String "}" (text_of rest))
  end.

Definition is_brace (c : ascii) : bool :=
  Ascii.eqb c "{" || Ascii.eqb c "}".

(** The text of some trees, each followed by the brace that closes the
    level it is in. *)
Fixpoint closed_levels (levels : list nest) : string :=
  match levels with
  | [] => EmptyString
  | n :: rest => text_of n ++ String "}" (closed_levels rest)
  end.

(** The plain characters of the tree are no braces. *)
Fixpoint well_formed (n : nest) : bool :=
  match n with
  | Stop => true
  | Plain c rest => negb (is_brace c) && well_formed rest
  | Group inner rest => well_formed inner && well_formed rest
  end.

(** The length of [text_of n]. *)
Fixpoint span (n : nest) : nat :=
  match n with
  | Stop => 0
  | Plain _ rest => S (span rest)
  | Group inner rest => span inner + 2 + span rest
  end.

(** The groups of [text_of n], when it starts at index [j]: all of them,
    and those at the top level. *)
Fixpoint all_groups (n : nest) (j : nat) : list (nat * nat) :=
  match n with
  | Stop => []
  | Plain _ rest => all_groups rest (S j)
  | Group inner rest =>
      ((j, j + (span inner + 2)) :: all_groups inner (S j)
         ++ all_groups rest (j + (span inner + 2)))%list
  end.

Fixpoint top_groups (n : nest) (j : nat) : list (nat * nat) :=
  match n with
  | Stop => []
  | Plain _ rest => top_groups rest (S j)
  | Group inner rest =>
      (j, j + (span inner + 2)) :: top_groups rest (j + (span inner + 2))
  end.

End Spec.

(* ===================================================================== *)
(** * A scripted environment, for running the model *)
(* ===================================================================== *)

Module Sample.
Import PyStr.

(** Three records that an agent may write, as JSON text and decoded. *)
Definition found_text : string := quoted "{'status': 'FOUND'}".
Definition found_record : pyval := PDict [(PStr "status", PStr "FOUND")].

Definition maybe_text : string := quoted "{'status': 'MAYBE'}".
Definition maybe_record : pyval := PDict [(PStr "status", PStr "MAYBE")].

Definition renamed_text : string :=
  quoted "{'section_id': '9.9', 'status': 'FOUND', 'answer': 'yes'}".
Definition renamed_record : pyval :=
  PDict [(PStr "section_id", PStr "9.9"); (PStr "status", PStr "FOUND");
         (PStr "answer", PStr "yes")].

Definition answer_text : string := quoted "{'answer': 'x'}".
Definition answer_record : pyval := PDict [(PStr "answer", PStr "x")].

Definition skipped_text : string :=
  quoted "{'status': 'SKIPPED', 'evidence': [{'quote': 'q', 'page': '1'}]}".
Definition skipped_record : pyval :=
  PDict [(PStr "status", PStr "SKIPPED");
         (PStr "evidence",
          PList [PDict [(PStr "quote", PStr "q"); (PStr "page", PStr "1")]])].

Definition fenced_inner : string := quoted "{'status':'FOUND','answer':'x'}".
Definition fenced_record : pyval :=
  PDict [(PStr "status", PStr "FOUND"); (PStr "answer", PStr "x")].

(** The same record inside a markdown code fence. *)
Definition fenced_text : string :=
  "```json" ++ nl ++ fenced_inner ++ nl ++ "```".

Definition other_answer_text : string := quoted "{'answer': 'y'}".
Definition other_answer_record : pyval := PDict [(PStr "answer", PStr "y")].

(** A record whose answer is a number. *)
Definition number_answer_text : string :=
  quoted "{'status': 'FOUND', 'answer': 5}".
Definition number_answer_record : pyval :=
  PDict [(PStr "status", PStr "FOUND"); (PStr "answer", PInt 5)].

(** [n] times the digit 1. *)
Fixpoint ones (n : nat) : string :=
  match n with
  | O => EmptyString
  | S k => String "1" (ones k)
  end.

(** An object that holds an integer of 4301 digits, one more than the
    interpreter converts: [json.loads] raises a plain [ValueError] on
    it. *)
Definition long_integer_text : string :=
  quoted "{'n': " ++ ones 4301 ++ "}".

Definition long_integer_error : exn :=
  Exn "ValueError"
      ("Exceeds the limit (4300 digits) for integer string conversion: "
       ++ "value has 4301 digits; use sys.set_int_max_str_digits() "
       ++ "to increase the limit").

(** [json.loads] on the texts above; on the other texts that the examples
    of this file hand to it (prose, texts with an unmatched brace, and
    texts that hold more than one object) it raises [JSONDecodeError]. *)
Definition sample_json_loads (s : string) : json_outcome :=
  if String.eqb s found_text then JsonValue found_record
  else if String.eqb s maybe_text then JsonValue maybe_record
  else if String.eqb s renamed_text then JsonValue renamed_record
  else if String.eqb s answer_text then JsonValue answer_record
  else if String.eqb s other_answer_text then JsonValue other_answer_record
  else if String.eqb s number_answer_text then JsonValue number_answer_record
  else if String.eqb s skipped_text then JsonValue skipped_record
  else if String.eqb s fenced_inner then JsonValue fenced_record
  else if String.eqb s long_integer_text then JsonValueError long_integer_error
  else JsonDecodeError.

(** [ast.literal_eval] reads the records above as the same dicts, and
    raises [SyntaxError] or [ValueError] on the other texts of the
    examples (the integer of 4301 digits is a [SyntaxError] to it). *)
Definition sample_literal_eval (s : string) : literal_outcome :=
  match sample_json_loads s with
  | JsonValue v => LitValue v
  | _ => LitMalformed
  end.

(** [repr] where the examples need it. *)
Definition sample_repr (v : pyval) : string :=
  match v with
  | PNone => "None"
  | PBool true => "True"
  | PBool false => "False"
  | _ => EmptyString
  end.

Definition sample_lib : PyLib := {|
  json_loads := sample_json_loads;
  literal_eval := sample_literal_eval;
  py_repr := sample_repr;
  html_unescape := fun s => s
|}.

(** An agent that plays a script: one outcome per call. *)
Definition scripted_agent : Agent := {|
  World := list agent_outcome;
  rlm_completion := fun script _ _ _ =>
    match script with
    | outcome :: rest => (outcome, rest)
    | [] => (AgentRaises (Exn "RuntimeError" "the script is over"), [])
    end
|}.

Definition sample_prompts : Prompts := {|
  build_extraction_prompt := fun var =>
    "Extract section [" ++ TemplateVariable.section_id var ++ "]."
|}.

(** An installation without [textstat]. *)
Definition no_textstat : Textstat := {|
  Grade := Z;
  flesch_kincaid_grade := None;
  above_reading_level_warn := fun g => (80 <? g)%Z;
  format_grade := fun _ => EmptyString
|}.

Definition engine : Extract.ExtractionEngine :=
  {| Extract.max_iterations := 20 |}.

(** A work item with the given identifier and availability flags. *)
Definition item (id : string) (tags : list string)
    (in_protocol partially standard : bool) : TemplateVariable.t :=
  TemplateVariable.make id "Heading" None true "Instructions"
    "Required text" "Suggested text" tags EmptyString EmptyString
    in_protocol partially standard EmptyString "Included".

Definition easy_item : TemplateVariable.t :=
  item "1.1" ["Easy mapping"] true false false.

Definition standard_item : TemplateVariable.t :=
  item "2.1" ["Standard Text"] true false true.

Definition absent_item : TemplateVariable.t :=
  item "3.1" ["Not in Protocol"] false false false.

(** What the router builds from [found_text] for [easy_item]. *)
Definition found_result : ExtractionResult.t :=
  ExtractionResult.make (PStr "1.1") "Heading" None (PStr "FOUND")
    (PStr EmptyString) (PStr EmptyString) [] (PStr "LOW") (PStr EmptyString)
    found_text None.

(** What the router builds from [skipped_text] for [easy_item]. *)
Definition quoted_result : ExtractionResult.t :=
  ExtractionResult.make (PStr "1.1") "Heading" None (PStr "SKIPPED")
    (PStr EmptyString) (PStr EmptyString)
    [Evidence.make "q" "1" EmptyString] (PStr "LOW") (PStr EmptyString)
    skipped_text None.

(** What the router builds from [renamed_text] for [easy_item]. *)
Definition renamed_result : ExtractionResult.t :=
  ExtractionResult.make (PStr "9.9") "Heading" None (PStr "FOUND")
    (PStr "yes") (PStr EmptyString) [] (PStr "LOW") (PStr EmptyString)
    renamed_text None.

(** The recovery parser, the router and the run in this environment. *)
Definition recover : string -> result (option Extract.pydict) :=
  @Extract.parse_extraction_json sample_lib.

Definition route (script : list agent_outcome) (variable : TemplateVariable.t)
  : Extract.extraction_outcome * list agent_outcome :=
  @Extract.extract_variable sample_lib scripted_agent sample_prompts engine
    script "protocol text" variable.

Definition run (script : list agent_outcome)
    (variables : list TemplateVariable.t)
  : result (list ExtractionResult.t * list (@ValidationResult.t no_textstat))
    * list agent_outcome :=
  @Pipeline.run_extract_validate sample_lib scripted_agent sample_prompts
    no_textstat engine script "protocol text" variables.

Definition run_uninterrupted (script : list agent_outcome)
    (variables : list TemplateVariable.t) : bool :=
  @Pipeline.uninterrupted sample_lib scripted_agent sample_prompts engine
    script "protocol text" variables.

(** A registry file: a header, a short row, an excluded row, a row that
    is loaded. *)
Definition header_row : list string :=
  ["Section #"; "Status"; "Content Complexity"; "Section Heading";
   "Sub-section"; "Required or Optional"; "Section Instructions";
   "Required Text"].

Definition short_row : list string := ["1.0"; "Included"; "Easy mapping"].

Definition excluded_row : list string :=
  ["1.1"; "EXCLUDED"; "Easy mapping"; "Title"; EmptyString; "Required";
   "Find the title"; "Title: {{title}}"].

Definition included_row : list string :=
  ["1.2"; "Included"; "Easy mapping"; "Sponsor"; EmptyString; "Required";
   "Find the sponsor"; "Sponsor: {{sponsor}}"].

Definition validate (extractions : list ExtractionResult.t)
    (protocol_text : string)
  : result (list (@ValidationResult.t no_textstat)) :=
  @Validate.validate_extractions no_textstat extractions protocol_text.

Definition load (rows : list (list string))
  : result (list TemplateVariable.t) :=
  @Registry.load_template_registry sample_lib "template.csv" (Some rows).

End Sample.

(* ===================================================================== *)
(** * White space collapsed, character by character *)
(* ===================================================================== *)

Module Normal.
Import PyStr.

(** What [" ".join(s.split())] makes of [s], read from left to right.
    [in_text] says that a word has been written already, so that the next
    word takes a space before it. *)
Fixpoint squeeze (in_text : bool) (s : string) : string :=
  match s with
  | EmptyString => EmptyString
  | String c r =>
      if is_space c then
        if in_text then
          match squeeze false r with
          | EmptyString => EmptyString
          | h => String " " h
          end
        else squeeze false r
      else String c (squeeze true r)
  end.

End Normal.

(* ===================================================================== *)
(** * The rows that the registry keeps *)
(* ===================================================================== *)

Module Rows.
Import PyStr.

(** The row passes both tests of the row loop: it has 8 cells or more and
    its status cell does not read "excluded". *)
Definition kept (row : list string) : bool :=
  negb (List.length row <? 8)
  && negb (String.eqb (lower (strip (Registry.cell row 1))) "excluded").

(** The three flags of a variable, as [_classify_availability] orders
    them. *)
Definition flags (v : TemplateVariable.t) : bool * bool * bool :=
  (TemplateVariable.is_in_protocol v,
   TemplateVariable.partially_in_protocol v,
   TemplateVariable.is_standard_text v).

End Rows.

(* ===================================================================== *)
(** * icf/pipeline.py: the run summary, and the exit status of the CLI *)
(* ===================================================================== *)

Module Summary.
Import PyStr.

(** [hash(v)]: nothing when [v] can be a dictionary key, and else the
    type named in the [TypeError] - a list, a dict, or the first of them
    inside a tuple. *)
Fixpoint unhashable (v : pyval) : option string :=
  match v with
  | PList _ => Some "list"
  | PDict _ => Some "dict"
  | PTuple items =>
      (fix first (l : list pyval) : option string :=
         match l with
         | [] => None
         | x :: rest =>
             match unhashable x with
             | Some t => Some t
             | None => first rest
             end
         end) items
  | _ => None
  end.

(** The [counts] dictionary, as far as it is read: its [str] keys.  (A
    status that is hashable and not a [str] makes an entry that no later
    line reads.) *)
Definition counts : Type := list (string * nat).

Definition initial_counts : counts :=
  [("FOUND", 0); ("PARTIAL", 0); ("NOT_FOUND", 0); ("SKIPPED", 0);
   ("STANDARD_TEXT", 0); ("ERROR", 0)].

(** [counts.get(key, 0)], which is [counts[key]] for a key that is there *)
Fixpoint count_of (c : counts) (key : string) : nat :=
  match c with
  | [] => 0
  | (k, n) :: rest => if String.eqb k key then n else count_of rest key
  end.

(** [counts[key] = counts.get(key, 0) + 1] *)
Fixpoint increment (c : counts) (key : string) : counts :=
  match c with
  | [] => [(key, 1)]
  | (k, n) :: rest =>
      if String.eqb k key then (k, S n) :: rest
      else (k, n) :: increment rest key
  end.

(** The loop [for e in extractions] of [_build_summary]. *)
Fixpoint count_statuses (extractions : list ExtractionResult.t) (c : counts)
  : result counts :=
  match extractions with
  | [] => Ok c
  | e :: rest =>
      match unhashable (ExtractionResult.status e) with
      | Some t => Raise (Exn "TypeError" ("unhashable type: '" ++ t ++ "'"))
      | None =>
          count_statuses rest
            (match ExtractionResult.status e with
             | PStr s => increment c s
             | _ => c
             end)
      end
  end.

Section Build.
Context `{Textstat}.
(** The elapsed time is a float: [round1] is [round(elapsed, 1)]. *)
Variable Seconds : Type.
Variable round1 : Seconds -> Seconds.

Record t : Type := make {
  total_sections : nat;
  found : nat;
  partial : nat;
  not_found : nat;
  skipped : nat;
  standard_text : nat;
  errors : nat;
  validation_issues : nat;
  elapsed_seconds : Seconds
}.

(** [sum(len(v.issues) for v in validations)] *)
Fixpoint total_issues (validations : list ValidationResult.t) : nat :=
  match validations with
  | [] => 0
  | v :: rest => List.length (ValidationResult.issues v) + total_issues rest
  end.

Definition _build_summary (extractions : list ExtractionResult.t)
    (validations : list ValidationResult.t) (elapsed : Seconds) : result t :=
  let total := List.length extractions in
  c <- count_statuses extractions initial_counts ;;
  Ok (make total
           (count_of c "FOUND")
           (count_of c "PARTIAL")
           (count_of c "NOT_FOUND")
           (count_of c "SKIPPED")
           (count_of c "STANDARD_TEXT")
           (count_of c "ERROR")
           (total_issues validations)
           (round1 elapsed)).

(** The exit status of [run_pipeline.main] for a run that ended with this
    summary: 1 when [summary.get("errors", 0) > 0]. *)
Definition exit_status (summary : t) : Z :=
  if 0 <? errors summary then 1%Z else 0%Z.

End Build.

(** The status of [e] is none of the six kinds. *)
Definition other_status (e : ExtractionResult.t) : bool :=
  negb (Py.in_strs (ExtractionResult.status e) ExtractionResult.statuses).

(** The extractions whose status is the [str] [s]. *)
Definition with_status (s : string)
    (extractions : list ExtractionResult.t) : list ExtractionResult.t :=
  filter (fun e => Py.eq_str (ExtractionResult.status e) s) extractions.

End Summary.

(* ===================================================================== *)
(** * icf/types.py and icf/ingest.py: the page-indexed protocol *)
(* ===================================================================== *)

Module ProtocolPage.
Record t : Type := make {
  page_number : Z;
  text : string
}.
End ProtocolPage.

Module IndexedProtocol.
Import PyStr.

Record t : Type := make {
  pages : list ProtocolPage.t;
  full_text : string;
  total_pages : Z;
  source_path : string
}.

Section Text.
Context `{PyLib}.

(** [f"--- PAGE {page.page_number} ---\n{page.text}"] *)
Definition page_block (page : ProtocolPage.t) : string :=
  "--- PAGE " ++ Py.str (PInt (ProtocolPage.page_number page)) ++ " ---"
  ++ nl ++ ProtocolPage.text page.

Definition get_page_text (self : t) : string :=
  join nl (map page_block (pages self)).

Definition get_pages_range (self : t) (first last : Z) : string :=
  join nl
    (map page_block
       (filter (fun page =>
                  (first <=? ProtocolPage.page_number page)%Z
                  && (ProtocolPage.page_number page <=? last)%Z)
               (pages self))).

End Text.
End IndexedProtocol.

Module Ingest.
Import PyStr.

Section Loaders.
Context `{PyLib}.

(** The loop of [load_pdf]: [reader_pages] holds what [extract_text]
    returns for the pages from index [i] on. *)
Fixpoint pdf_loop (reader_pages : list (option string)) (i : Z)
    (pages : list ProtocolPage.t) (full_text_parts : list string)
  : list ProtocolPage.t * list string :=
  match reader_pages with
  | [] => (pages, full_text_parts)
  | extracted :: rest =>
      let text := match extracted with
                  | Some t => t
                  | None => EmptyString
                  end in
      match strip text with
      | EmptyString => pdf_loop rest (i + 1) pages full_text_parts
      | _ =>
          let page_obj := ProtocolPage.make (i + 1) text in
          let part :=
            "--- PAGE " ++ Py.str (PInt (i + 1)) ++ " ---" ++ nl ++ text in
          pdf_loop rest (i + 1) (pages ++ [page_obj])%list
            (full_text_parts ++ [part])%list
      end
  end.

(** [load_pdf(filepath)].  [file] is what is at [filepath]: nothing, or
    a PDF whose pages give these texts. *)
Definition load_pdf (filepath : string) (file : option (list (option string)))
  : result IndexedProtocol.t :=
  match file with
  | None =>
      Raise (Exn "FileNotFoundError"
                 ("Protocol PDF not found: " ++ filepath))
  | Some reader_pages =>
      let '(pages, full_text_parts) := pdf_loop reader_pages 0 [] [] in
      match pages with
      | [] => Raise (Exn "ValueError"
                         ("No text could be extracted from PDF: "
                            ++ filepath))
      | _ => Ok (IndexedProtocol.make pages (join nl full_text_parts)
                   (Z.of_nat (List.length reader_pages)) filepath)
      end
  end.

(** The variables that [flush_page] shares with the loop of [load_docx]. *)
Record docx_state : Type := {
  current_page : Z;
  current_parts : list string;
  current_length : nat;
  pages : list ProtocolPage.t
}.

Definition PAGE_CHAR_LIMIT : nat := 3000.

Definition flush_page (st : docx_state) : docx_state :=
  match current_parts st with
  | [] => st
  | parts =>
      {| current_page := current_page st + 1;
         current_parts := [];
         current_length := 0;
         pages := (pages st
                     ++ [ProtocolPage.make (current_page st)
                           (join nl parts)])%list |}
  end.

(** One turn of the loop over the paragraphs: a paragraph is its text and
    whether one of its runs holds a hard page break. *)
Definition docx_step (st : docx_state) (para : string * bool) : docx_state :=
  let text := strip (fst para) in
  match text with
  | EmptyString => st
  | _ =>
      let has_page_break := snd para in
      let st :=
        if has_page_break
           && match current_parts st with [] => false | _ => true end
        then flush_page st else st in
      let st :=
        {| current_page := current_page st;
           current_parts := (current_parts st ++ [text])%list;
           current_length := current_length st + String.length text;
           pages := pages st |} in
      if PAGE_CHAR_LIMIT <=? current_length st then flush_page st else st
  end.

Definition docx_loop (paragraphs : list (string * bool)) (st : docx_state)
  : docx_state :=
  fold_left docx_step paragraphs st.

Definition docx_start : docx_state :=
  {| current_page := 1; current_parts := []; current_length := 0;
     pages := [] |}.

(** [load_docx(filepath)].  [file] is what is at [filepath]: nothing, or
    a document with these paragraphs. *)
Definition load_docx (filepath : string)
    (file : option (list (string * bool))) : result IndexedProtocol.t :=
  match file with
  | None =>
      Raise (Exn "FileNotFoundError"
                 ("Protocol DOCX not found: " ++ filepath))
  | Some paragraphs =>
      let st := flush_page (docx_loop paragraphs docx_start) in
      match pages st with
      | [] => Raise (Exn "ValueError"
                         ("No text could be extracted from DOCX: "
                            ++ filepath))
      | _ =>
          let full_text_parts := map IndexedProtocol.page_block (pages st) in
          Ok (IndexedProtocol.make (pages st) (join nl full_text_parts)
                (Z.of_nat (List.length (pages st))) filepath)
      end
  end.

End Loaders.

(** The paragraphs that the loop of [load_docx] does not pass over, each
    as the loop reads it: trimmed, with its page-break mark. *)
Definition read_paragraphs (paragraphs : list (string * bool))
  : list (string * bool) :=
  filter (fun para => negb (String.eqb (fst para) EmptyString))
         (map (fun para => (strip (fst para), snd para)) paragraphs).

(** The numbers [first], [first + 1], ... of [n] pages. *)
Fixpoint numbers_from (first : Z) (n : nat) : list Z :=
  match n with
  | O => []
  | S k => first :: numbers_from (first + 1) k
  end.

(** The total length of some paragraphs. *)
Definition total_length (parts : list string) : nat :=
  fold_right (fun part n => String.length part + n) 0 parts.

(** The text of the page made of the paragraphs [block]. *)
Definition page_text_of (block : list (string * bool)) : string :=
  join nl (map fst block).

(** The paragraphs of one page: there is one at least, none but the first
    holds a page break, and without the last they stay below the limit. *)
Definition page_block_ok (block : list (string * bool)) : Prop :=
  block <> []
  /\ Forall (fun para => snd para = false) (tl block)
  /\ total_length (map fst (removelast block)) < PAGE_CHAR_LIMIT.

(** What holds of the variables of [load_docx] when the loop has read the
    paragraphs [seen]: [blocks] are the pages made so far, [cur] is the
    page being filled. *)
Definition docx_invariant (st : docx_state)
    (blocks : list (list (string * bool))) (cur : list (string * bool))
  : Prop :=
  current_parts st = map fst cur
  /\ current_length st = total_length (map fst cur)
  /\ current_length st < PAGE_CHAR_LIMIT
  /\ Forall (fun para => snd para = false) (tl cur)
  /\ map ProtocolPage.text (pages st) = map page_text_of blocks
  /\ map ProtocolPage.page_number (pages st)
     = numbers_from 1 (List.length blocks)
  /\ current_page st = (1 + Z.of_nat (List.length blocks))%Z
  /\ Forall page_block_ok blocks.

End Ingest.

(* ===================================================================== *)
(** * More of the scripted environment *)
(* ===================================================================== *)

Module SampleMore.
Import PyStr.

(** A complexity cell that is a Python literal with an unhashable key:
    [ast.literal_eval] raises [TypeError] on it. *)
Definition unhashable_cell : string := "[{[1]: 2}]".

Definition raising_literal_eval (s : string) : literal_outcome :=
  if String.eqb s unhashable_cell
  then LitRaises (Exn "TypeError" "unhashable type: 'list'")
  else Sample.sample_literal_eval s.

(** [repr] of the integers from 0 to 9, which is all the examples print. *)
Definition digit_repr (v : pyval) : string :=
  match v with
  | PInt z =>
      match z with
      | 0%Z => "0" | 1%Z => "1" | 2%Z => "2" | 3%Z => "3" | 4%Z => "4"
      | 5%Z => "5" | 6%Z => "6" | 7%Z => "7" | 8%Z => "8" | 9%Z => "9"
      | _ => EmptyString
      end
  | _ => Sample.sample_repr v
  end.

(** Two records whose "evidence" is not a list. *)
Definition null_evidence_text : string :=
  quoted "{'status': 'NOT_FOUND', 'evidence': null}".
Definition null_evidence_record : pyval :=
  PDict [(PStr "status", PStr "NOT_FOUND"); (PStr "evidence", PNone)].

Definition text_evidence_text : string :=
  quoted "{'status': 'FOUND', 'evidence': 'page 3'}".
Definition text_evidence_record : pyval :=
  PDict [(PStr "status", PStr "FOUND"); (PStr "evidence", PStr "page 3")].

Definition more_json_loads (s : string) : json_outcome :=
  if String.eqb s null_evidence_text then JsonValue null_evidence_record
  else if String.eqb s text_evidence_text then JsonValue text_evidence_record
  else Sample.sample_json_loads s.

Definition strict_lib : PyLib := {|
  json_loads := more_json_loads;
  literal_eval := raising_literal_eval;
  py_repr := digit_repr;
  html_unescape := fun s => s
|}.

(** Rows of the three kinds that set the flags apart: standard text, in
    the protocol in part, and not in the protocol. *)
Definition standard_row : list string :=
  ["2.1"; "Included"; "Standard Text"; "Voluntary"; EmptyString; "Required";
   EmptyString; "Taking part is voluntary."].

Definition partial_row : list string :=
  ["2.2"; "Included"; "Not in protocol / Easy mapping"; "Contacts";
   EmptyString; "Required"; "Find the contacts"; "Contact: {{contact}}"].

Definition absent_row : list string :=
  ["2.3"; "Included"; "Not in Protocol"; "Lawyer"; EmptyString; "Optional";
   "Ask the institution"; "Lawyer: {{lawyer}}"].

Definition bad_row : list string :=
  ["1.3"; "Included"; unhashable_cell; "Risks"; EmptyString; "Required";
   "Find the risks"; "Risks: {{risks}}"].

(** A result with the given status and answer. *)
Definition result_with (status answer : pyval) : ExtractionResult.t :=
  ExtractionResult.make (PStr "1.1") "Heading" None status answer
    (PStr EmptyString) [] (PStr "LOW") (PStr EmptyString) EmptyString None.

(** The summary with whole seconds for a clock. *)
Definition summarise (extractions : list ExtractionResult.t)
    (validations : list (@ValidationResult.t Sample.no_textstat))
  : result (Summary.t Z) :=
  @Summary._build_summary Sample.no_textstat Z (fun z => z)
    extractions validations 0%Z.

End SampleMore.

(* ===================================================================== *)
(** * Facts about strings *)
(* ===================================================================== *)

Module PyStrFacts.
Import PyStr.

Lemma append_empty_r (s : string) : s ++ EmptyString = s.
Proof. induction s as [|c r IH]; simpl; [reflexivity | now rewrite IH]. Qed.

Lemma append_assoc (a b c : string) : (a ++ b) ++ c = a ++ (b ++ c).
Proof. induction a as [|x a IH]; simpl; [reflexivity | now rewrite IH]. Qed.

Lemma startswith_empty (s : string) : startswith EmptyString s = true.
Proof. now destruct s. Qed.

Lemma startswith_iff (p s : string) :
  startswith p s = true <-> exists post, s = p ++ post.
Proof.
  revert s; induction p as [|a p IH]; intros s.
  - rewrite startswith_empty. split; [intros _; now exists s | reflexivity].
  - destruct s as [|b s]; simpl.
    + split; [discriminate | intros [post E]; discriminate].
    + rewrite andb_true_iff, IH. split.
      * intros [Hab [post ->]]. apply Ascii.eqb_eq in Hab as ->.
        now exists post.
      * intros [post E]. injection E as -> ->.
        split; [apply Ascii.eqb_refl | now exists post].
Qed.

Lemma contains_empty (s : string) : contains EmptyString s = true.
Proof. destruct s; simpl; reflexivity. Qed.

Lemma contains_unfold (needle hay : string) :
  contains needle hay =
  startswith needle hay
  || match hay with
     | EmptyString => false
     | String _ r => contains needle r
     end.
Proof. now destruct hay. Qed.

(** [contains] decides "is a literal substring of". *)
Lemma contains_iff (needle hay : string) :
  contains needle hay = true <-> substring_of needle hay.
Proof.
  unfold substring_of. split.
  - induction hay as [|c r IH]; rewrite contains_unfold, orb_true_iff.
    + intros [Hs | Hf]; [| discriminate].
      apply startswith_iff in Hs as [post E]. now exists EmptyString, post.
    + intros [Hs | Hr].
      * apply startswith_iff in Hs as [post E]. now exists EmptyString, post.
      * destruct (IH Hr) as (pre & post & ->). now exists (String c pre), post.
  - intros (pre & post & ->). induction pre as [|c pre IH].
    + rewrite contains_unfold. simpl (EmptyString ++ _).
      replace (startswith needle (needle ++ post)) with true; [reflexivity |].
      symmetry. apply startswith_iff. now exists post.
    + simpl. rewrite IH. apply orb_true_r.
Qed.

Lemma substring_of_app_l (sub a b : string) :
  substring_of sub a -> substring_of sub (a ++ b).
Proof.
  intros (pre & post & ->). exists pre, (post ++ b).
  now rewrite !append_assoc.
Qed.

Lemma substring_of_app_r (sub a b : string) :
  substring_of sub b -> substring_of sub (a ++ b).
Proof.
  intros (pre & post & ->). exists (a ++ pre), post.
  now rewrite !append_assoc.
Qed.

(** A substring of one of the parts is a substring of the joined text. *)
Lemma substring_of_join (sub sep : string) (parts : list string) (p : string) :
  In p parts -> substring_of sub p -> substring_of sub (join sep parts).
Proof.
  induction parts as [|q rest IH]; intros Hin Hsub; [contradiction |].
  destruct rest as [|q' rest'].
  - destruct Hin as [-> | []]. exact Hsub.
  - change (join sep (q :: q' :: rest'))
      with (q ++ sep ++ join sep (q' :: rest')).
    destruct Hin as [-> | Hin].
    + now apply substring_of_app_l.
    + apply substring_of_app_r, substring_of_app_r. now apply IH.
Qed.

(** White space is not touched by [lower], and [lower] makes none. *)
Lemma is_space_lower_char (c : ascii) : is_space (lower_char c) = is_space c.
Proof. destruct c as [[] [] [] [] [] [] [] []]; reflexivity. Qed.

Lemma lower_char_space (c : ascii) : is_space c = true -> lower_char c = c.
Proof.
  destruct c as [[] [] [] [] [] [] [] []]; intros Hs;
    solve [reflexivity | discriminate Hs].
Qed.

Lemma all_space_lower (s : string) : all_space s = true -> lower s = s.
Proof.
  induction s as [|c r IH]; simpl; [reflexivity |].
  rewrite andb_true_iff. intros [Hc Hr].
  now rewrite (lower_char_space c Hc), (IH Hr).
Qed.

Lemma split_all_space (s : string) : all_space s = true -> split s = [].
Proof.
  unfold split. induction s as [|c r IH]; simpl; [reflexivity |].
  rewrite andb_true_iff. intros [Hc Hr]. rewrite Hc. now apply IH.
Qed.

(** A text without white space is its own [strip]. *)
Lemma rstrip_no_space (s : string) : no_space s = true -> rstrip s = s.
Proof.
  induction s as [|c r IH]; simpl; [reflexivity |].
  rewrite andb_true_iff, negb_true_iff. intros [Hc Hr].
  rewrite (IH Hr), Hc. now destruct r.
Qed.

Lemma strip_no_space (s : string) : no_space s = true -> strip s = s.
Proof.
  intros Hs. unfold strip.
  assert (lstrip s = s) as ->.
  { destruct s as [|c r]; [reflexivity |]. simpl in *.
    apply andb_true_iff in Hs as [Hc _]. apply negb_true_iff in Hc.
    now rewrite Hc. }
  now apply rstrip_no_space.
Qed.

Lemma no_space_lower (s : string) : no_space (lower s) = no_space s.
Proof.
  induction s as [|c r IH]; simpl; [reflexivity |].
  now rewrite is_space_lower_char, IH.
Qed.

Lemma length_take (n : nat) (s : string) : String.length (take n s) <= n.
Proof.
  revert s; induction n as [|n IH]; intros [|c r]; simpl; try lia.
  specialize (IH r). lia.
Qed.

Lemma length_replace_char (a b : ascii) (s : string) :
  String.length (replace_char a b s) = String.length s.
Proof. induction s as [|c r IH]; simpl; [reflexivity | now rewrite IH]. Qed.

End PyStrFacts.

(* ===================================================================== *)
(** * The item classifier *)
(* ===================================================================== *)

Module RegistryFacts.
Import PyStr PyStrFacts.

(** A keyword found in one tag is found in the joined text. *)
Lemma any_tag_contains_joined (kw : string) (tags : list string) :
  Spec.any_tag_contains kw tags = true ->
  contains kw (join " " (map lower tags)) = true.
Proof.
  unfold Spec.any_tag_contains. rewrite existsb_exists.
  intros (tag & Hin & Hc). apply contains_iff.
  apply substring_of_join with (p := lower tag).
  - now apply in_map.
  - now apply contains_iff.
Qed.

(** The tag-by-tag table and the source agree whenever no keyword is found
    in the joined text without being found in a tag. *)
Lemma classify_agrees_without_straddling (tags : list string) :
  (forall kw,
      In kw ["standard text"; "not in protocol"; "easy mapping";
             "moderate mapping"; "complex mapping";
             "potentially in protocol"] ->
      contains kw (join " " (map lower tags))
      = Spec.any_tag_contains kw tags) ->
  Registry._classify_availability tags = Spec.decision_table_by_tag tags.
Proof.
  intros Hkw.
  unfold Registry._classify_availability, Spec.decision_table_by_tag.
  simpl existsb.
  rewrite !Hkw by (simpl; tauto). reflexivity.
Qed.

(** C5, as the specification words it, fails: the tags "Standard" and
    "Text" hold the words "standard text" in no tag, so the table read tag
    by tag calls the item fully available, while the source finds the words
    in the joined tags and calls it standard text. *)
Lemma classify_straddling_tags :
  Spec.decision_table_by_tag ["Standard"; "Text"] = (true, false, false)
  /\ Registry._classify_availability ["Standard"; "Text"]
     = (true, false, true).
Proof. split; reflexivity. Qed.

(** C5 (amended): the availability classification follows the four-rule
    table in order, the first matching rule winning, each test being a
    case-insensitive substring test on the tags joined by single spaces:
    "standard text" gives (true, false, true); else "not in protocol" with
    none of the three mapping keywords and without "potentially in
    protocol" gives (false, false, false); else "not in protocol" with a
    mapping keyword or "potentially in protocol" gives (true, true, false);
    otherwise (true, false, false). *)
Theorem classify_availability_table (tags : list string) :
  let joined := join " " (map lower tags) in
  let has := fun kw => contains kw joined in
  let mapping :=
    has "easy mapping" || has "moderate mapping" || has "complex mapping" in
  (has "standard text" = true ->
   Registry._classify_availability tags = (true, false, true))
  /\ (has "standard text" = false -> has "not in protocol" = true ->
      mapping = false -> has "potentially in protocol" = false ->
      Registry._classify_availability tags = (false, false, false))
  /\ (has "standard text" = false -> has "not in protocol" = true ->
      mapping || has "potentially in protocol" = true ->
      Registry._classify_availability tags = (true, true, false))
  /\ (has "standard text" = false -> has "not in protocol" = false ->
      Registry._classify_availability tags = (true, false, false)).
Proof.
  intros joined has mapping. unfold Registry._classify_availability.
  simpl existsb. fold joined. rewrite orb_false_r.
  change (contains "easy mapping" joined
          || (contains "moderate mapping" joined
              || contains "complex mapping" joined))
    with (has "easy mapping"
          || (has "moderate mapping" || has "complex mapping")).
  rewrite orb_assoc. fold mapping.
  change (contains "standard text" joined) with (has "standard text").
  change (contains "not in protocol" joined) with (has "not in protocol").
  change (contains "potentially in protocol" joined)
    with (has "potentially in protocol").
  repeat split.
  - intros ->. reflexivity.
  - intros -> -> -> ->. reflexivity.
  - intros -> -> Hor. destruct mapping; simpl in *.
    + reflexivity.
    + rewrite Hor. reflexivity.
  - intros -> ->. reflexivity.
Qed.

Lemma classify_availability_table_witness :
  Registry._classify_availability ["Standard Text"] = (true, false, true)
  /\ Registry._classify_availability ["Not in Protocol"]
     = (false, false, false)
  /\ Registry._classify_availability ["Not in protocol"; "Easy mapping"]
     = (true, true, false)
  /\ Registry._classify_availability ["Easy mapping"] = (true, false, false).
Proof.
  split; [| split; [| split]].
  - apply (proj1 (classify_availability_table ["Standard Text"])).
    reflexivity.
  - apply (proj1 (proj2 (classify_availability_table ["Not in Protocol"])));
      reflexivity.
  - apply (proj1 (proj2 (proj2 (classify_availability_table
                                  ["Not in protocol"; "Easy mapping"]))));
      reflexivity.
  - apply (proj2 (proj2 (proj2 (classify_availability_table
                                  ["Easy mapping"]))));
      reflexivity.
Defined.

End RegistryFacts.

(* ===================================================================== *)
(** * Quote verification *)
(* ===================================================================== *)

Module QuoteFacts.
Import PyStr PyStrFacts.

Lemma normalise_blank (text : string) :
  all_space text = true -> Validate._normalise text = EmptyString.
Proof.
  intros Hs. unfold Validate._normalise.
  rewrite (all_space_lower text Hs), (split_all_space text Hs). reflexivity.
Qed.

Lemma verify_quote_exact (quote protocol_text : string) :
  quote <> EmptyString -> protocol_text <> EmptyString ->
  contains (Validate._normalise quote) (Validate._normalise protocol_text)
  = true ->
  Validate.verify_quote quote protocol_text = true.
Proof.
  intros Hq Hp Hc. unfold Validate.verify_quote.
  destruct quote as [|a q]; [contradiction |].
  destruct protocol_text as [|b t]; [contradiction |].
  cbn [String.eqb orb]. now rewrite Hc.
Qed.

(** The guard comes before the containment test: the empty quote is, once
    normalised, a literal substring of every normalised reference, and it
    is not verified - the case that the second half of C7 settles. *)
Lemma verify_quote_empty_quote_contained :
  substring_of (Validate._normalise EmptyString) (Validate._normalise "abc")
  /\ Validate.verify_quote EmptyString "abc" = false.
Proof.
  split; [| reflexivity]. now exists EmptyString, "abc".
Qed.

(** C7: verify(Q, R) returns true whenever Q, lowercased and with its
    white space runs collapsed, is a literal substring of the equally
    normalised R - for Q and R that are not empty, the case that the
    claim's second half sets apart; and verify returns false whenever Q is
    empty or R is empty. *)
Theorem verify_quote_containment (Q R : string) :
  (Q <> EmptyString -> R <> EmptyString ->
   substring_of (Validate._normalise Q) (Validate._normalise R) ->
   Validate.verify_quote Q R = true)
  /\ (Q = EmptyString \/ R = EmptyString ->
      Validate.verify_quote Q R = false).
Proof.
  split.
  - intros HQ HR Hsub. apply verify_quote_exact; try assumption.
    now apply contains_iff.
  - unfold Validate.verify_quote. intros [-> | ->].
    + reflexivity.
    + now rewrite orb_true_r.
Qed.

Lemma verify_quote_containment_witness :
  Validate.verify_quote "the SPONSOR will   pay all costs"
                        "The sponsor will pay all costs." = true
  /\ Validate.verify_quote EmptyString "The sponsor will pay all costs."
     = false.
Proof.
  split.
  - apply (proj1 (verify_quote_containment
                    "the SPONSOR will   pay all costs"
                    "The sponsor will pay all costs.")).
    + discriminate.
    + discriminate.
    + now exists EmptyString, ".".
  - apply (proj2 (verify_quote_containment
                    EmptyString "The sponsor will pay all costs.")).
    now left.
Defined.

(** C9: a quote that is not empty but holds white space only is verified
    against every non-empty reference: it normalises to the empty string,
    which every normalised reference contains. *)
Theorem verify_quote_blank_quote (Q R : string) :
  Q <> EmptyString -> all_space Q = true -> R <> EmptyString ->
  Validate._normalise Q = EmptyString
  /\ Validate.verify_quote Q R = true.
Proof.
  intros HQ Hs HR. pose proof (normalise_blank Q Hs) as Hn. split.
  - exact Hn.
  - apply verify_quote_exact; try assumption.
    rewrite Hn. apply contains_empty.
Qed.

Lemma verify_quote_blank_quote_witness :
  Validate._normalise "   " = EmptyString
  /\ Validate.verify_quote "   " "The sponsor will pay all costs." = true.
Proof.
  apply (verify_quote_blank_quote "   " "The sponsor will pay all costs.").
  - discriminate.
  - reflexivity.
  - discriminate.
Defined.

End QuoteFacts.

(* ===================================================================== *)
(** * Brace candidates on well-nested texts *)
(* ===================================================================== *)

Module CandidateFacts.
Import PyStr PyStrFacts Extract Spec.

Lemma option_map_compose {A B C : Type} (f : A -> B) (g : B -> C)
    (x : option A) :
  option_map g (option_map f x) = option_map (fun a => g (f a)) x.
Proof. now destruct x. Qed.

Lemma option_map_ext {A B : Type} (f g : A -> B) (x : option A) :
  (forall a, f a = g a) -> option_map f x = option_map g x.
Proof. intros Hfg. destruct x; simpl; [now rewrite Hfg | reflexivity]. Qed.

Lemma not_brace (c : ascii) :
  is_brace c = false -> Ascii.eqb c "{" = false /\ Ascii.eqb c "}" = false.
Proof. unfold is_brace. now rewrite orb_false_iff. Qed.

(** A well-nested text leaves the depth where it was. *)
Lemma close_at_nest (n : nest) :
  well_formed n = true ->
  forall t d,
    close_at (text_of n ++ t) (S d)
    = option_map (fun k => span n + k) (close_at t (S d)).
Proof.
  induction n as [|c rest IH|inner IHi rest IHr]; intros Hwf t d.
  - simpl. now destruct (close_at t (S d)).
  - simpl in Hwf. apply andb_true_iff in Hwf as [Hc Hrest].
    apply negb_true_iff, not_brace in Hc as [Ho Hcl].
    cbn [text_of append close_at]. rewrite Ho, Hcl, (IH Hrest).
    rewrite option_map_compose. apply option_map_ext. intros k. simpl. lia.
  - simpl in Hwf. apply andb_true_iff in Hwf as [Hi Hr].
    cbn [text_of append]. rewrite append_assoc. cbn [append close_at].
    cbn [Ascii.eqb Bool.eqb andb].
    rewrite (IHi Hi). cbn [close_at]. cbn [Ascii.eqb Bool.eqb andb].
    rewrite (IHr Hr), !option_map_compose. apply option_map_ext.
    intros k. simpl. lia.
Qed.

Lemma group_length_nest (inner : nest) (t : string) :
  well_formed inner = true ->
  group_length (String "{" (text_of inner ++ String "}" t))
  = Some (span inner + 2).
Proof.
  intros Hwf. unfold group_length. cbn [Ascii.eqb Bool.eqb andb].
  rewrite (close_at_nest inner Hwf). cbn. f_equal. lia.
Qed.

(** The groups of a well-nested text are those of its tree. *)
Lemma groups_from_nest (n : nest) :
  well_formed n = true ->
  forall t j,
    groups_from (text_of n ++ t) j
    = (all_groups n j ++ groups_from t (j + span n))%list.
Proof.
  induction n as [|c rest IH|inner IHi rest IHr]; intros Hwf t j.
  - simpl. now rewrite Nat.add_0_r.
  - simpl in Hwf. apply andb_true_iff in Hwf as [Hc Hrest].
    apply negb_true_iff, not_brace in Hc as [Ho _].
    cbn [text_of append groups_from group_length all_groups span].
    rewrite Ho, (IH Hrest). now rewrite Nat.add_succ_r.
  - simpl in Hwf. apply andb_true_iff in Hwf as [Hi Hr].
    cbn [text_of append]. rewrite append_assoc. cbn [append].
    cbn [groups_from]. rewrite (group_length_nest inner _ Hi).
    rewrite (IHi Hi). cbn [groups_from group_length].
    cbn [Ascii.eqb Bool.eqb andb]. rewrite (IHr Hr).
    simpl (all_groups (Group inner rest) j). simpl (span (Group inner rest)).
    rewrite <- app_comm_cons, <- app_assoc.
    replace (S (S j + span inner)) with (j + (span inner + 2)) by lia.
    replace (j + (span inner + 2) + span rest)
      with (j + (span inner + 2 + span rest)) by lia.
    reflexivity.
Qed.

(** Inside a group, the scan passes a well-nested text without a word. *)
Lemma brace_loop_inside (n : nest) :
  well_formed n = true ->
  forall text t i depth st results,
    (0 < depth)%Z ->
    brace_loop text (text_of n ++ t) i depth (Some st) results
    = brace_loop text t (i + span n) depth (Some st) results.
Proof.
  induction n as [|c rest IH|inner IHi rest IHr];
    intros Hwf text t i depth st results Hpos.
  - simpl. now rewrite Nat.add_0_r.
  - simpl in Hwf. apply andb_true_iff in Hwf as [Hc Hrest].
    apply negb_true_iff, not_brace in Hc as [Ho Hcl].
    cbn [text_of append brace_loop span]. rewrite Ho, Hcl, (IH Hrest); auto.
    now rewrite Nat.add_succ_r.
  - simpl in Hwf. apply andb_true_iff in Hwf as [Hi Hr].
    cbn [text_of append]. rewrite append_assoc. cbn [append brace_loop].
    cbn [Ascii.eqb Bool.eqb andb].
    destruct (Z.eqb_spec depth 0) as [-> | _]; [lia |].
    rewrite (IHi Hi) by lia. cbn [brace_loop].
    cbn [Ascii.eqb Bool.eqb andb].
    replace (depth + 1 - 1)%Z with depth by lia.
    destruct (Z.eqb_spec depth 0) as [-> | _]; [lia |].
    rewrite (IHr Hr) by lia. cbn [span]. f_equal. lia.
Qed.

(** At the top level, the scan yields the top-level groups of the tree. *)
Lemma brace_loop_top (n : nest) :
  well_formed n = true ->
  forall text t i results,
    brace_loop text (text_of n ++ t) i 0 None results
    = brace_loop text t (i + span n) 0 None
        (results
           ++ map (fun g => slice (fst g) (snd g) text) (top_groups n i))%list.
Proof.
  induction n as [|c rest IH|inner IHi rest IHr];
    intros Hwf text t i results.
  - simpl. now rewrite Nat.add_0_r, app_nil_r.
  - simpl in Hwf. apply andb_true_iff in Hwf as [Hc Hrest].
    apply negb_true_iff, not_brace in Hc as [Ho Hcl].
    cbn [text_of append brace_loop span top_groups].
    rewrite Ho, Hcl, (IH Hrest). now rewrite Nat.add_succ_r.
  - simpl in Hwf. apply andb_true_iff in Hwf as [Hi Hr].
    cbn [text_of append]. rewrite append_assoc. cbn [append brace_loop].
    cbn [Ascii.eqb Bool.eqb andb Z.eqb Z.add].
    rewrite (brace_loop_inside inner Hi) by lia. cbn [brace_loop].
    cbn [Ascii.eqb Bool.eqb andb]. cbn [Z.sub Z.add Z.opp Z.pos_sub Z.eqb].
    rewrite (IHr Hr). cbn [top_groups span map fst snd].
    rewrite <- app_assoc. simpl app.
    replace (S (i + span inner + 1)) with (i + (span inner + 2)) by lia.
    replace (S (S (i + span inner))) with (i + (span inner + 2)) by lia.
    f_equal. lia.
Qed.

(** Where the groups of a tree lie. *)
Lemma all_groups_within (n : nest) (j : nat) (g : nat * nat) :
  In g (all_groups n j) ->
  j <= fst g /\ snd g <= j + span n /\ fst g < snd g.
Proof.
  revert j. induction n as [|c rest IH|inner IHi rest IHr]; intros j Hin.
  - contradiction.
  - simpl in Hin. apply IH in Hin. simpl. lia.
  - simpl in Hin. destruct Hin as [<- | Hin].
    + simpl. lia.
    + apply in_app_iff in Hin as [Hin | Hin].
      * apply IHi in Hin. simpl. lia.
      * apply IHr in Hin. simpl. lia.
Qed.

Lemma top_groups_all (n : nest) (j : nat) (g : nat * nat) :
  In g (top_groups n j) -> In g (all_groups n j).
Proof.
  revert j. induction n as [|c rest IH|inner IHi rest IHr]; intros j Hin.
  - contradiction.
  - simpl in *. now apply IH.
  - simpl in *. destruct Hin as [<- | Hin]; [now left | right].
    apply in_app_iff. right. now apply IHr.
Qed.

Lemma encloses_false (h g : nat * nat) :
  fst g < fst h \/ snd h < snd g \/ h = g -> encloses h g = false.
Proof.
  unfold encloses. intros [Hlt | [Hlt | ->]].
  - apply Nat.leb_gt in Hlt. now rewrite Hlt.
  - apply Nat.leb_gt in Hlt. rewrite Hlt. now rewrite andb_false_r.
  - rewrite !Nat.eqb_refl. simpl. now rewrite andb_false_r.
Qed.

Lemma encloses_true (h g : nat * nat) :
  fst h < fst g -> snd g <= snd h -> encloses h g = true.
Proof.
  unfold encloses. intros Hlt Hle.
  apply Nat.leb_le in Hle. rewrite Hle.
  assert ((fst h <=? fst g) = true) as -> by (apply Nat.leb_le; lia).
  assert ((fst h =? fst g) = false) as -> by (apply Nat.eqb_neq; lia).
  reflexivity.
Qed.

(** No group of the tree encloses a top-level group. *)
Lemma top_groups_not_enclosed (n : nest) (j : nat) (g h : nat * nat) :
  In g (top_groups n j) -> In h (all_groups n j) -> encloses h g = false.
Proof.
  revert j. induction n as [|c rest IH|inner IHi rest IHr]; intros j Hg Hh.
  - contradiction.
  - simpl in *. now apply IH with (j := S j).
  - simpl in Hg, Hh. destruct Hg as [<- | Hg].
    + destruct Hh as [<- | Hh].
      * apply encloses_false. now right; right.
      * apply encloses_false. left. simpl.
        apply in_app_iff in Hh as [Hh | Hh];
          apply all_groups_within in Hh; lia.
    + pose proof (all_groups_within _ _ _ (top_groups_all _ _ _ Hg)) as Hgw.
      destruct Hh as [<- | Hh].
      * apply encloses_false. right; left. simpl. lia.
      * apply in_app_iff in Hh as [Hh | Hh].
        -- apply encloses_false. right; left.
           apply all_groups_within in Hh. lia.
        -- now apply IHr with (j := j + (span inner + 2)).
Qed.

Lemma filter_none {A : Type} (P : A -> bool) (l : list A) :
  (forall x, In x l -> P x = false) -> filter P l = [].
Proof.
  induction l as [|x l IH]; intros Hall; [reflexivity |].
  simpl. rewrite (Hall x (or_introl eq_refl)). apply IH.
  intros y Hy. apply Hall. now right.
Qed.

(** A test that accepts the top-level groups and rejects every group that
    another one encloses keeps the top-level groups. *)
Lemma filter_top_groups (P : nat * nat -> bool) (n : nest) (j : nat) :
  (forall g, In g (top_groups n j) -> P g = true) ->
  (forall g h, In g (all_groups n j) -> In h (all_groups n j) ->
               encloses h g = true -> P g = false) ->
  filter P (all_groups n j) = top_groups n j.
Proof.
  revert j. induction n as [|c rest IH|inner IHi rest IHr];
    intros j Htop Henc.
  - reflexivity.
  - simpl in *. now apply IH.
  - cbn [all_groups top_groups] in *. cbn [filter].
    rewrite (Htop _ (or_introl eq_refl)). f_equal.
    rewrite filter_app, filter_none, IHr; [reflexivity | | |].
    + intros g Hg. apply Htop. now right.
    + intros g h Hg Hh. apply Henc; right; apply in_app_iff; now right.
    + intros g Hg. apply Henc with (h := (j, j + (span inner + 2))).
      * right. apply in_app_iff. now left.
      * now left.
      * apply all_groups_within in Hg. apply encloses_true; simpl; lia.
Qed.

(** On a well-nested text the depth scan yields exactly the maximal
    brace-balanced substrings, in their order of appearance. *)
Lemma candidates_are_maximal_groups (n : nest) :
  well_formed n = true ->
  _extract_brace_candidates (text_of n) = maximal_brace_groups (text_of n).
Proof.
  intros Hwf. unfold _extract_brace_candidates, maximal_brace_groups.
  pose proof (brace_loop_top n Hwf (text_of n) EmptyString 0 []) as Hcode.
  rewrite append_empty_r in Hcode. rewrite Hcode. simpl.
  pose proof (groups_from_nest n Hwf EmptyString 0) as Hspec.
  rewrite append_empty_r in Hspec. rewrite Hspec. simpl groups_from.
  rewrite app_nil_r. f_equal. symmetry. apply filter_top_groups.
  - intros g Hg. unfold maximal_in. apply negb_true_iff.
    apply not_true_is_false. intros Hex.
    apply existsb_exists in Hex as (h & Hh & Hhg).
    now rewrite (top_groups_not_enclosed n 0 g h Hg Hh) in Hhg.
  - intros g h Hg Hh Hhg. unfold maximal_in. apply negb_false_iff.
    apply existsb_exists. now exists h.
Qed.

(** A text that closes [depth] levels is made of [depth] well-nested
    texts, each closed by a brace, and of one more. *)
Lemma closes_nests (s : string) :
  forall depth,
    closes s depth = true ->
    exists levels last,
      List.length levels = depth
      /\ forallb well_formed levels = true
      /\ well_formed last = true
      /\ s = closed_levels levels ++ text_of last.
Proof.
  induction s as [|c r IH]; intros depth Hc.
  - simpl in Hc. apply Nat.eqb_eq in Hc as ->.
    now exists [], Stop.
  - simpl in Hc. destruct (Ascii.eqb c "{") eqn:Ho.
    + apply Ascii.eqb_eq in Ho as ->.
      destruct (IH _ Hc) as (levels & last & Hlen & Hwf & Hlast & ->).
      destruct levels as [|n0 levels]; [discriminate |].
      simpl in Hlen, Hwf. apply andb_true_iff in Hwf as [Hn0 Hwf].
      injection Hlen as Hlen.
      destruct levels as [|n1 levels].
      * exists [], (Group n0 last).
        split; [exact Hlen |]. split; [reflexivity |]. split.
        -- simpl. now rewrite Hn0.
        -- simpl. now rewrite append_assoc.
      * simpl in Hwf. apply andb_true_iff in Hwf as [Hn1 Hwf].
        exists (Group n0 n1 :: levels), last.
        split; [exact Hlen |]. split; [| split; [exact Hlast |]].
        -- simpl. now rewrite Hn0, Hn1.
        -- simpl. f_equal.
           repeat (rewrite append_assoc; cbn [append]). reflexivity.
    + destruct (Ascii.eqb c "}") eqn:Hcl.
      * apply Ascii.eqb_eq in Hcl as ->.
        destruct depth as [|d]; [discriminate |].
        destruct (IH _ Hc) as (levels & last & Hlen & Hwf & Hlast & ->).
        exists (Stop :: levels), last.
        split; [simpl; now rewrite Hlen |].
        split; [exact Hwf |]. split; [exact Hlast | reflexivity].
      * destruct (IH _ Hc) as (levels & last & Hlen & Hwf & Hlast & ->).
        assert (negb (is_brace c) = true) as Hplain
            by (unfold is_brace; now rewrite Ho, Hcl).
        destruct levels as [|n0 levels].
        -- exists [], (Plain c last).
           split; [exact Hlen |]. split; [reflexivity |]. split.
           ++ simpl. now rewrite Hplain.
           ++ reflexivity.
        -- simpl in Hwf. apply andb_true_iff in Hwf as [Hn0 Hwf].
           exists (Plain c n0 :: levels), last.
           split; [exact Hlen |]. split; [| split; [exact Hlast |]].
           ++ simpl. now rewrite Hplain, Hn0.
           ++ reflexivity.
Qed.

(** A text is balanced exactly when it is the text of a tree. *)
Lemma balanced_nest (s : string) :
  balanced s = true -> exists n, well_formed n = true /\ text_of n = s.
Proof.
  intros Hb. destruct (closes_nests s 0 Hb)
    as (levels & last & Hlen & _ & Hlast & ->).
  destruct levels; [| discriminate]. now exists last.
Qed.

(** On a text whose braces are all matched, the candidates of the source
    are the maximal brace-balanced substrings of the specification. *)
Lemma candidates_of_balanced_text (text : string) :
  balanced text = true ->
  _extract_brace_candidates text = maximal_brace_groups text.
Proof.
  intros Hb. destruct (balanced_nest text Hb) as (n & Hwf & <-).
  now apply candidates_are_maximal_groups.
Qed.

End CandidateFacts.

(* ===================================================================== *)
(** * The recovery parser *)
(* ===================================================================== *)

Module RecoveryFacts.
Import PyStr PyStrFacts Extract.

Section WithLibrary.
Context `{PyLib}.

(** One turn of the loop over the candidates, in terms of
    [candidate_parse]. *)
Lemma scan_candidates_cons (c : string) (rest : list string)
    (any_valid : option pydict) :
  scan_candidates (c :: rest) any_valid =
  match candidate_parse c with
  | Ok (Some data) =>
      if Py.has_key data "status" then Ok (inl data)
      else scan_candidates rest
             (match any_valid with None => Some data | _ => any_valid end)
  | Ok None => scan_candidates rest any_valid
  | Raise e => Raise e
  end.
Proof.
  unfold candidate_parse. simpl.
  destruct (json_loads c) as [[]| | |]; reflexivity.
Qed.

(** Candidates that do not parse leave the loop's state as it is. *)
Lemma scan_candidates_unparsed (skipped rest : list string)
    (any_valid : option pydict) :
  (forall c, In c skipped -> candidate_parse c = Ok None) ->
  scan_candidates (skipped ++ rest) any_valid
  = scan_candidates rest any_valid.
Proof.
  induction skipped as [|c skipped IH]; intros Hnone; [reflexivity |].
  rewrite <- app_comm_cons, scan_candidates_cons.
  rewrite (Hnone c (or_introl eq_refl)).
  apply IH. intros c' Hin. apply Hnone. now right.
Qed.

(** The loop goes on past a candidate without a "status" key. *)
Lemma scan_candidates_without_status (c : string) (rest : list string)
    (any_valid : option pydict) :
  without_status c ->
  exists kept, scan_candidates (c :: rest) any_valid
               = scan_candidates rest kept.
Proof.
  intros [Hc | (d & Hc & Hd)]; rewrite scan_candidates_cons, Hc.
  - now exists any_valid.
  - rewrite Hd. now eexists.
Qed.

(** The loop returns the first candidate it meets that parses and has a
    "status" key. *)
Lemma scan_candidates_status (earlier rest : list string) (c : string)
    (data : pydict) (any_valid : option pydict) :
  (forall c', In c' earlier -> without_status c') ->
  candidate_parse c = Ok (Some data) -> Py.has_key data "status" = true ->
  scan_candidates (earlier ++ c :: rest) any_valid = Ok (inl data).
Proof.
  intros Hearlier Hc Hstatus. revert any_valid.
  induction earlier as [|c0 earlier IH]; intros any_valid.
  - simpl app. now rewrite scan_candidates_cons, Hc, Hstatus.
  - rewrite <- app_comm_cons.
    destruct (scan_candidates_without_status c0 (earlier ++ c :: rest)
                any_valid (Hearlier c0 (or_introl eq_refl)))
      as (kept & ->).
    apply IH. intros c' Hin. apply Hearlier. now right.
Qed.

(** The loop ends in the exception of the first candidate it meets on
    which [json.loads] raises one that is not caught. *)
Lemma scan_candidates_raises (earlier rest : list string) (c : string)
    (e : exn) (any_valid : option pydict) :
  (forall c', In c' earlier -> without_status c') ->
  candidate_parse c = Raise e ->
  scan_candidates (earlier ++ c :: rest) any_valid = Raise e.
Proof.
  intros Hearlier Hc. revert any_valid.
  induction earlier as [|c0 earlier IH]; intros any_valid.
  - simpl app. now rewrite scan_candidates_cons, Hc.
  - rewrite <- app_comm_cons.
    destruct (scan_candidates_without_status c0 (earlier ++ c :: rest)
                any_valid (Hearlier c0 (or_introl eq_refl)))
      as (kept & ->).
    apply IH. intros c' Hin. apply Hearlier. now right.
Qed.

(** Without a "status" key anywhere, the loop ends and keeps what it
    held, or else the first candidate it met that parses. *)
Lemma scan_candidates_no_status (cands : list string)
    (any_valid : option pydict) :
  (forall c, In c cands -> without_status c) ->
  exists kept, scan_candidates cands any_valid = Ok (inr kept)
    /\ (forall d, any_valid = Some d -> kept = Some d)
    /\ (any_valid = None ->
        forall c rest d, cands = c :: rest ->
                         candidate_parse c = Ok (Some d) ->
                         kept = Some d).
Proof.
  revert any_valid. induction cands as [|c0 cands IH]; intros any_valid Hno.
  - exists any_valid. simpl. repeat split; [tauto | discriminate].
  - assert (forall c, In c cands -> without_status c) as Hrest
        by (intros c Hin; apply Hno; now right).
    rewrite scan_candidates_cons.
    destruct (Hno c0 (or_introl eq_refl)) as [E0 | (d0 & E0 & Hd0)];
      rewrite E0.
    + destruct (IH any_valid Hrest) as (kept & Hscan & Hkeep & _).
      exists kept. split; [exact Hscan |]. split; [exact Hkeep |].
      intros _ c rest d Hcons Hc. injection Hcons as -> ->.
      rewrite E0 in Hc. discriminate.
    + rewrite Hd0.
      destruct (IH (match any_valid with None => Some d0 | _ => any_valid end)
                   Hrest) as (kept & Hscan & Hkeep & _).
      exists kept. split; [exact Hscan |]. split.
      * intros d ->. now apply Hkeep.
      * intros -> c rest d Hcons Hc. injection Hcons as -> ->.
        rewrite E0 in Hc. injection Hc as ->. now apply Hkeep.
Qed.

(** The last candidate with a "status" key wins. *)
Lemma balanced_braces_status (raw : string) (before after : list string)
    (c : string) (data : pydict) :
  _extract_brace_candidates raw = (before ++ c :: after)%list ->
  candidate_parse c = Ok (Some data) -> Py.has_key data "status" = true ->
  (forall c', In c' after -> without_status c') ->
  balanced_braces raw = Ok (Some data).
Proof.
  intros Hcands Hc Hstatus Hafter. unfold balanced_braces.
  rewrite Hcands, rev_app_distr. simpl rev. rewrite <- app_assoc.
  simpl app. rewrite (scan_candidates_status (rev after) (rev before) c data);
    try assumption; [reflexivity |].
  intros c' Hin. apply Hafter. now apply in_rev.
Qed.

(** With no "status" key anywhere, the last candidate that parses wins. *)
Lemma balanced_braces_any_valid (raw : string) (before after : list string)
    (c : string) (data : pydict) :
  _extract_brace_candidates raw = (before ++ c :: after)%list ->
  candidate_parse c = Ok (Some data) ->
  Py.has_key data "status" = false ->
  (forall c', In c' before -> without_status c') ->
  (forall c', In c' after -> candidate_parse c' = Ok None) ->
  balanced_braces raw = Ok (Some data).
Proof.
  intros Hcands Hc Hdata Hbefore Hafter. unfold balanced_braces.
  rewrite Hcands, rev_app_distr. simpl rev. rewrite <- app_assoc. simpl app.
  rewrite scan_candidates_unparsed
    by (intros c' Hin; apply Hafter; now apply in_rev).
  destruct (scan_candidates_no_status (c :: rev before) None)
    as (kept & Hscan & _ & Hfirst).
  - intros c' [<- | Hin].
    + right. now exists data.
    + apply Hbefore. now apply in_rev.
  - rewrite Hscan. now rewrite (Hfirst eq_refl c (rev before) data eq_refl Hc).
Qed.

(** An exception of the last candidate on which [json.loads] raises one
    that is not caught leaves the strategy, when no candidate after it has
    a "status" key. *)
Lemma balanced_braces_raises (raw : string) (before after : list string)
    (c : string) (e : exn) :
  _extract_brace_candidates raw = (before ++ c :: after)%list ->
  candidate_parse c = Raise e ->
  (forall c', In c' after -> without_status c') ->
  balanced_braces raw = Raise e.
Proof.
  intros Hcands Hc Hafter. unfold balanced_braces.
  rewrite Hcands, rev_app_distr. simpl rev. rewrite <- app_assoc.
  simpl app. rewrite (scan_candidates_raises (rev after) (rev before) c e);
    try assumption; [reflexivity |].
  intros c' Hin. apply Hafter. now apply in_rev.
Qed.

(** With no candidate that parses, the strategy yields nothing. *)
Lemma balanced_braces_none (raw : string) :
  (forall c, In c (_extract_brace_candidates raw) ->
             candidate_parse c = Ok None) ->
  balanced_braces raw = Ok None.
Proof.
  intros Hnone. unfold balanced_braces.
  rewrite <- (app_nil_r (rev _)), scan_candidates_unparsed; [reflexivity |].
  intros c Hin. apply Hnone. now apply in_rev.
Qed.

(** [parse_extraction_json] once the first three strategies have failed. *)
Lemma parse_after_three_failures (raw : string) :
  raw <> EmptyString ->
  direct_parse (strip raw) = Ok None ->
  python_literal (strip raw) = Ok None ->
  code_fence raw = Ok None ->
  parse_extraction_json raw =
  match balanced_braces raw with
  | Ok (Some data) => Ok (Some data)
  | Ok None => Ok (fallback (strip raw))
  | Raise e => Raise e
  end.
Proof.
  intros Hraw H1 H2 H3. unfold parse_extraction_json.
  destruct raw as [|a raw]; [contradiction |].
  cbn [String.eqb]. rewrite H1, H2. cbn [bind]. rewrite H3. cbn [bind].
  now destruct (balanced_braces (String a raw)) as [[d|]|e].
Qed.

Lemma brace_candidates_empty_text :
  _extract_brace_candidates EmptyString = [].
Proof. reflexivity. Qed.



End WithLibrary.





End RecoveryFacts.

(* ===================================================================== *)
(** * The router *)
(* ===================================================================== *)

Module RouterFacts.
Import PyStr Extract.

Section WithEngine.
Context `{PyLib} `{Agent} `{Prompts}.
Variable self : ExtractionEngine.

(** The agent path, by the outcome of the call. *)
Lemma agent_path (w : World) (protocol_text : string)
    (variable : TemplateVariable.t) :
  TemplateVariable.is_standard_text variable = false ->
  TemplateVariable.is_in_protocol variable
  || TemplateVariable.partially_in_protocol variable = true ->
  extract_variable self w protocol_text variable
  = _run_rlm_extraction self w protocol_text variable.
Proof.
  intros Hstd Havail. unfold extract_variable. rewrite Hstd.
  rewrite <- negb_orb, Havail. reflexivity.
Qed.

Lemma exception_result_fields (variable : TemplateVariable.t) (e : exn) :
  ExtractionResult.status (exception_result variable e) = PStr "ERROR"
  /\ ExtractionResult.evidence (exception_result variable e) = []
  /\ ExtractionResult.section_id (exception_result variable e)
     = PStr (TemplateVariable.section_id variable)
  /\ ExtractionResult.heading (exception_result variable e)
     = TemplateVariable.heading variable
  /\ ExtractionResult.sub_section (exception_result variable e)
     = TemplateVariable.sub_section variable.
Proof. destruct e. repeat split. Qed.

(** What [_parse_response] returns, by the outcome of the recovery. *)
Lemma parse_response_cases (raw : string) (variable : TemplateVariable.t)
    (r : ExtractionResult.t) :
  _parse_response raw variable = Ok r ->
  (parse_extraction_json raw = Ok None
   /\ r = parse_failure_result raw variable)
  \/ (exists data items,
         parse_extraction_json raw = Ok (Some data)
         /\ Py.iterate (Py.get data "evidence" (PList [])) = Ok items
         /\ r = ExtractionResult.make
                  (Py.get data "section_id"
                          (PStr (TemplateVariable.section_id variable)))
                  (TemplateVariable.heading variable)
                  (TemplateVariable.sub_section variable)
                  (Py.get data "status" (PStr "ERROR"))
                  (Py.get data "answer" (PStr EmptyString))
                  (Py.get data "filled_template" (PStr EmptyString))
                  (evidence_of items)
                  (Py.get data "confidence" (PStr "LOW"))
                  (Py.get data "notes" (PStr EmptyString))
                  raw None).
Proof.
  unfold _parse_response.
  destruct (parse_extraction_json raw) as [[data|]|e]; cbn [bind].
  - destruct (Py.iterate (Py.get data "evidence" (PList [])))
      as [items|e] eqn:Eit; cbn [bind]; [| discriminate].
    intros [= <-]. right. now exists data, items.
  - intros [= <-]. now left.
  - discriminate.
Qed.

(** What the agent path returns, by the outcome of the call. *)
Lemma run_rlm_extraction_cases (w w' : World) (protocol_text : string)
    (variable : TemplateVariable.t) (r : ExtractionResult.t) :
  _run_rlm_extraction self w protocol_text variable = (Extracted r, w') ->
  (exists e, r = exception_result variable e)
  \/ (exists raw, _parse_response raw variable = Ok r).
Proof.
  unfold _run_rlm_extraction.
  destruct (rlm_completion w protocol_text (build_extraction_prompt variable)
                           (_iterations_for self variable))
    as [[raw|e|] w''].
  - destruct (_parse_response raw variable) as [r0|e] eqn:Ep.
    + intros [= <- <-]. right. now exists raw.
    + intros [= <- <-]. left. now exists e.
  - intros [= <- <-]. left. now exists e.
  - discriminate.
Qed.

(** The evidence loop keeps the elements that are dicts, in order, and
    reads three keys of each. *)
Lemma evidence_of_spec (items : list pyval) :
  evidence_of items
  = flat_map (fun item =>
                match item with
                | PDict e =>
                    [Evidence.make
                       (Py.str (Py.get e "quote" (PStr EmptyString)))
                       (Py.str (Py.get e "page" (PStr EmptyString)))
                       (Py.str (Py.get e "section" (PStr EmptyString)))]
                | _ => []
                end) items.
Proof.
  induction items as [|item items IH]; [reflexivity |].
  destruct item; simpl; now rewrite IH.
Qed.


(** C6 (amended): the router is total on the agent path: whenever the
    agent call is not interrupted it returns a result.  When the call
    raises, the result has status ERROR, the failure's type name and
    message in its error field and no content.  When the call answers and
    recovery yields no record, the result has status ERROR, the notes
    "Failed to parse JSON from RLM response.", the error "JSON parse
    failure" and the raw text in raw_response. *)
Theorem agent_path_total (w : World) (protocol_text : string)
    (variable : TemplateVariable.t) :
  TemplateVariable.is_standard_text variable = false ->
  TemplateVariable.is_in_protocol variable
  || TemplateVariable.partially_in_protocol variable = true ->
  let call := rlm_completion w protocol_text
                (build_extraction_prompt variable)
                (_iterations_for self variable) in
  (fst call <> AgentInterrupted ->
   exists r, extract_variable self w protocol_text variable
             = (Extracted r, snd call))
  /\ (forall type_name message,
         fst call = AgentRaises (Exn type_name message) ->
         exists r, extract_variable self w protocol_text variable
                   = (Extracted r, snd call)
           /\ ExtractionResult.status r = PStr "ERROR"
           /\ ExtractionResult.error r = Some (type_name ++ ": " ++ message)
           /\ ExtractionResult.answer r = PStr EmptyString
           /\ ExtractionResult.filled_template r = PStr EmptyString
           /\ ExtractionResult.evidence r = []
           /\ ExtractionResult.notes r = PStr EmptyString
           /\ ExtractionResult.raw_response r = EmptyString)
  /\ (forall raw,
         fst call = Response raw ->
         parse_extraction_json raw = Ok None ->
         exists r, extract_variable self w protocol_text variable
                   = (Extracted r, snd call)
           /\ ExtractionResult.status r = PStr "ERROR"
           /\ ExtractionResult.notes r
              = PStr "Failed to parse JSON from RLM response."
           /\ ExtractionResult.error r = Some "JSON parse failure"
           /\ ExtractionResult.raw_response r = raw
           /\ ExtractionResult.answer r = PStr EmptyString
           /\ ExtractionResult.evidence r = []).
Proof.
  intros Hstd Havail call. rewrite (agent_path w _ _ Hstd Havail).
  unfold _run_rlm_extraction. fold call.
  destruct call as [outcome w'']. cbn [fst snd]. split; [| split].
  - intros Hint. destruct outcome as [raw|e|]; [| | contradiction].
    + destruct (_parse_response raw variable); eexists; reflexivity.
    + eexists; reflexivity.
  - intros type_name message ->. eexists. split; [reflexivity |].
    repeat split.
  - intros raw -> Hparse. unfold _parse_response. rewrite Hparse.
    cbn [bind]. eexists. split; [reflexivity |]. repeat split.
Qed.

End WithEngine.



(** C6, as the specification words it, fails on the text of the note: the
    result of a failed recovery carries "Failed to parse JSON from RLM
    response.", not "Failed to parse structured output from agent
    response". *)
Lemma parse_failure_note_differs :
  Sample.recover "no answer" = Ok None
  /\ exists r rest,
       Sample.route [Response "no answer"] Sample.easy_item
       = (Extracted r, rest)
       /\ ExtractionResult.status r = PStr "ERROR"
       /\ ExtractionResult.raw_response r = "no answer"
       /\ ExtractionResult.notes r
          <> PStr "Failed to parse structured output from agent response".
Proof.
  split; [reflexivity |]. eexists. eexists.
  split; [vm_compute; reflexivity |].
  split; [reflexivity |]. split; [reflexivity |]. discriminate.
Qed.

Lemma agent_path_total_witness :
  (exists r,
      Sample.route [AgentRaises (Exn "TimeoutError" "agent timed out")]
                   Sample.easy_item = (Extracted r, [])
      /\ ExtractionResult.status r = PStr "ERROR"
      /\ ExtractionResult.error r = Some "TimeoutError: agent timed out"
      /\ ExtractionResult.answer r = PStr EmptyString
      /\ ExtractionResult.filled_template r = PStr EmptyString
      /\ ExtractionResult.evidence r = []
      /\ ExtractionResult.notes r = PStr EmptyString
      /\ ExtractionResult.raw_response r = EmptyString)
  /\ (exists r,
         Sample.route [Response "no answer"] Sample.easy_item
         = (Extracted r, [])
         /\ ExtractionResult.status r = PStr "ERROR"
         /\ ExtractionResult.notes r
            = PStr "Failed to parse JSON from RLM response."
         /\ ExtractionResult.error r = Some "JSON parse failure"
         /\ ExtractionResult.raw_response r = "no answer"
         /\ ExtractionResult.answer r = PStr EmptyString
         /\ ExtractionResult.evidence r = []).
Proof.
  split.
  - exact (proj1 (proj2 (@agent_path_total Sample.sample_lib
                           Sample.scripted_agent Sample.sample_prompts
                           Sample.engine
                           [AgentRaises (Exn "TimeoutError" "agent timed out")]
                           "protocol text" Sample.easy_item
                           eq_refl eq_refl))
             "TimeoutError" "agent timed out" eq_refl).
  - exact (proj2 (proj2 (@agent_path_total Sample.sample_lib
                           Sample.scripted_agent Sample.sample_prompts
                           Sample.engine [Response "no answer"]
                           "protocol text" Sample.easy_item
                           eq_refl eq_refl))
             "no answer" eq_refl eq_refl).
Defined.

End RouterFacts.

(* ===================================================================== *)
(** * The validation engine *)
(* ===================================================================== *)

Module ValidateFacts.
Import PyStr PyStrFacts Validate.

Lemma in_strs_iff (v : pyval) (l : list string) :
  Py.in_strs v l = true <-> exists s, In s l /\ v = PStr s.
Proof.
  unfold Py.in_strs. rewrite existsb_exists. split.
  - intros (s & Hin & Heq). exists s. split; [exact Hin |].
    destruct v; try discriminate. apply String.eqb_eq in Heq. now subst.
  - intros (s & Hin & ->). exists s. split; [exact Hin |].
    apply String.eqb_refl.
Qed.

(** The quote in a diagnostic is cut at 80 characters. *)
Lemma quote_issue_truncated (quote : string) :
  exists short,
    quote_issue quote
    = "Quote not verified in protocol: " ++ dq ++ short ++ "..." ++ dq
    /\ String.length short <= 80.
Proof.
  eexists. split; [reflexivity |].
  rewrite length_replace_char. apply length_take.
Qed.

(** The loop over the evidence: one flag per quote, one diagnostic per
    failed quote, both after what was there. *)
Lemma verify_quotes_spec (evidence : list Evidence.t) (protocol_text : string)
    (quotes_ok : list bool) (issues : list string) :
  verify_quotes evidence protocol_text quotes_ok issues
  = ((quotes_ok
        ++ map (fun ev => verify_quote (Evidence.quote ev) protocol_text)
               evidence)%list,
     (issues
        ++ map (fun ev => quote_issue (Evidence.quote ev))
               (filter (failed protocol_text) evidence))%list).
Proof.
  revert quotes_ok issues.
  induction evidence as [|ev rest IH]; intros quotes_ok issues.
  - simpl. now rewrite !app_nil_r.
  - simpl verify_quotes. rewrite IH. simpl map. simpl filter.
    unfold failed at 2.
    destruct (verify_quote (Evidence.quote ev) protocol_text); simpl negb;
      cbv iota; rewrite <- !app_assoc; reflexivity.
Qed.

Section WithTextstat.
Context `{Textstat}.

Lemma check_reading_level_str (answer : string) :
  exists grade, check_reading_level (PStr answer) = Ok grade.
Proof.
  unfold check_reading_level.
  destruct (negb (Py.truthy (PStr answer))); [now eexists |].
  destruct (List.length (split answer) <? 10); [now eexists |].
  destruct flesch_kincaid_grade; now eexists.
Qed.

Lemma check_reading_level_checkable (ext : ExtractionResult.t) :
  Py.in_strs (ExtractionResult.status ext) skipped_statuses = false ->
  checkable ext = true ->
  exists grade, check_reading_level (ExtractionResult.answer ext) = Ok grade.
Proof.
  unfold checkable. intros ->. cbn [orb]. rewrite orb_true_iff.
  intros [Hfalsy | Hstr].
  - unfold check_reading_level. rewrite Hfalsy. now eexists.
  - destruct (ExtractionResult.answer ext); try discriminate.
    apply check_reading_level_str.
Qed.

(** A validation result carries the identifier of its extraction. *)
Lemma validate_one_section_id (ext : ExtractionResult.t)
    (protocol_text : string) (v : ValidationResult.t) :
  validate_one ext protocol_text = Ok v ->
  ValidationResult.section_id v = ExtractionResult.section_id ext.
Proof.
  unfold validate_one.
  destruct (Py.in_strs (ExtractionResult.status ext) skipped_statuses).
  - intros [= <-]. reflexivity.
  - destruct (verify_quotes _ _ _ _) as [quotes_ok issues].
    destruct (check_reading_level _) as [grade|e]; cbn [bind];
      [| discriminate].
    intros [= <-]. reflexivity.
Qed.

Lemma validate_one_checkable (ext : ExtractionResult.t)
    (protocol_text : string) :
  checkable ext = true -> exists v, validate_one ext protocol_text = Ok v.
Proof.
  intros Hc. unfold validate_one.
  destruct (Py.in_strs (ExtractionResult.status ext) skipped_statuses) eqn:Es;
    [now eexists |].
  destruct (verify_quotes _ _ _ _) as [quotes_ok issues].
  destruct (check_reading_level_checkable ext Es Hc) as [grade ->].
  cbn [bind]. now eexists.
Qed.

(** The loop of [validate_extractions]: one result per extraction, in
    order, after what was there. *)
Lemma validate_loop_spec (extractions : list ExtractionResult.t)
    (protocol_text : string) (results : list ValidationResult.t) :
  forallb checkable extractions = true ->
  exists validations,
    validate_loop extractions protocol_text results
    = Ok (results ++ validations)%list
    /\ Forall2 (fun ext v => validate_one ext protocol_text = Ok v)
               extractions validations.
Proof.
  revert results. induction extractions as [|ext rest IH]; intros results Hall.
  - exists []. now rewrite app_nil_r.
  - simpl in Hall. apply andb_true_iff in Hall as [Hext Hrest].
    destruct (validate_one_checkable ext protocol_text Hext) as [v Hv].
    destruct (IH (results ++ [v])%list Hrest) as (vs & Hloop & Hall2).
    exists (v :: vs). split.
    + simpl. rewrite Hv. cbn [bind]. rewrite Hloop, <- app_assoc. reflexivity.
    + now constructor.
Qed.


End WithTextstat.



End ValidateFacts.

(* ===================================================================== *)
(** * The orchestrator *)
(* ===================================================================== *)

Module PipelineFacts.
Import PyStr Extract Pipeline.

Section WithEngine.
Context `{PyLib} `{Agent} `{Prompts} `{Textstat}.
Variable engine : ExtractionEngine.

Lemma extract_variable_routed (w w' : World) (protocol_text : string)
    (variable : TemplateVariable.t) (r : ExtractionResult.t) :
  extract_variable engine w protocol_text variable = (Extracted r, w') ->
  routed variable r.
Proof.
  unfold extract_variable.
  destruct (TemplateVariable.is_standard_text variable).
  { intros [= <- _]. now repeat split. }
  destruct (negb _ && negb _).
  { intros [= <- _]. now repeat split. }
  intros Hrun.
  destruct (RouterFacts.run_rlm_extraction_cases _ _ _ _ _ _ Hrun)
    as [[e ->] | [raw Hp]].
  - destruct e. now repeat split.
  - destruct (RouterFacts.parse_response_cases _ _ _ Hp)
      as [[Hparse ->] | (data & items & Hparse & _ & ->)].
    + split; [reflexivity |]. split; [reflexivity |].
      cbn [ExtractionResult.section_id ExtractionResult.raw_response
           parse_failure_result].
      now rewrite Hparse.
    + split; [reflexivity |]. split; [reflexivity |].
      cbn [ExtractionResult.section_id ExtractionResult.raw_response].
      now rewrite Hparse.
Qed.

(** The extraction loop without interruption: one result per work item,
    in order, after what was there. *)
Lemma extract_all_spec (w : World) (protocol_text : string)
    (variables : list TemplateVariable.t)
    (extractions : list ExtractionResult.t) :
  uninterrupted engine w protocol_text variables = true ->
  exists results,
    fst (extract_all engine w protocol_text variables extractions)
    = (extractions ++ results)%list
    /\ Forall2 routed variables results.
Proof.
  revert w extractions.
  induction variables as [|var rest IH]; intros w extractions Hun.
  - exists []. simpl. now rewrite app_nil_r.
  - simpl in Hun |- *.
    destruct (extract_variable engine w protocol_text var)
      as [[r|] w'] eqn:Er; [| discriminate].
    destruct (IH w' (extractions ++ [r])%list Hun) as (rs & Hall & Hrouted).
    exists (r :: rs). split.
    + rewrite Hall, <- app_assoc. reflexivity.
    + constructor; [| exact Hrouted].
      exact (extract_variable_routed _ _ _ _ _ Er).
Qed.


End WithEngine.



End PipelineFacts.

(* ===================================================================== *)
(** * Loading the registry *)
(* ===================================================================== *)

Module LoadFacts.
Import PyStr PyStrFacts Registry.

(** A status cell that reads "excluded" in any case has no white space to
    strip. *)
Lemma excluded_cell (status : string) :
  lower status = "excluded" -> lower (strip status) = "excluded".
Proof.
  intros Hl. rewrite strip_no_space; [exact Hl |].
  rewrite <- no_space_lower, Hl. reflexivity.
Qed.

Section WithLibrary.
Context `{PyLib}.

Lemma load_rows_dropped (row : list string) (rest : list (list string))
    (variables : list TemplateVariable.t) :
  dropped row -> load_rows (row :: rest) variables = load_rows rest variables.
Proof.
  intros [Hshort | Hexcl]; simpl.
  - apply Nat.ltb_lt in Hshort. now rewrite Hshort.
  - rewrite (excluded_cell _ Hexcl). cbn [String.eqb].
    now destruct (List.length row <? 8).
Qed.

(** Dropping is silent: the loop does on the rows what it does without the
    dropped row. *)
Lemma load_rows_without (before after : list (list string))
    (row : list string) (variables : list TemplateVariable.t) :
  dropped row ->
  load_rows (before ++ row :: after) variables
  = load_rows (before ++ after) variables.
Proof.
  intros Hdrop. revert variables.
  induction before as [|r before IH]; intros variables.
  - simpl app. now apply load_rows_dropped.
  - simpl. destruct (List.length r <? 8); [apply IH |].
    destruct (String.eqb _ _); [apply IH |].
    destruct (variable_of_row r) as [v|e]; cbn [bind]; [apply IH | reflexivity].
Qed.

Lemma load_rows_all_dropped (rows : list (list string))
    (variables : list TemplateVariable.t) :
  (forall row, In row rows -> dropped row) ->
  load_rows rows variables = Ok variables.
Proof.
  induction rows as [|row rest IH]; intros Hall; [reflexivity |].
  rewrite load_rows_dropped by (apply Hall; now left).
  apply IH. intros r Hin. apply Hall. now right.
Qed.

(** C10: [load_template_registry] silently skips every data row with
    fewer than 8 cells, as it does every row whose status column reads
    "excluded" in any case: the outcome is that of the file without the
    row.  When every data row is dropped it raises an error, and it never
    returns an empty list. *)
Theorem registry_drops_rows (csv_path : string) (header : list string)
    (rows : list (list string)) :
  (forall before row after,
      rows = (before ++ row :: after)%list ->
      List.length row < 8 \/ lower (cell row 1) = "excluded" ->
      load_template_registry csv_path (Some (header :: rows))
      = load_template_registry csv_path (Some (header :: before ++ after)))
  /\ ((forall row, In row rows ->
                   List.length row < 8 \/ lower (cell row 1) = "excluded") ->
      load_template_registry csv_path (Some (header :: rows))
      = Raise (Exn "ValueError"
                   ("No variables loaded from CSV: " ++ csv_path)))
  /\ (forall file, load_template_registry csv_path file <> Ok []).
Proof.
  split; [| split].
  - intros before row after -> Hdrop. unfold load_template_registry.
    now rewrite (load_rows_without before after row [] Hdrop).
  - intros Hall. unfold load_template_registry.
    now rewrite (load_rows_all_dropped rows [] Hall).
  - intros [[|hd data]|]; unfold load_template_registry; try discriminate.
    destruct (load_rows data []) as [[|v vs]|e]; cbn [bind]; discriminate.
Qed.

End WithLibrary.

Lemma registry_drops_rows_witness :
  Sample.load [Sample.header_row; Sample.short_row; Sample.excluded_row;
               Sample.included_row]
  = Sample.load [Sample.header_row; Sample.excluded_row; Sample.included_row]
  /\ Sample.load [Sample.header_row; Sample.short_row; Sample.excluded_row;
                  Sample.included_row]
     = Sample.load [Sample.header_row; Sample.short_row; Sample.included_row]
  /\ Sample.load [Sample.header_row; Sample.short_row; Sample.excluded_row]
     = Raise (Exn "ValueError" "No variables loaded from CSV: template.csv").
Proof.
  split; [| split].
  - apply (proj1 (@registry_drops_rows Sample.sample_lib "template.csv"
                    Sample.header_row
                    [Sample.short_row; Sample.excluded_row;
                     Sample.included_row])
             [] Sample.short_row [Sample.excluded_row; Sample.included_row]
             eq_refl).
    left. vm_compute. lia.
  - apply (proj1 (@registry_drops_rows Sample.sample_lib "template.csv"
                    Sample.header_row
                    [Sample.short_row; Sample.excluded_row;
                     Sample.included_row])
             [Sample.short_row] Sample.excluded_row [Sample.included_row]
             eq_refl).
    right. reflexivity.
  - apply (proj1 (proj2 (@registry_drops_rows Sample.sample_lib "template.csv"
                           Sample.header_row
                           [Sample.short_row; Sample.excluded_row]))).
    intros row [<- | [<- | []]].
    + left. vm_compute. lia.
    + right. reflexivity.
Defined.

End LoadFacts.

(* ===================================================================== *)
(** * The scenarios of the specification, run on the model *)
(* ===================================================================== *)

Module Scenarios.
Import PyStr.

(** A: a standard-text item is answered without a call of the agent. *)
Example scenario_standard_text :
  Registry._classify_availability ["Standard Text"] = (true, false, true)
  /\ Sample.route [Response Sample.found_text] Sample.standard_item
     = (Extract.Extracted (Extract._make_standard_result Sample.standard_item),
        [Response Sample.found_text]).
Proof. split; reflexivity. Qed.

(** B: an item that is not in the protocol is skipped without a call. *)
Example scenario_not_in_protocol :
  Registry._classify_availability ["Not in Protocol"] = (false, false, false)
  /\ Sample.route [Response Sample.found_text] Sample.absent_item
     = (Extract.Extracted (Extract._make_skipped_result Sample.absent_item),
        [Response Sample.found_text]).
Proof. split; reflexivity. Qed.

(** C: a record inside a code fence is recovered by the third strategy. *)
Example scenario_code_fence :
  Extract.md_match_group1 Sample.fenced_text = Some Sample.fenced_inner
  /\ @Extract.code_fence Sample.sample_lib Sample.fenced_text
     = Ok (Some [(PStr "status", PStr "FOUND"); (PStr "answer", PStr "x")])
  /\ Sample.recover Sample.fenced_text
     = Ok (Some [(PStr "status", PStr "FOUND"); (PStr "answer", PStr "x")]).
Proof. repeat split. Qed.

(** D: fifty characters of prose come back as the PARTIAL fallback. *)
Example scenario_prose :
  let prose := "The sponsor pays for every visit and for all tests" in
  String.length prose = 50
  /\ exists record,
       Sample.recover prose = Ok (Some record)
       /\ Py.lookup record "status" = Some (PStr "PARTIAL")
       /\ Py.lookup record "answer" = Some (PStr prose).
Proof.
  split; [reflexivity |]. eexists. split; [vm_compute; reflexivity |].
  split; reflexivity.
Qed.

(** E: case and spacing do not matter to the exact containment. *)
Example scenario_normalised_quote :
  contains (Validate._normalise "the SPONSOR will   pay all costs")
           (Validate._normalise "The sponsor will pay all costs.") = true
  /\ Validate.verify_quote "the SPONSOR will   pay all costs"
                           "The sponsor will pay all costs." = true.
Proof. split; reflexivity. Qed.

(** F: a quote that is nowhere in the reference fails, and the validation
    says so. *)
Example scenario_unverified_quote :
  let ext :=
    ExtractionResult.make (PStr "1.1") "Heading" None (PStr "FOUND")
      (PStr "The sponsor pays.") (PStr EmptyString)
      [Evidence.make "zzz" "3" EmptyString]
      (PStr "HIGH") (PStr EmptyString) EmptyString None in
  Validate.verify_quote "zzz" "The sponsor will pay all costs." = false
  /\ Sample.validate [ext] "The sponsor will pay all costs."
     = Ok [ValidationResult.make (PStr "1.1") [false] None
             ["Quote not verified in protocol: " ++ dq ++ "zzz..." ++ dq]].
Proof. split; reflexivity. Qed.

End Scenarios.

(* ===================================================================== *)
(** * More on normalisation and quote verification *)
(* ===================================================================== *)

Module NormalFacts.
Import PyStr PyStrFacts Normal.

Lemma substring_of_refl (s : string) : substring_of s s.
Proof. exists EmptyString, EmptyString. simpl. now rewrite append_empty_r. Qed.

Lemma substring_of_trans (a b c : string) :
  substring_of a b -> substring_of b c -> substring_of a c.
Proof.
  intros (p1 & q1 & ->) (p2 & q2 & ->).
  exists (p2 ++ p1), (q1 ++ q2). now rewrite !append_assoc.
Qed.

Lemma substring_of_cons (sub s : string) (c : ascii) :
  substring_of sub s -> substring_of sub (String c s).
Proof.
  intros H. now apply (substring_of_app_r sub (String c EmptyString) s).
Qed.

Lemma substring_of_empty (s : string) :
  substring_of s EmptyString -> s = EmptyString.
Proof.
  intros (pre & post & E). destruct pre; [| discriminate].
  now destruct s.
Qed.

Lemma lower_app (a b : string) : lower (a ++ b) = lower a ++ lower b.
Proof. induction a as [|c a IH]; simpl; [reflexivity | now rewrite IH]. Qed.

Lemma lower_char_idempotent (c : ascii) :
  lower_char (lower_char c) = lower_char c.
Proof. destruct c as [[] [] [] [] [] [] [] []]; reflexivity. Qed.

Lemma lower_idempotent (s : string) : lower (lower s) = lower s.
Proof.
  induction s as [|c r IH]; simpl; [reflexivity |].
  now rewrite lower_char_idempotent, IH.
Qed.

(** The words that [split] yields are not empty. *)
Lemma split_from_nonempty (s cur : string) :
  Forall (fun w => w <> EmptyString) (split_from cur s).
Proof.
  revert cur. induction s as [|c r IH]; intros cur; simpl.
  - destruct cur; constructor; [discriminate | constructor].
  - destruct (is_space c).
    + destruct cur; [apply IH |]. constructor; [discriminate | apply IH].
    + apply IH.
Qed.

Lemma join_cons (sep w : string) (l : list string) :
  join sep (w :: l)
  = w ++ match l with [] => EmptyString | _ => sep ++ join sep l end.
Proof. destruct l; simpl; [now rewrite append_empty_r | reflexivity]. Qed.

Lemma join_nonempty (sep w : string) (l : list string) :
  w <> EmptyString -> join sep (w :: l) <> EmptyString.
Proof. intros Hw. rewrite join_cons. now destruct w. Qed.

(** [squeeze] is what joining the words of [split] gives. *)
Lemma join_split_from (s cur : string) :
  join " " (split_from cur s)
  = match cur with
    | EmptyString => squeeze false s
    | _ => cur ++ squeeze true s
    end.
Proof.
  revert cur. induction s as [|c r IH]; intros cur.
  - destruct cur; simpl; [reflexivity | now rewrite append_empty_r].
  - simpl. destruct (is_space c) eqn:Hc.
    + destruct cur as [|a cur]; [apply (IH EmptyString) |].
      rewrite join_cons. f_equal. specialize (IH EmptyString). simpl in IH.
      pose proof (split_from_nonempty r EmptyString) as Hne.
      destruct (split_from EmptyString r) as [|w l].
      * simpl in IH. now rewrite <- IH.
      * rewrite <- IH. inversion Hne as [|? ? Hw _]; subst.
        pose proof (join_nonempty " " w l Hw) as Hj.
        destruct (join " " (w :: l)); [contradiction | reflexivity].
    + rewrite IH. destruct cur as [|a cur]; simpl; [reflexivity |].
      now rewrite append_assoc.
Qed.

Lemma normalise_squeeze (text : string) :
  Validate._normalise text = squeeze false (lower text).
Proof. unfold Validate._normalise, split. apply join_split_from. Qed.

(** With a word before it, the collapsed text is the same, or takes one
    space in front. *)
Lemma squeeze_true_false (s : string) :
  squeeze true s = squeeze false s
  \/ squeeze true s = String " " (squeeze false s).
Proof.
  destruct s as [|c r]; simpl; [now left |].
  destruct (is_space c); [| now left].
  destruct (squeeze false r); [now left | now right].
Qed.

Lemma squeeze_cons (c : ascii) (s : string) :
  substring_of (squeeze false s) (squeeze false (String c s)).
Proof.
  simpl. destruct (is_space c); [apply substring_of_refl |].
  apply substring_of_cons.
  destruct (squeeze_true_false s) as [-> | ->].
  - apply substring_of_refl.
  - apply substring_of_cons, substring_of_refl.
Qed.

(** Text put in front leaves the collapsed text in place. *)
Lemma squeeze_app_r (a b : string) :
  substring_of (squeeze false b) (squeeze false (a ++ b)).
Proof.
  induction a as [|c a IH]; [apply substring_of_refl |].
  simpl append. eapply substring_of_trans; [exact IH | apply squeeze_cons].
Qed.

(** Text put behind extends the collapsed text. *)
Lemma squeeze_app_l (a b : string) (in_text : bool) :
  exists post, squeeze in_text (a ++ b) = squeeze in_text a ++ post.
Proof.
  revert in_text. induction a as [|c a IH]; intros in_text.
  - now exists (squeeze in_text b).
  - simpl. destruct (is_space c).
    + destruct (IH false) as [post Hpost]. destruct in_text.
      * rewrite Hpost. destruct (squeeze false a) as [|x h].
        -- simpl. now eexists.
        -- simpl. now exists post.
      * now exists post.
    + destruct (IH true) as [post Hpost]. rewrite Hpost. now exists post.
Qed.

(** The normalised form of a part of a text is a part of its normalised
    form. *)
Lemma normalise_substring (quote text : string) :
  substring_of quote text ->
  substring_of (Validate._normalise quote) (Validate._normalise text).
Proof.
  intros (pre & post & ->). rewrite !normalise_squeeze, !lower_app.
  eapply substring_of_trans; [| apply squeeze_app_r].
  destruct (squeeze_app_l (lower quote) (lower post) false) as [rest ->].
  exists EmptyString, rest. reflexivity.
Qed.

Lemma lower_squeeze (s : string) (in_text : bool) :
  lower (squeeze in_text s) = squeeze in_text (lower s).
Proof.
  revert in_text. induction s as [|c r IH]; intros in_text; [reflexivity |].
  simpl. rewrite is_space_lower_char. destruct (is_space c) eqn:Hc.
  - destruct in_text; [| apply IH].
    rewrite <- (IH false). destruct (squeeze false r); reflexivity.
  - simpl. now rewrite IH.
Qed.

Lemma squeeze_idempotent (s : string) (in_text : bool) :
  squeeze in_text (squeeze in_text s) = squeeze in_text s.
Proof.
  revert in_text. induction s as [|c r IH]; intros in_text; [reflexivity |].
  simpl. destruct (is_space c) eqn:Hc.
  - destruct in_text; [| apply IH].
    pose proof (IH false) as Hx.
    destruct (squeeze false r) as [|x h]; [reflexivity |].
    change (squeeze true (String " " (String x h)))
      with (match squeeze false (String x h) with
            | EmptyString => EmptyString
            | hh => String " " hh
            end).
    now rewrite Hx.
  - simpl. rewrite Hc. now rewrite IH.
Qed.

End NormalFacts.

(* ===================================================================== *)
(** * Further properties of quote verification *)
(* ===================================================================== *)

Module QuoteExtras.
Import PyStr PyStrFacts Normal NormalFacts.

Lemma substring_nonempty (sub s : string) :
  sub <> EmptyString -> substring_of sub s -> s <> EmptyString.
Proof. intros Hsub Hin ->. now apply Hsub, substring_of_empty. Qed.

(** X1: for a quote and a protocol text of Latin-1 characters (code
    points below 256, the texts of this model): a quote copied from the
    protocol - any non-empty part of its text, whatever the case and the
    white space around and inside it - is verified. *)
Theorem verbatim_quote_verified (quote protocol_text : string) :
  quote <> EmptyString ->
  substring_of quote protocol_text ->
  Validate.verify_quote quote protocol_text = true.
Proof.
  intros Hq Hin. apply QuoteFacts.verify_quote_exact.
  - exact Hq.
  - exact (substring_nonempty quote protocol_text Hq Hin).
  - apply contains_iff. now apply normalise_substring.
Qed.

Lemma verbatim_quote_verified_witness :
  Validate.verify_quote "will  pay" "The sponsor will  pay all costs." = true.
Proof.
  apply verbatim_quote_verified.
  - discriminate.
  - now exists "The sponsor ", " all costs.".
Defined.

(** X2: normalising twice is normalising once. *)
Theorem normalise_idempotent (text : string) :
  Validate._normalise (Validate._normalise text) = Validate._normalise text.
Proof.
  rewrite !normalise_squeeze, lower_squeeze, lower_idempotent.
  apply squeeze_idempotent.
Qed.

Lemma length_lstrip (s : string) : String.length (lstrip s) <= String.length s.
Proof.
  induction s as [|c r IH]; simpl; [lia |].
  destruct (is_space c); simpl; lia.
Qed.

Lemma length_rstrip (s : string) : String.length (rstrip s) <= String.length s.
Proof.
  induction s as [|c r IH]; simpl; [lia |].
  destruct (rstrip r); [destruct (is_space c) |]; simpl in *; lia.
Qed.

Lemma length_strip (s : string) : String.length (strip s) <= String.length s.
Proof.
  unfold strip. pose proof (length_rstrip (lstrip s)).
  pose proof (length_lstrip s). lia.
Qed.

Lemma length_append (a b : string) :
  String.length (a ++ b) = String.length a + String.length b.
Proof. induction a as [|c a IH]; simpl; [reflexivity | now rewrite IH]. Qed.

Lemma length_take_le (n : nat) (s : string) :
  String.length (take n s) <= String.length s.
Proof.
  revert s; induction n as [|n IH]; intros [|c r]; simpl; try lia.
  specialize (IH r). lia.
Qed.

(** No piece that [re.split] cuts is longer than the text. *)
Lemma split_on_lengths (sep : ascii -> bool) (s cur : string) :
  Forall (fun piece =>
            String.length piece <= String.length cur + String.length s)
         (split_on sep cur s).
Proof.
  revert cur. induction s as [|c r IH]; intros cur; simpl.
  - constructor; [lia | constructor].
  - destruct (sep c).
    + constructor; [lia |].
      eapply Forall_impl; [| apply (IH EmptyString)]. simpl. intros; lia.
    + eapply Forall_impl; [| apply (IH (cur ++ String c EmptyString))].
      intros piece. rewrite length_append. simpl. lia.
Qed.

Lemma filter_all_false {A : Type} (P : A -> bool) (l : list A) :
  Forall (fun x => P x = false) l -> filter P l = [].
Proof.
  induction 1 as [|x l Hx _ IH]; [reflexivity |]. simpl. now rewrite Hx.
Qed.

(** X3: for a quote whose normalised form has 15 characters or fewer,
    neither the prefix match nor the phrase match can apply: it is verified
    exactly when its normalised form is found in the normalised protocol. *)
Theorem short_quote_exact (quote protocol_text : string) :
  quote <> EmptyString -> protocol_text <> EmptyString ->
  String.length (Validate._normalise quote) <= 15 ->
  Validate.verify_quote quote protocol_text
  = contains (Validate._normalise quote) (Validate._normalise protocol_text).
Proof.
  intros Hq Hp Hlen. unfold Validate.verify_quote.
  destruct quote as [|a q]; [contradiction |].
  destruct protocol_text as [|b t]; [contradiction |].
  cbn [String.eqb orb].
  set (norm_q := Validate._normalise (String a q)) in *.
  set (norm_p := Validate._normalise (String b t)).
  destruct (contains norm_q norm_p); [reflexivity |].
  assert ((30 <? String.length (take 120 norm_q)) = false) as ->.
  { apply Nat.ltb_ge. pose proof (length_take_le 120 norm_q). lia. }
  cbn [andb]. rewrite filter_all_false; [reflexivity |].
  eapply Forall_impl;
    [| apply (split_on_lengths Validate.comma_or_period norm_q EmptyString)].
  intros piece Hpiece. simpl in Hpiece. apply Nat.ltb_ge.
  pose proof (length_strip piece). lia.
Qed.

Lemma short_quote_exact_witness :
  Validate.verify_quote "Sponsor  PAYS" "The sponsor will pay all costs."
  = contains (Validate._normalise "Sponsor  PAYS")
             (Validate._normalise "The sponsor will pay all costs.").
Proof.
  apply short_quote_exact.
  - discriminate.
  - discriminate.
  - vm_compute. lia.
Defined.

Lemma contains_mono (needle a b : string) :
  substring_of a b -> contains needle a = true -> contains needle b = true.
Proof.
  intros Hab Hc. apply contains_iff.
  eapply substring_of_trans; [| exact Hab]. now apply contains_iff.
Qed.

Lemma filter_length_mono {A : Type} (P Q : A -> bool) (l : list A) :
  (forall x, P x = true -> Q x = true) ->
  List.length (filter P l) <= List.length (filter Q l).
Proof.
  intros HPQ. induction l as [|x l IH]; simpl; [lia |].
  destruct (P x) eqn:HP.
  - rewrite (HPQ x HP). simpl. lia.
  - destruct (Q x); simpl; lia.
Qed.

(** X4: for texts of Latin-1 characters (code points below 256, the
    texts of this model): a quote that is verified against a text stays
    verified against every text that contains it - more protocol never
    loses a quote. *)
Theorem verified_in_larger_text (quote text larger : string) :
  substring_of text larger ->
  Validate.verify_quote quote text = true ->
  Validate.verify_quote quote larger = true.
Proof.
  intros Hin. unfold Validate.verify_quote.
  destruct (String.eqb quote EmptyString); [discriminate |].
  destruct (String.eqb text EmptyString) eqn:Et; [discriminate |].
  apply String.eqb_neq in Et.
  assert (String.eqb larger EmptyString = false) as ->.
  { apply String.eqb_neq. exact (substring_nonempty text larger Et Hin). }
  cbn [orb].
  pose proof (normalise_substring text larger Hin) as Hnorm.
  set (norm_q := Validate._normalise quote).
  set (norm_p := Validate._normalise text) in *.
  set (norm_l := Validate._normalise larger) in *.
  destruct (contains norm_q norm_p) eqn:Ha.
  { now rewrite (contains_mono _ _ _ Hnorm Ha). }
  destruct (contains norm_q norm_l); [reflexivity |].
  destruct (30 <? String.length (take 120 norm_q)); cbn [andb].
  - destruct (contains (take 120 norm_q) norm_p) eqn:Hb.
    { now rewrite (contains_mono _ _ _ Hnorm Hb). }
    destruct (contains (take 120 norm_q) norm_l); [reflexivity |].
    set (phrases := map strip _).
    destruct phrases as [|ph phs] eqn:Eph; [discriminate |].
    rewrite <- Eph. intros Hc. apply Nat.leb_le in Hc. apply Nat.leb_le.
    pose proof (filter_length_mono (fun p => contains p norm_p)
                  (fun p => contains p norm_l) phrases
                  (fun p => contains_mono p _ _ Hnorm)).
    lia.
  - set (phrases := map strip _).
    destruct phrases as [|ph phs] eqn:Eph; [discriminate |].
    rewrite <- Eph. intros Hc. apply Nat.leb_le in Hc. apply Nat.leb_le.
    pose proof (filter_length_mono (fun p => contains p norm_p)
                  (fun p => contains p norm_l) phrases
                  (fun p => contains_mono p _ _ Hnorm)).
    lia.
Qed.

Lemma verified_in_larger_text_witness :
  Validate.verify_quote "sponsor will pay"
    "--- PAGE 1 --- The sponsor will pay all costs. --- PAGE 2 ---" = true.
Proof.
  apply (verified_in_larger_text "sponsor will pay"
           "The sponsor will pay all costs.").
  - now exists "--- PAGE 1 --- ", " --- PAGE 2 ---".
  - reflexivity.
Defined.

End QuoteExtras.

(* ===================================================================== *)
(** * Further properties of the validation engine *)
(* ===================================================================== *)

Module ValidateExtras.
Import PyStr PyStrFacts Validate.

Section WithTextstat.
Context `{Textstat}.

(** The flags and the diagnostics of the quotes of [ext]. *)
Lemma validate_one_unskipped (ext : ExtractionResult.t)
    (protocol_text : string) :
  Py.in_strs (ExtractionResult.status ext) skipped_statuses = false ->
  validate_one ext protocol_text
  = (grade <- check_reading_level (ExtractionResult.answer ext) ;;
     Ok (ValidationResult.make (ExtractionResult.section_id ext)
           (map (fun ev => verify_quote (Evidence.quote ev) protocol_text)
                (ExtractionResult.evidence ext))
           grade
           (map (fun ev => quote_issue (Evidence.quote ev))
                (filter (failed protocol_text)
                        (ExtractionResult.evidence ext))
              ++ match grade with
                 | Some g => if above_reading_level_warn g
                             then [reading_level_issue g] else []
                 | None => []
                 end)%list)).
Proof.
  intros Hs. unfold validate_one. rewrite Hs.
  rewrite ValidateFacts.verify_quotes_spec. simpl app.
  destruct (check_reading_level (ExtractionResult.answer ext)) as [grade|e];
    cbn [bind]; [| reflexivity].
  destruct grade as [g|]; [destruct (above_reading_level_warn g) |];
    now rewrite ?app_nil_r.
Qed.

Lemma validate_one_uncheckable (ext : ExtractionResult.t)
    (protocol_text : string) :
  checkable ext = false ->
  validate_one ext protocol_text
  = Raise (Exn "AttributeError"
               ("'" ++ Py.type_name (ExtractionResult.answer ext)
                    ++ "' object has no attribute 'split'")).
Proof.
  unfold checkable. rewrite !orb_false_iff. intros [[Hs Ht] Hstr].
  rewrite (validate_one_unskipped ext protocol_text Hs).
  unfold check_reading_level. rewrite Ht.
  destruct (ExtractionResult.answer ext); try discriminate; reflexivity.
Qed.

Lemma validate_loop_raises (extractions : list ExtractionResult.t)
    (protocol_text : string) (results : list ValidationResult.t) :
  forallb checkable extractions = false ->
  exists message,
    validate_loop extractions protocol_text results
    = Raise (Exn "AttributeError" message).
Proof.
  revert results.
  induction extractions as [|ext rest IH]; intros results Hall;
    [discriminate |].
  simpl in Hall |- *. destruct (checkable ext) eqn:Hc.
  - destruct (ValidateFacts.validate_one_checkable ext protocol_text Hc)
      as [v ->]. cbn [bind]. now apply IH.
  - rewrite (validate_one_uncheckable ext protocol_text Hc). cbn [bind].
    now eexists.
Qed.


(** X6: for an extraction that is validated, the reading level is not
    assessed - the grade is absent and the issues are the quote
    diagnostics alone - whenever the answer is a string and either
    [textstat] is missing or the answer has fewer than 10 words, or the
    answer counts as false. *)
Theorem reading_level_not_assessed (ext : ExtractionResult.t)
    (protocol_text : string) :
  Py.in_strs (ExtractionResult.status ext) skipped_statuses = false ->
  (exists answer, ExtractionResult.answer ext = PStr answer
                  /\ (flesch_kincaid_grade = None
                      \/ List.length (split answer) < 10))
  \/ Py.truthy (ExtractionResult.answer ext) = false ->
  validate_one ext protocol_text
  = Ok (ValidationResult.make (ExtractionResult.section_id ext)
          (map (fun ev => verify_quote (Evidence.quote ev) protocol_text)
               (ExtractionResult.evidence ext))
          None
          (map (fun ev => quote_issue (Evidence.quote ev))
               (filter (failed protocol_text)
                       (ExtractionResult.evidence ext)))).
Proof.
  intros Hs Hwhy. rewrite (validate_one_unskipped ext protocol_text Hs).
  assert (check_reading_level (ExtractionResult.answer ext) = Ok None) as ->.
  { unfold check_reading_level.
    destruct Hwhy as [(answer & -> & Hwhy) | ->]; [| reflexivity].
    destruct (negb (Py.truthy (PStr answer))); [reflexivity |].
    destruct Hwhy as [-> | Hwords].
    - now destruct (List.length (split answer) <? 10).
    - apply Nat.ltb_lt in Hwords. now rewrite Hwords. }
  cbn [bind]. now rewrite app_nil_r.
Qed.

End WithTextstat.


Lemma reading_level_not_assessed_witness :
  let ext :=
    ExtractionResult.make (PStr "1.1") "Heading" None (PStr "FOUND")
      (PStr "The sponsor pays.") (PStr EmptyString)
      [Evidence.make "no such words" "4" EmptyString]
      (PStr "HIGH") (PStr EmptyString) EmptyString None in
  @validate_one Sample.no_textstat ext "The sponsor will pay all costs."
  = Ok (ValidationResult.make (PStr "1.1") [false] None
          [quote_issue "no such words"]).
Proof.
  intros ext.
  apply (@reading_level_not_assessed Sample.no_textstat ext
           "The sponsor will pay all costs.").
  - reflexivity.
  - left. exists "The sponsor pays.". split; [reflexivity |]. now left.
Defined.

End ValidateExtras.

(* ===================================================================== *)
(** * Further properties of the registry *)
(* ===================================================================== *)

Module RegistryExtras.
Import PyStr PyStrFacts NormalFacts Registry.

(** The four outcomes of the classification. *)
Lemma classify_availability_range (tags : list string) :
  In (_classify_availability tags)
     [(true, false, true); (false, false, false); (true, true, false);
      (true, false, false)].
Proof.
  unfold _classify_availability.
  destruct (contains "standard text" _); [simpl; tauto |].
  destruct (contains "not in protocol" _ && negb _ && negb _);
    [simpl; tauto |].
  destruct (contains "not in protocol" _ && (_ || _)); simpl; tauto.
Qed.

Section WithLibrary.
Context `{PyLib}.

(** What a loaded variable takes from its row. *)
Lemma variable_of_row_fields (row : list string) (v : TemplateVariable.t) :
  variable_of_row row = Ok v ->
  TemplateVariable.section_id v = strip (cell row 0)
  /\ TemplateVariable.csv_status v = strip (cell row 1)
  /\ _parse_complexity (strip (cell row 2))
     = Ok (TemplateVariable.complexity v)
  /\ Rows.flags v = _classify_availability (TemplateVariable.complexity v).
Proof.
  unfold variable_of_row.
  destruct (_parse_complexity (strip (cell row 2))) as [tags|e];
    cbn [bind]; [| discriminate].
  destruct (_classify_availability tags) as [[a p] st] eqn:Ec.
  intros [= <-]. cbn. now rewrite Ec.
Qed.

Lemma load_rows_cons (row : list string) (rest : list (list string))
    (variables : list TemplateVariable.t) :
  load_rows (row :: rest) variables
  = if Rows.kept row
    then v <- variable_of_row row ;; load_rows rest (variables ++ [v])%list
    else load_rows rest variables.
Proof.
  unfold Rows.kept. simpl.
  destruct (List.length row <? 8); [reflexivity |].
  now destruct (String.eqb _ _).
Qed.

(** What the row loop returns: the variables it had, then one per kept
    row, in the order of the rows. *)
Lemma load_rows_ok (rows : list (list string))
    (variables loaded : list TemplateVariable.t) :
  load_rows rows variables = Ok loaded ->
  exists new,
    loaded = (variables ++ new)%list
    /\ Forall2 (fun row v => variable_of_row row = Ok v)
               (filter Rows.kept rows) new.
Proof.
  revert variables. induction rows as [|row rest IH]; intros variables.
  - simpl. intros [= <-]. exists []. now rewrite app_nil_r.
  - rewrite load_rows_cons. simpl filter. destruct (Rows.kept row).
    + destruct (variable_of_row row) as [v|e] eqn:Ev; cbn [bind];
        [| discriminate].
      intros Hload. destruct (IH _ Hload) as (new & -> & Hall).
      exists (v :: new). rewrite <- app_assoc. split; [reflexivity |].
      now constructor.
    + apply IH.
Qed.

(** X7: when [load_template_registry] returns, it returns one variable
    per kept row (8 cells or more, status not "excluded"), in the order of
    the file and at least one; each carries the trimmed identifier and
    status of its row and the flags that its complexity tags classify
    to. *)
Theorem registry_keeps_order (csv_path : string) (header : list string)
    (rows : list (list string)) (variables : list TemplateVariable.t) :
  load_template_registry csv_path (Some (header :: rows)) = Ok variables ->
  variables <> []
  /\ Forall2 (fun row v =>
                TemplateVariable.section_id v = strip (cell row 0)
                /\ TemplateVariable.csv_status v = strip (cell row 1)
                /\ Rows.flags v
                   = _classify_availability (TemplateVariable.complexity v))
             (filter Rows.kept rows) variables.
Proof.
  unfold load_template_registry.
  destruct (load_rows rows []) as [loaded|e] eqn:El; cbn [bind];
    [| discriminate].
  destruct loaded as [|v0 loaded]; [discriminate |].
  intros [= <-]. split; [discriminate |].
  destruct (load_rows_ok rows [] _ El) as (new & Hnew & Hall).
  simpl in Hnew. rewrite Hnew. clear -Hall.
  induction Hall as [|row v rs vs Hv _ IH]; constructor; [| exact IH].
  destruct (variable_of_row_fields row v Hv) as (Hid & Hst & _ & Hfl).
  now repeat split.
Qed.

(** X8: every variable that the registry loads keeps the flags
    consistent: standard text is marked available and not partial, a
    partially available item is marked available, and an item that is not
    available is neither partial nor standard - so that the router skips
    exactly the items marked not available. *)
Theorem loaded_flags_consistent (row : list string) (v : TemplateVariable.t) :
  variable_of_row row = Ok v ->
  (TemplateVariable.is_standard_text v = true ->
   TemplateVariable.is_in_protocol v = true
   /\ TemplateVariable.partially_in_protocol v = false)
  /\ (TemplateVariable.partially_in_protocol v = true ->
      TemplateVariable.is_in_protocol v = true)
  /\ (TemplateVariable.is_in_protocol v = false ->
      TemplateVariable.partially_in_protocol v = false
      /\ TemplateVariable.is_standard_text v = false).
Proof.
  intros Hv. destruct (variable_of_row_fields row v Hv) as (_ & _ & _ & Hfl).
  pose proof (classify_availability_range (TemplateVariable.complexity v))
    as Hrange.
  rewrite <- Hfl in Hrange. unfold Rows.flags in Hrange. simpl in Hrange.
  destruct Hrange as [E | [E | [E | [E | []]]]];
    injection E as <- <- <-; repeat split; congruence.
Qed.

Lemma load_rows_app (before after : list (list string))
    (variables : list TemplateVariable.t) :
  load_rows (before ++ after) variables
  = (loaded <- load_rows before variables ;; load_rows after loaded).
Proof.
  revert variables. induction before as [|row before IH]; intros variables.
  - reflexivity.
  - rewrite <- app_comm_cons, !load_rows_cons. destruct (Rows.kept row).
    + destruct (variable_of_row row); cbn [bind]; [apply IH | reflexivity].
    + apply IH.
Qed.

(** X9: one kept row whose complexity cell makes [ast.literal_eval] raise
    an exception that the source does not catch ends the whole load in
    that exception, whatever the rows after it hold. *)
Theorem registry_aborts_on_uncaught (csv_path : string)
    (header : list string) (before after : list (list string))
    (row : list string) (loaded : list TemplateVariable.t) (e : exn) :
  load_rows before [] = Ok loaded ->
  Rows.kept row = true ->
  _parse_complexity (strip (cell row 2)) = Raise e ->
  load_template_registry csv_path (Some (header :: before ++ row :: after))
  = Raise e.
Proof.
  intros Hbefore Hkept Hraise. unfold load_template_registry.
  rewrite load_rows_app, Hbefore. cbn [bind].
  rewrite load_rows_cons, Hkept. unfold variable_of_row. rewrite Hraise.
  reflexivity.
Qed.

End WithLibrary.

Lemma lower_strip (s : string) : lower (strip s) = strip (lower s).
Proof.
  unfold strip.
  assert (forall t, lower (lstrip t) = lstrip (lower t)) as Hl.
  { induction t as [|c r IH]; [reflexivity |]. simpl.
    rewrite is_space_lower_char. now destruct (is_space c). }
  assert (forall t, lower (rstrip t) = rstrip (lower t)) as Hr.
  { induction t as [|c r IH]; [reflexivity |]. simpl.
    rewrite <- IH, is_space_lower_char.
    destruct (rstrip r); [now destruct (is_space c) | reflexivity]. }
  now rewrite Hr, Hl.
Qed.

(** The registry reads its tags and markers in lower case. *)
Lemma registry_reads_lowered (tags : list string) (raw : string) :
  _classify_availability (map lower tags) = _classify_availability tags
  /\ TemplateVariable.first_label (map lower tags)
     = TemplateVariable.first_label tags
  /\ _parse_required (lower raw) = _parse_required raw.
Proof.
  split; [| split].
  - unfold _classify_availability. rewrite map_map.
    now rewrite (map_ext _ lower lower_idempotent).
  - induction tags as [|c rest IH]; [reflexivity |]. simpl.
    now rewrite lower_idempotent, IH.
  - unfold _parse_required.
    now rewrite <- lower_strip, lower_idempotent.
Qed.

(** X10: neither the availability classification, nor the complexity
    label, nor the required marker depends on the case of the text it
    reads: tags, or markers, that differ in case only give the same
    result. *)
Theorem registry_case_insensitive (tags1 tags2 : list string)
    (raw1 raw2 : string) :
  map lower tags1 = map lower tags2 ->
  lower raw1 = lower raw2 ->
  _classify_availability tags1 = _classify_availability tags2
  /\ TemplateVariable.first_label tags1 = TemplateVariable.first_label tags2
  /\ _parse_required raw1 = _parse_required raw2.
Proof.
  intros Htags Hraw.
  destruct (registry_reads_lowered tags1 raw1) as (Hc1 & Hl1 & Hr1).
  destruct (registry_reads_lowered tags2 raw2) as (Hc2 & Hl2 & Hr2).
  rewrite <- Hc1, <- Hl1, <- Hr1, <- Hc2, <- Hl2, <- Hr2.
  now rewrite Htags, Hraw.
Qed.

Lemma startswith_contains (p s : string) :
  startswith p s = true -> contains p s = true.
Proof. intros Hs. rewrite contains_unfold, Hs. reflexivity. Qed.

Lemma startswith_head (p q s : string) (a b : ascii) :
  a <> b -> startswith (String a p) s = true ->
  startswith (String b q) s = false.
Proof.
  intros Hab. destruct s as [|c s]; simpl; [discriminate |].
  rewrite andb_true_iff. intros [Hc _]. apply Ascii.eqb_eq in Hc as <-.
  apply Ascii.eqb_neq in Hab. rewrite Ascii.eqb_sym in Hab.
  now rewrite Hab.
Qed.

(** X11: a marker that begins with "optional" (in any case, after any
    white space) is not required, even when it goes on to say "required";
    and a marker counted as required always holds the word "required". *)
Theorem parse_required_marker (raw : string) :
  (startswith "optional" (lower (strip raw)) = true ->
   _parse_required raw = false)
  /\ (_parse_required raw = true ->
      contains "required" (lower (strip raw)) = true).
Proof.
  unfold _parse_required. split.
  - intros Hopt.
    rewrite (startswith_head "ptional" "equired" _ "o" "r") by
      (discriminate || exact Hopt).
    now rewrite Hopt.
  - destruct (startswith "required" _) eqn:Hreq.
    + intros _. now apply startswith_contains.
    + destruct (startswith "optional" _); [discriminate |].
      now rewrite andb_true_iff.
Qed.

Lemma registry_keeps_order_witness :
  exists variables,
    Sample.load [Sample.header_row; Sample.short_row; Sample.excluded_row;
                 Sample.included_row]
    = Ok variables
    /\ variables <> []
    /\ Forall2 (fun row v =>
                  TemplateVariable.section_id v = strip (cell row 0)
                  /\ TemplateVariable.csv_status v = strip (cell row 1)
                  /\ Rows.flags v
                     = _classify_availability
                         (TemplateVariable.complexity v))
               [Sample.included_row] variables.
Proof.
  eexists. split; [reflexivity |].
  exact (@registry_keeps_order Sample.sample_lib "template.csv"
           Sample.header_row
           [Sample.short_row; Sample.excluded_row; Sample.included_row]
           _ eq_refl).
Defined.

Lemma loaded_flags_consistent_witness :
  exists standard partial absent,
    @variable_of_row Sample.sample_lib SampleMore.standard_row = Ok standard
    /\ TemplateVariable.is_standard_text standard = true
    /\ TemplateVariable.is_in_protocol standard = true
    /\ TemplateVariable.partially_in_protocol standard = false
    /\ @variable_of_row Sample.sample_lib SampleMore.partial_row = Ok partial
    /\ TemplateVariable.partially_in_protocol partial = true
    /\ TemplateVariable.is_in_protocol partial = true
    /\ @variable_of_row Sample.sample_lib SampleMore.absent_row = Ok absent
    /\ TemplateVariable.is_in_protocol absent = false
    /\ TemplateVariable.partially_in_protocol absent = false
    /\ TemplateVariable.is_standard_text absent = false.
Proof.
  do 3 eexists.
  split; [reflexivity |]. split; [reflexivity |].
  pose proof (proj1 (@loaded_flags_consistent Sample.sample_lib
                       SampleMore.standard_row _ eq_refl) eq_refl)
    as [Hin Hpartial].
  split; [exact Hin |]. split; [exact Hpartial |].
  split; [reflexivity |]. split; [reflexivity |].
  split; [exact (proj1 (proj2 (@loaded_flags_consistent Sample.sample_lib
                                 SampleMore.partial_row _ eq_refl))
                   eq_refl) |].
  split; [reflexivity |]. split; [reflexivity |].
  exact (proj2 (proj2 (@loaded_flags_consistent Sample.sample_lib
                         SampleMore.absent_row _ eq_refl))
           eq_refl).
Defined.

Lemma registry_aborts_on_uncaught_witness :
  @load_template_registry SampleMore.strict_lib "template.csv"
    (Some [Sample.header_row; Sample.included_row; SampleMore.bad_row;
           Sample.included_row])
  = Raise (Exn "TypeError" "unhashable type: 'list'").
Proof.
  apply (@registry_aborts_on_uncaught SampleMore.strict_lib "template.csv"
           Sample.header_row [Sample.included_row] [Sample.included_row]
           SampleMore.bad_row
           [TemplateVariable.make "1.2" "Sponsor" None true
              "Find the sponsor" "Sponsor: {{sponsor}}" EmptyString
              ["Easy mapping"] EmptyString EmptyString true false false
              EmptyString "Included"]);
    reflexivity.
Defined.

Lemma registry_case_insensitive_witness :
  _classify_availability ["NOT IN PROTOCOL"; "Easy Mapping"]
  = _classify_availability ["not in protocol"; "easy mapping"]
  /\ TemplateVariable.first_label ["NOT IN PROTOCOL"; "Easy Mapping"]
     = TemplateVariable.first_label ["not in protocol"; "easy mapping"]
  /\ _parse_required "REQUIRED" = _parse_required "Required".
Proof.
  apply registry_case_insensitive; reflexivity.
Defined.

Lemma parse_required_marker_witness :
  _parse_required "Optional (required for minors)" = false
  /\ contains "required" (lower (strip " Not Required ")) = true.
Proof.
  split.
  - apply (proj1 (parse_required_marker "Optional (required for minors)")).
    reflexivity.
  - apply (proj2 (parse_required_marker " Not Required ")). reflexivity.
Defined.

End RegistryExtras.

(* ===================================================================== *)
(** * The run summary *)
(* ===================================================================== *)

Module SummaryFacts.
Import PyStr Summary.

Lemma count_of_increment (c : counts) (key other : string) :
  count_of (increment c key) other
  = count_of c other + (if String.eqb key other then 1 else 0).
Proof.
  induction c as [|[k n] rest IH]; simpl.
  - destruct (String.eqb key other); reflexivity.
  - destruct (String.eqb k key) eqn:Ek; simpl.
    + apply String.eqb_eq in Ek as ->.
      destruct (String.eqb key other); lia.
    + destruct (String.eqb k other) eqn:Eo; [| exact IH].
      apply String.eqb_eq in Eo as ->.
      rewrite String.eqb_sym, Ek. lia.
Qed.

(** What the counting loop adds under each [str] key. *)
Lemma count_statuses_spec (extractions : list ExtractionResult.t)
    (c final : counts) (key : string) :
  count_statuses extractions c = Ok final ->
  count_of final key
  = count_of c key + List.length (with_status key extractions).
Proof.
  revert c. induction extractions as [|e rest IH]; intros c.
  - simpl. intros [= <-]. lia.
  - simpl. destruct (unhashable (ExtractionResult.status e)); [discriminate |].
    intros Hrest. rewrite (IH _ Hrest). unfold with_status. simpl filter.
    destruct (ExtractionResult.status e) as [|b|z|bits|s|l|l|l]; simpl; try lia.
    rewrite count_of_increment. fold (with_status key rest).
    rewrite (String.eqb_sym s key).
    destruct (String.eqb key s); simpl; lia.
Qed.

Lemma count_statuses_hashable (extractions : list ExtractionResult.t)
    (c : counts) :
  Forall (fun e => unhashable (ExtractionResult.status e) = None)
         extractions ->
  exists final, count_statuses extractions c = Ok final.
Proof.
  intros Hall. revert c.
  induction Hall as [|e rest He _ IH]; intros c; simpl.
  - now exists c.
  - rewrite He. apply IH.
Qed.

Lemma length_filter_cons {A : Type} (P : A -> bool) (x : A) (l : list A) :
  List.length (filter P (x :: l))
  = (if P x then 1 else 0) + List.length (filter P l).
Proof. simpl. now destruct (P x). Qed.

(** A status is one of the six kinds, or another, and never two. *)
Lemma one_status (e : ExtractionResult.t) :
  let has := fun s => Py.eq_str (ExtractionResult.status e) s in
  (if has "FOUND" then 1 else 0) + (if has "PARTIAL" then 1 else 0)
  + (if has "NOT_FOUND" then 1 else 0) + (if has "SKIPPED" then 1 else 0)
  + (if has "STANDARD_TEXT" then 1 else 0) + (if has "ERROR" then 1 else 0)
  + (if other_status e then 1 else 0) = 1.
Proof.
  unfold other_status, Py.in_strs, ExtractionResult.statuses.
  destruct (ExtractionResult.status e) as [|b|z|bits|s|l|l|l];
    try reflexivity.
  cbn [Py.eq_str existsb].
  destruct (String.eqb s "FOUND") eqn:E1;
    [apply String.eqb_eq in E1 as ->; reflexivity |].
  destruct (String.eqb s "PARTIAL") eqn:E2;
    [apply String.eqb_eq in E2 as ->; reflexivity |].
  destruct (String.eqb s "NOT_FOUND") eqn:E3;
    [apply String.eqb_eq in E3 as ->; reflexivity |].
  destruct (String.eqb s "SKIPPED") eqn:E4;
    [apply String.eqb_eq in E4 as ->; reflexivity |].
  destruct (String.eqb s "STANDARD_TEXT") eqn:E5;
    [apply String.eqb_eq in E5 as ->; reflexivity |].
  destruct (String.eqb s "ERROR") eqn:E6;
    [apply String.eqb_eq in E6 as ->; reflexivity |].
  reflexivity.
Qed.

Lemma six_counts_partition (extractions : list ExtractionResult.t) :
  List.length (with_status "FOUND" extractions)
  + List.length (with_status "PARTIAL" extractions)
  + List.length (with_status "NOT_FOUND" extractions)
  + List.length (with_status "SKIPPED" extractions)
  + List.length (with_status "STANDARD_TEXT" extractions)
  + List.length (with_status "ERROR" extractions)
  + List.length (filter other_status extractions)
  = List.length extractions.
Proof.
  induction extractions as [|e rest IH]; [reflexivity |].
  unfold with_status in *. rewrite !length_filter_cons.
  pose proof (one_status e) as Hone. cbv zeta in Hone.
  simpl List.length. lia.
Qed.

Lemma count_statuses_unhashable (before after : list ExtractionResult.t)
    (e : ExtractionResult.t) (t : string) (c : counts) :
  Forall (fun x => unhashable (ExtractionResult.status x) = None) before ->
  unhashable (ExtractionResult.status e) = Some t ->
  count_statuses (before ++ e :: after) c
  = Raise (Exn "TypeError" ("unhashable type: '" ++ t ++ "'")).
Proof.
  intros Hall He. revert c.
  induction Hall as [|x rest Hx _ IH]; intros c; simpl.
  - now rewrite He.
  - rewrite Hx. apply IH.
Qed.

Section Build.
Context `{Textstat}.
Variable Seconds : Type.
Variable round1 : Seconds -> Seconds.

(** X12: the summary counts every extraction once: [total_sections] is
    their number, each of the six counters is the number of extractions
    with that status, and the six counters fall short of the total by
    exactly the number of extractions whose status is none of the six
    kinds; [validation_issues] is the number of issues of all
    validations. *)
Theorem summary_counts (extractions : list ExtractionResult.t)
    (validations : list ValidationResult.t) (elapsed : Seconds)
    (summary : Summary.t Seconds) :
  _build_summary Seconds round1 extractions validations elapsed
  = Ok summary ->
  total_sections Seconds summary = List.length extractions
  /\ found Seconds summary = List.length (with_status "FOUND" extractions)
  /\ partial Seconds summary
     = List.length (with_status "PARTIAL" extractions)
  /\ not_found Seconds summary
     = List.length (with_status "NOT_FOUND" extractions)
  /\ skipped Seconds summary
     = List.length (with_status "SKIPPED" extractions)
  /\ standard_text Seconds summary
     = List.length (with_status "STANDARD_TEXT" extractions)
  /\ errors Seconds summary = List.length (with_status "ERROR" extractions)
  /\ found Seconds summary + partial Seconds summary
     + not_found Seconds summary + skipped Seconds summary
     + standard_text Seconds summary + errors Seconds summary
     + List.length (filter other_status extractions)
     = total_sections Seconds summary
  /\ validation_issues Seconds summary = total_issues validations.
Proof.
  unfold _build_summary.
  destruct (count_statuses extractions initial_counts) as [c|e] eqn:Ec;
    cbn [bind]; [| discriminate].
  intros [= <-]. cbn.
  pose proof (fun key => count_statuses_spec extractions _ c key Ec) as Hc.
  rewrite !Hc. cbn [count_of initial_counts String.eqb Ascii.eqb Bool.eqb].
  cbn. pose proof (six_counts_partition extractions).
  repeat split; lia.
Qed.

(** X13: the summary is built unless the status of some extraction
    cannot be a dictionary key - a list or a dict, as an agent record may
    hold one: then [_build_summary] raises [TypeError] for the first such
    status. *)
Theorem summary_needs_hashable_status
    (extractions : list ExtractionResult.t)
    (validations : list ValidationResult.t) (elapsed : Seconds) :
  (Forall (fun e => unhashable (ExtractionResult.status e) = None)
          extractions ->
   exists summary,
     _build_summary Seconds round1 extractions validations elapsed
     = Ok summary)
  /\ (forall before e after t,
         extractions = (before ++ e :: after)%list ->
         Forall (fun x => unhashable (ExtractionResult.status x) = None)
                before ->
         unhashable (ExtractionResult.status e) = Some t ->
         _build_summary Seconds round1 extractions validations elapsed
         = Raise (Exn "TypeError" ("unhashable type: '" ++ t ++ "'"))).
Proof.
  unfold _build_summary. split.
  - intros Hall.
    destruct (count_statuses_hashable extractions initial_counts Hall)
      as [c ->]. cbn [bind]. now eexists.
  - intros before e after t -> Hbefore He.
    now rewrite (count_statuses_unhashable before after e t _ Hbefore He).
Qed.

(** X14: the command line exits with status 1 exactly when some
    extraction has the status ERROR, and with 0 otherwise. *)
Theorem exit_status_flags_errors (extractions : list ExtractionResult.t)
    (validations : list ValidationResult.t) (elapsed : Seconds)
    (summary : Summary.t Seconds) :
  _build_summary Seconds round1 extractions validations elapsed
  = Ok summary ->
  (exit_status Seconds summary = 1%Z
   <-> exists e, In e extractions
                 /\ ExtractionResult.status e = PStr "ERROR")
  /\ (exit_status Seconds summary = 0%Z
      <-> forall e, In e extractions ->
                    ExtractionResult.status e <> PStr "ERROR").
Proof.
  unfold _build_summary.
  destruct (count_statuses extractions initial_counts) as [c|e] eqn:Ec;
    cbn [bind]; [| discriminate].
  intros [= <-]. unfold exit_status. cbn [errors].
  rewrite (count_statuses_spec extractions _ c "ERROR" Ec).
  change (count_of initial_counts "ERROR") with 0. rewrite Nat.add_0_l.
  clear Ec c.
  assert (forall e, Py.eq_str (ExtractionResult.status e) "ERROR" = true
                    <-> ExtractionResult.status e = PStr "ERROR") as Heq.
  { intros e. unfold Py.eq_str.
    destruct (ExtractionResult.status e); split; try discriminate.
    - intros E. apply String.eqb_eq in E. now subst.
    - intros [= ->]. reflexivity. }
  destruct (with_status "ERROR" extractions) as [|e0 l] eqn:Ew.
  - simpl. split; split; try discriminate; try reflexivity.
    + intros (e & Hin & He).
      assert (In e (with_status "ERROR" extractions)) as Hin'
          by (apply filter_In; split; [exact Hin | now apply Heq]).
      rewrite Ew in Hin'. contradiction.
    + intros _ e Hin He.
      assert (In e (with_status "ERROR" extractions)) as Hin'
          by (apply filter_In; split; [exact Hin | now apply Heq]).
      rewrite Ew in Hin'. contradiction.
  - assert (In e0 (with_status "ERROR" extractions)) as Hin0
        by (rewrite Ew; now left).
    apply filter_In in Hin0 as [Hin0 He0]. apply Heq in He0.
    simpl. split; split; try discriminate; try reflexivity.
    + intros _. now exists e0.
    + intros Hnone. now destruct (Hnone e0 Hin0).
Qed.

End Build.

Lemma summary_counts_witness :
  exists summary,
    SampleMore.summarise
      [SampleMore.result_with (PStr "FOUND") (PStr "yes");
       SampleMore.result_with (PStr "MAYBE") (PStr "yes");
       SampleMore.result_with (PStr "ERROR") (PStr EmptyString)] []
    = Ok summary
    /\ total_sections Z summary = 3
    /\ found Z summary = 1
    /\ errors Z summary = 1
    /\ found Z summary + partial Z summary + not_found Z summary
       + skipped Z summary + standard_text Z summary + errors Z summary
       + 1 = total_sections Z summary.
Proof.
  eexists. split; [reflexivity |].
  pose proof (@summary_counts Sample.no_textstat Z (fun z => z)
                [SampleMore.result_with (PStr "FOUND") (PStr "yes");
                 SampleMore.result_with (PStr "MAYBE") (PStr "yes");
                 SampleMore.result_with (PStr "ERROR") (PStr EmptyString)]
                [] 0%Z _ eq_refl)
    as (Ht & Hf & _ & _ & _ & _ & He & Hsum & _).
  repeat split; assumption.
Defined.

Lemma summary_needs_hashable_status_witness :
  (exists summary,
      SampleMore.summarise
        [SampleMore.result_with (PStr "FOUND") (PStr "yes")] []
      = Ok summary)
  /\ SampleMore.summarise
       [SampleMore.result_with (PStr "FOUND") (PStr "yes");
        SampleMore.result_with (PList [PStr "FOUND"]) (PStr "yes")] []
     = Raise (Exn "TypeError" "unhashable type: 'list'").
Proof.
  split.
  - apply (proj1 (@summary_needs_hashable_status Sample.no_textstat Z
                    (fun z => z)
                    [SampleMore.result_with (PStr "FOUND") (PStr "yes")]
                    [] 0%Z)).
    repeat constructor.
  - apply (proj2 (@summary_needs_hashable_status Sample.no_textstat Z
                    (fun z => z) _ [] 0%Z)
             [SampleMore.result_with (PStr "FOUND") (PStr "yes")]
             (SampleMore.result_with (PList [PStr "FOUND"]) (PStr "yes"))
             [] "list" eq_refl).
    + repeat constructor.
    + reflexivity.
Defined.

Lemma exit_status_flags_errors_witness :
  exists summary,
    SampleMore.summarise
      [SampleMore.result_with (PStr "FOUND") (PStr "yes");
       SampleMore.result_with (PStr "ERROR") (PStr EmptyString)] []
    = Ok summary
    /\ exit_status Z summary = 1%Z.
Proof.
  eexists. split; [reflexivity |].
  apply (proj1 (@exit_status_flags_errors Sample.no_textstat Z (fun z => z)
                  [SampleMore.result_with (PStr "FOUND") (PStr "yes");
                   SampleMore.result_with (PStr "ERROR") (PStr EmptyString)]
                  [] 0%Z _ eq_refl)).
  exists (SampleMore.result_with (PStr "ERROR") (PStr EmptyString)).
  split; [right; now left | reflexivity].
Defined.

End SummaryFacts.

(* ===================================================================== *)
(** * More on the router *)
(* ===================================================================== *)

Module RouterExtras.
Import PyStr PyStrFacts Extract.

Lemma evidence_of_chars `{PyLib} (s : string) : evidence_of (Py.chars s) = [].
Proof. induction s as [|c r IH]; [reflexivity | exact IH]. Qed.

Lemma first_label_range (tags : list string) (label : string) :
  TemplateVariable.first_label tags = Some label ->
  In label ["Easy"; "Moderate"; "Complex"].
Proof.
  induction tags as [|c rest IH]; [discriminate |]. simpl.
  destruct (contains "easy" (lower c)); [intros [= <-]; simpl; tauto |].
  destruct (contains "moderate" (lower c)); [intros [= <-]; simpl; tauto |].
  destruct (contains "complex mapping" (lower c));
    [intros [= <-]; simpl; tauto |].
  destruct (contains "potentially in protocol" (lower c));
    [intros [= <-]; simpl; tauto |].
  exact IH.
Qed.

Section WithEngine.
Context `{PyLib} `{Agent} `{Prompts}.
Variable self : ExtractionEngine.

(** X15: an answer that is longer than 20 characters once trimmed never
    ends in a parse failure: recovery yields a record for it (or raises),
    and a result that [_parse_response] returns for it has no error and
    keeps the raw answer. *)
Theorem long_answer_never_unparsed (raw : string) :
  20 < String.length (strip raw) ->
  parse_extraction_json raw <> Ok None
  /\ forall variable r,
       _parse_response raw variable = Ok r ->
       ExtractionResult.error r = None
       /\ ExtractionResult.raw_response r = raw.
Proof.
  intros Hlen.
  assert (parse_extraction_json raw <> Ok None) as Hsome.
  { unfold parse_extraction_json.
    destruct (String.eqb raw EmptyString) eqn:Eraw.
    { apply String.eqb_eq in Eraw. subst raw. simpl in Hlen. lia. }
    destruct (direct_parse (strip raw)) as [[d|]|e]; cbn [bind];
      try discriminate.
    destruct (python_literal (strip raw)) as [[obj|]|e]; cbn [bind];
      try discriminate.
    destruct (code_fence raw) as [[d|]|e]; cbn [bind]; try discriminate.
    destruct (balanced_braces raw) as [[d|]|e]; cbn [bind];
      try discriminate.
    unfold fallback. apply Nat.ltb_lt in Hlen. rewrite Hlen. discriminate. }
  split; [exact Hsome |].
  intros variable r. unfold _parse_response.
  destruct (parse_extraction_json raw) as [[data|]|e]; cbn [bind];
    [| contradiction | discriminate].
  destruct (Py.iterate (Py.get data "evidence" (PList []))) as [items|e];
    cbn [bind]; [| discriminate].
  intros [= <-]. now split.
Qed.

(** X16: the "evidence" of a recovered record decides the result of the
    agent path.  When it is null, a boolean or a number, the loop over it
    raises [TypeError], and the result is an ERROR that names the type
    and keeps neither the record nor the raw answer.  When it is a text,
    the result is built from the record, with no evidence. *)
Theorem evidence_shape (w : World) (protocol_text : string)
    (variable : TemplateVariable.t) (raw : string) (data : pydict)
    (v : pyval) :
  TemplateVariable.is_standard_text variable = false ->
  TemplateVariable.is_in_protocol variable
  || TemplateVariable.partially_in_protocol variable = true ->
  fst (rlm_completion w protocol_text (build_extraction_prompt variable)
                      (_iterations_for self variable))
  = Response raw ->
  parse_extraction_json raw = Ok (Some data) ->
  Py.lookup data "evidence" = Some v ->
  (match v with
   | PNone | PBool _ | PInt _ | PFloat _ => True
   | _ => False
   end ->
   exists r,
     fst (extract_variable self w protocol_text variable) = Extracted r
     /\ ExtractionResult.status r = PStr "ERROR"
     /\ ExtractionResult.error r
        = Some ("TypeError: '" ++ Py.type_name v
                               ++ "' object is not iterable")
     /\ ExtractionResult.answer r = PStr EmptyString
     /\ ExtractionResult.raw_response r = EmptyString)
  /\ (forall s, v = PStr s ->
      exists r,
        fst (extract_variable self w protocol_text variable) = Extracted r
        /\ ExtractionResult.evidence r = []
        /\ ExtractionResult.status r = Py.get data "status" (PStr "ERROR")
        /\ ExtractionResult.answer r
           = Py.get data "answer" (PStr EmptyString)
        /\ ExtractionResult.error r = None
        /\ ExtractionResult.raw_response r = raw).
Proof.
  intros Hstd Havail Hcall Hparse Hev.
  rewrite (RouterFacts.agent_path self w _ _ Hstd Havail).
  unfold _run_rlm_extraction.
  destruct (rlm_completion w protocol_text (build_extraction_prompt variable)
                           (_iterations_for self variable))
    as [outcome w'].
  cbn [fst] in Hcall. subst outcome.
  unfold _parse_response. rewrite Hparse. cbn [bind].
  assert (Py.get data "evidence" (PList []) = v) as Hget
      by (unfold Py.get; now rewrite Hev).
  rewrite Hget. split.
  - intros Hscalar.
    destruct v; try contradiction; cbn; eexists;
      (split; [reflexivity |]); repeat split.
  - intros s ->. cbn [Py.iterate bind]. rewrite evidence_of_chars.
    eexists. split; [reflexivity |]. repeat split.
Qed.

(** X17: the iteration budget of a call is the engine's limit capped by
    10, by 15, by nothing or by 8; the default of 12 that the source
    holds for an unknown label is never used.  For a variable that the
    registry loads from a row and that the router hands to the agent, the
    cap of 8 (the label "Not in protocol") is never used either. *)
Theorem iteration_budget :
  (forall variable,
      In (_iterations_for self variable)
         [Z.min 10 (max_iterations self); Z.min 15 (max_iterations self);
          max_iterations self; Z.min 8 (max_iterations self)])
  /\ (forall row variable,
         Registry.variable_of_row row = Ok variable ->
         TemplateVariable.is_standard_text variable = false ->
         TemplateVariable.is_in_protocol variable
         || TemplateVariable.partially_in_protocol variable = true ->
         In (_iterations_for self variable)
            [Z.min 10 (max_iterations self);
             Z.min 15 (max_iterations self); max_iterations self]).
Proof.
  split.
  - intros variable. unfold _iterations_for.
    unfold TemplateVariable.get_complexity_label.
    destruct (TemplateVariable.first_label
                (TemplateVariable.complexity variable)) as [label|] eqn:El.
    + apply first_label_range in El. simpl in El.
      destruct El as [<- | [<- | [<- | []]]]; cbn [String.eqb Ascii.eqb
        Bool.eqb]; rewrite ?Z.min_id; simpl; tauto.
    + destruct (TemplateVariable.is_in_protocol variable); cbn; tauto.
  - intros row variable Hrow Hstd Havail.
    assert (TemplateVariable.is_in_protocol variable = true) as Hin.
    { destruct (RegistryExtras.variable_of_row_fields row variable Hrow)
        as (_ & _ & _ & Hfl).
      pose proof (RegistryExtras.classify_availability_range
                    (TemplateVariable.complexity variable)) as Hrange.
      rewrite <- Hfl in Hrange. unfold Rows.flags in Hrange.
      simpl in Hrange.
      destruct Hrange as [E | [E | [E | [E | []]]]];
        injection E as E1 E2 E3; rewrite <- ?E1, <- ?E2 in Havail;
        try discriminate; now rewrite <- E1. }
    unfold _iterations_for, TemplateVariable.get_complexity_label.
    rewrite Hin.
    destruct (TemplateVariable.first_label
                (TemplateVariable.complexity variable)) as [label|] eqn:El.
    + apply first_label_range in El. simpl in El.
      destruct El as [<- | [<- | [<- | []]]]; cbn [String.eqb Ascii.eqb
        Bool.eqb]; rewrite ?Z.min_id; simpl; tauto.
    + cbn. tauto.
Qed.

End WithEngine.

Lemma long_answer_never_unparsed_witness :
  Sample.recover "The sponsor of the study is Acme." <> Ok None.
Proof.
  apply (@long_answer_never_unparsed Sample.sample_lib
           "The sponsor of the study is Acme.").
  vm_compute. lia.
Defined.

Lemma evidence_shape_witness :
  (exists r,
      fst (@extract_variable SampleMore.strict_lib Sample.scripted_agent
             Sample.sample_prompts Sample.engine
             [Response SampleMore.null_evidence_text] "protocol text"
             Sample.easy_item)
      = Extracted r
      /\ ExtractionResult.status r = PStr "ERROR"
      /\ ExtractionResult.error r
         = Some "TypeError: 'NoneType' object is not iterable"
      /\ ExtractionResult.answer r = PStr EmptyString
      /\ ExtractionResult.raw_response r = EmptyString)
  /\ (exists r,
         fst (@extract_variable SampleMore.strict_lib Sample.scripted_agent
                Sample.sample_prompts Sample.engine
                [Response SampleMore.text_evidence_text] "protocol text"
                Sample.easy_item)
         = Extracted r
         /\ ExtractionResult.evidence r = []
         /\ ExtractionResult.status r = PStr "FOUND").
Proof.
  split.
  - exact (proj1 (@evidence_shape SampleMore.strict_lib
                    Sample.scripted_agent Sample.sample_prompts
                    Sample.engine [Response SampleMore.null_evidence_text]
                    "protocol text" Sample.easy_item
                    SampleMore.null_evidence_text
                    [(PStr "status", PStr "NOT_FOUND");
                     (PStr "evidence", PNone)]
                    PNone eq_refl eq_refl eq_refl eq_refl eq_refl) I).
  - destruct (proj2 (@evidence_shape SampleMore.strict_lib
                       Sample.scripted_agent Sample.sample_prompts
                       Sample.engine [Response SampleMore.text_evidence_text]
                       "protocol text" Sample.easy_item
                       SampleMore.text_evidence_text
                       [(PStr "status", PStr "FOUND");
                        (PStr "evidence", PStr "page 3")]
                       (PStr "page 3") eq_refl eq_refl eq_refl eq_refl
                       eq_refl) "page 3" eq_refl)
      as (r & Hr & Hev & Hst & _).
    exists r. split; [exact Hr |]. split; [exact Hev | exact Hst].
Defined.

Lemma iteration_budget_witness :
  exists variable,
    @Registry.variable_of_row Sample.sample_lib Sample.included_row
    = Ok variable
    /\ In (_iterations_for Sample.engine variable) [10%Z; 15%Z; 20%Z].
Proof.
  eexists. split; [reflexivity |].
  apply (proj2 (@iteration_budget Sample.sample_lib Sample.engine)
           Sample.included_row _ eq_refl eq_refl eq_refl).
Defined.

End RouterExtras.

(* ===================================================================== *)
(** * More on the run *)
(* ===================================================================== *)

Module PipelineExtras.
Import PyStr Extract Pipeline.

Section WithEngine.
Context `{PyLib} `{Agent} `{Prompts} `{Textstat}.
Variable engine : ExtractionEngine.

(** Only the agent path can be interrupted. *)
Lemma interrupted_on_agent_path (w w' : World) (protocol_text : string)
    (variable : TemplateVariable.t) :
  extract_variable engine w protocol_text variable = (Interrupted, w') ->
  TemplateVariable.is_standard_text variable = false
  /\ TemplateVariable.is_in_protocol variable
     || TemplateVariable.partially_in_protocol variable = true.
Proof.
  unfold extract_variable.
  destruct (TemplateVariable.is_standard_text variable); [discriminate |].
  rewrite <- negb_orb.
  destruct (TemplateVariable.is_in_protocol variable
            || TemplateVariable.partially_in_protocol variable);
    [now split | discriminate].
Qed.

Lemma extract_all_interrupted (w : World) (protocol_text : string)
    (variables : list TemplateVariable.t)
    (extractions : list ExtractionResult.t) :
  uninterrupted engine w protocol_text variables = false ->
  exists k var results,
    nth_error variables k = Some var
    /\ TemplateVariable.is_standard_text var = false
    /\ TemplateVariable.is_in_protocol var
       || TemplateVariable.partially_in_protocol var = true
    /\ fst (extract_all engine w protocol_text variables extractions)
       = (extractions ++ results)%list
    /\ Forall2 routed (firstn k variables) results
    /\ extract_all engine w protocol_text variables extractions
       = extract_all engine w protocol_text (firstn (S k) variables)
           extractions.
Proof.
  revert w extractions.
  induction variables as [|var rest IH]; intros w extractions Hun;
    [discriminate |].
  simpl in Hun.
  destruct (extract_variable engine w protocol_text var) as [[r|] w'] eqn:Er.
  - destruct (IH w' (extractions ++ [r])%list Hun)
      as (k & var' & results & Hnth & Hstd & Havail & Hall & Hrouted & Hcut).
    exists (S k), var', (r :: results). repeat split; try assumption.
    + simpl. rewrite Er. rewrite Hall, <- app_assoc. reflexivity.
    + simpl. constructor; [| exact Hrouted].
      exact (PipelineFacts.extract_variable_routed _ _ _ _ _ _ Er).
    + change (firstn (S (S k)) (var :: rest))
        with (var :: firstn (S k) rest).
      simpl. rewrite Er. exact Hcut.
  - destruct (interrupted_on_agent_path _ _ _ _ Er) as [Hstd Havail].
    exists 0, var, []. repeat split; try assumption.
    + simpl. rewrite Er. now rewrite app_nil_r.
    + constructor.
    + simpl. now rewrite Er.
Qed.

(** X18: a run in which an agent call is interrupted keeps the results
    gathered before it and nothing else: when the call for the item at
    position [k] is the interrupted one - an item of the agent path - the
    run holds one result for each of the [k] items before it, in order,
    none for the item itself, and is the same as if the items after it
    were not in the list. *)
Theorem interrupted_run_keeps_prefix (w : World) (protocol_text : string)
    (variables : list TemplateVariable.t) :
  uninterrupted engine w protocol_text variables = false ->
  exists k var,
    nth_error variables k = Some var
    /\ TemplateVariable.is_standard_text var = false
    /\ TemplateVariable.is_in_protocol var
       || TemplateVariable.partially_in_protocol var = true
    /\ List.length (fst (extract_all engine w protocol_text variables []))
       = k
    /\ Forall2 routed (firstn k variables)
               (fst (extract_all engine w protocol_text variables []))
    /\ extract_all engine w protocol_text variables []
       = extract_all engine w protocol_text (firstn (S k) variables) [].
Proof.
  intros Hun.
  destruct (extract_all_interrupted w protocol_text variables [] Hun)
    as (k & var & results & Hnth & Hstd & Havail & Hall & Hrouted & Hcut).
  simpl app in Hall. exists k, var. rewrite Hall.
  repeat split; try assumption.
  rewrite <- (Forall2_length Hrouted), length_firstn.
  apply Nat.min_l. apply Nat.lt_le_incl. apply nth_error_Some.
  now rewrite Hnth.
Qed.

Lemma validate_loop_skipped (extractions : list ExtractionResult.t)
    (protocol_text : string) (results : list ValidationResult.t) :
  Forall (fun e => Py.in_strs (ExtractionResult.status e)
                              Validate.skipped_statuses = true)
         extractions ->
  Validate.validate_loop extractions protocol_text results
  = Ok (results
          ++ map (fun e => ValidationResult.make
                             (ExtractionResult.section_id e) [] None [])
                 extractions)%list.
Proof.
  intros Hall. revert results.
  induction Hall as [|e rest He _ IH]; intros results; simpl.
  - now rewrite app_nil_r.
  - unfold Validate.validate_one. rewrite He. cbn [bind].
    rewrite IH, <- app_assoc. reflexivity.
Qed.

Lemma extract_all_short_circuit (w : World) (protocol_text : string)
    (variables : list TemplateVariable.t)
    (extractions : list ExtractionResult.t) :
  forallb needs_no_agent variables = true ->
  extract_all engine w protocol_text variables extractions
  = ((extractions ++ map short_circuit variables)%list, w).
Proof.
  revert extractions.
  induction variables as [|var rest IH]; intros extractions Hall; simpl.
  - now rewrite app_nil_r.
  - simpl in Hall. apply andb_true_iff in Hall as [Hvar Hrest].
    unfold extract_variable, short_circuit. unfold needs_no_agent in Hvar.
    destruct (TemplateVariable.is_standard_text var).
    + rewrite (IH _ Hrest), <- app_assoc. reflexivity.
    + simpl in Hvar. rewrite Hvar.
      rewrite (IH _ Hrest), <- app_assoc. reflexivity.
Qed.

(** X19: a run over work items that are all standard text or not in the
    protocol makes no call of the agent: whatever the agent is, its state
    is left as it was and no call of it is interrupted, there being none;
    every item gets its STANDARD_TEXT or SKIPPED result, in order, and each
    validation is empty - no quote, no grade, no issue - under the item's
    identifier. *)
Theorem run_without_agent (w : World) (protocol_text : string)
    (variables : list TemplateVariable.t) :
  forallb needs_no_agent variables = true ->
  uninterrupted engine w protocol_text variables = true
  /\ run_extract_validate engine w protocol_text variables
     = (Ok (map short_circuit variables,
            map (fun var =>
                   ValidationResult.make
                     (PStr (TemplateVariable.section_id var)) [] None [])
                variables),
        w).
Proof.
  intros Hall. split.
  - revert w. induction variables as [|var rest IH]; intros w;
      [reflexivity |].
    simpl in Hall |- *. apply andb_true_iff in Hall as [Hvar Hrest].
    unfold extract_variable. unfold needs_no_agent in Hvar.
    destruct (TemplateVariable.is_standard_text var); [now apply IH |].
    simpl in Hvar. rewrite Hvar. now apply IH.
  - unfold run_extract_validate.
    rewrite (extract_all_short_circuit w protocol_text variables [] Hall).
    simpl app. unfold Validate.validate_extractions.
    rewrite validate_loop_skipped.
    + cbn [bind app]. rewrite map_map. do 3 f_equal.
      apply map_ext. intros var. unfold short_circuit.
      now destruct (TemplateVariable.is_standard_text var).
    + apply Forall_forall. intros e Hin. apply in_map_iff in Hin
        as (var & <- & _). unfold short_circuit.
      now destruct (TemplateVariable.is_standard_text var).
Qed.

End WithEngine.

Lemma interrupted_run_keeps_prefix_witness :
  Sample.run_uninterrupted [Response Sample.found_text; AgentInterrupted]
    [Sample.easy_item; Sample.standard_item; Sample.easy_item;
     Sample.absent_item]
  = false
  /\ exists k var,
       nth_error [Sample.easy_item; Sample.standard_item; Sample.easy_item;
                  Sample.absent_item] k = Some var
       /\ TemplateVariable.is_standard_text var = false
       /\ List.length
            (fst (@extract_all Sample.sample_lib Sample.scripted_agent
                    Sample.sample_prompts Sample.engine
                    [Response Sample.found_text; AgentInterrupted]
                    "protocol text"
                    [Sample.easy_item; Sample.standard_item;
                     Sample.easy_item; Sample.absent_item] []))
          = k.
Proof.
  split; [reflexivity |].
  destruct (@interrupted_run_keeps_prefix Sample.sample_lib
              Sample.scripted_agent Sample.sample_prompts Sample.engine
              [Response Sample.found_text; AgentInterrupted] "protocol text"
              [Sample.easy_item; Sample.standard_item; Sample.easy_item;
               Sample.absent_item] eq_refl)
    as (k & var & Hnth & Hstd & _ & Hlen & _).
  exists k, var. split; [exact Hnth |]. split; [exact Hstd | exact Hlen].
Defined.

Lemma run_without_agent_witness :
  Sample.run_uninterrupted [AgentInterrupted]
    [Sample.standard_item; Sample.absent_item] = true
  /\ Sample.run [AgentInterrupted] [Sample.standard_item; Sample.absent_item]
     = (Ok ([short_circuit Sample.standard_item;
             short_circuit Sample.absent_item],
            [ValidationResult.make (PStr "2.1") [] None [];
             ValidationResult.make (PStr "3.1") [] None []]),
        [AgentInterrupted]).
Proof.
  exact (@run_without_agent Sample.sample_lib Sample.scripted_agent
           Sample.sample_prompts Sample.no_textstat Sample.engine
           [AgentInterrupted] "protocol text"
           [Sample.standard_item; Sample.absent_item] eq_refl).
Defined.

End PipelineExtras.

(* ===================================================================== *)
(** * Loading the protocol *)
(* ===================================================================== *)

Module IngestFacts.
Import PyStr PyStrFacts Ingest.

Lemma numbers_from_app (first : Z) (n : nat) :
  numbers_from first (n + 1)
  = (numbers_from first n ++ [(first + Z.of_nat n)%Z])%list.
Proof.
  revert first. induction n as [|n IH]; intros first.
  - simpl. now rewrite Z.add_0_r.
  - cbn [numbers_from Nat.add]. rewrite IH. simpl app. do 3 f_equal. lia.
Qed.

Lemma numbers_from_range (first : Z) (n : nat) (z : Z) :
  In z (numbers_from first n) -> (first <= z < first + Z.of_nat n)%Z.
Proof.
  revert first. induction n as [|n IH]; intros first; [contradiction |].
  intros [<- | Hin]; [lia |]. apply IH in Hin. lia.
Qed.

Lemma total_length_app (a b : list string) :
  total_length (a ++ b) = total_length a + total_length b.
Proof.
  induction a as [|x a IH]; [reflexivity |]. simpl. rewrite IH. lia.
Qed.

Lemma strip_empty_iff (s : string) :
  String.eqb (strip s) EmptyString = false <-> strip s <> EmptyString.
Proof. apply String.eqb_neq. Qed.

Section Loaders.
Context `{PyLib}.

(** What the loop of [load_pdf] adds: the pages with text, each under its
    position in the file, in order. *)
Lemma pdf_loop_spec (reader_pages : list (option string)) (i : Z)
    (pages : list ProtocolPage.t) (parts : list string) :
  exists new,
    pdf_loop reader_pages i pages parts
    = ((pages ++ new)%list,
       (parts ++ map IndexedProtocol.page_block new)%list)
    /\ Forall (fun p =>
                 (i < ProtocolPage.page_number p
                  <= i + Z.of_nat (List.length reader_pages))%Z
                 /\ nth_error reader_pages
                      (Z.to_nat (ProtocolPage.page_number p - i - 1))
                    = Some (Some (ProtocolPage.text p))
                 /\ strip (ProtocolPage.text p) <> EmptyString) new
    /\ StronglySorted Z.lt (map ProtocolPage.page_number new)
    /\ (forall k t,
           nth_error reader_pages k = Some (Some t) ->
           strip t <> EmptyString ->
           In (ProtocolPage.make (i + Z.of_nat k + 1) t) new).
Proof.
  revert i pages parts.
  induction reader_pages as [|extracted rest IH]; intros i pages parts.
  - exists []. simpl. rewrite !app_nil_r. repeat split; try constructor.
    intros [|k] t; discriminate.
  - cbn [pdf_loop].
    set (text := match extracted with Some t => t | None => EmptyString end).
    assert (forall p,
               (i + 1 < ProtocolPage.page_number p
                <= i + 1 + Z.of_nat (List.length rest))%Z
               /\ nth_error rest
                    (Z.to_nat (ProtocolPage.page_number p - (i + 1) - 1))
                  = Some (Some (ProtocolPage.text p))
               /\ strip (ProtocolPage.text p) <> EmptyString ->
               (i < ProtocolPage.page_number p
                <= i + Z.of_nat (List.length (extracted :: rest)))%Z
               /\ nth_error (extracted :: rest)
                    (Z.to_nat (ProtocolPage.page_number p - i - 1))
                  = Some (Some (ProtocolPage.text p))
               /\ strip (ProtocolPage.text p) <> EmptyString) as Hshift.
    { intros p (Hrange & Hnth & Htext). cbn [List.length].
      split; [lia |]. split; [| exact Htext].
      replace (Z.to_nat (ProtocolPage.page_number p - i - 1))
        with (S (Z.to_nat (ProtocolPage.page_number p - (i + 1) - 1)))
        by lia.
      exact Hnth. }
    destruct (strip text) as [|a s] eqn:Es.
    + destruct (IH (i + 1)%Z pages parts)
        as (new & Heq & Hall & Hsorted & Hcomplete).
      exists new. split; [exact Heq |]. split; [| split].
      * eapply Forall_impl; [exact Hshift | exact Hall].
      * exact Hsorted.
      * intros [|k] t Hnth Ht.
        -- simpl in Hnth. injection Hnth as ->. subst text.
           now rewrite Es in Ht.
        -- simpl in Hnth. specialize (Hcomplete k t Hnth Ht).
           replace (i + Z.of_nat (S k) + 1)%Z
             with (i + 1 + Z.of_nat k + 1)%Z by lia.
           exact Hcomplete.
    + destruct (IH (i + 1)%Z (pages ++ [ProtocolPage.make (i + 1) text])%list
                  (parts
                     ++ [IndexedProtocol.page_block
                           (ProtocolPage.make (i + 1) text)])%list)
        as (new & Heq & Hall & Hsorted & Hcomplete).
      exists (ProtocolPage.make (i + 1) text :: new).
      split; [| split; [| split]].
      * transitivity
          (pdf_loop rest (i + 1)
             (pages ++ [ProtocolPage.make (i + 1) text])%list
             (parts
                ++ [IndexedProtocol.page_block
                      (ProtocolPage.make (i + 1) text)])%list);
          [reflexivity |].
        rewrite Heq, <- !app_assoc. reflexivity.
      * constructor.
        -- cbn [ProtocolPage.page_number ProtocolPage.text List.length].
           split; [lia |]. split; [| now rewrite Es].
           replace (Z.to_nat (i + 1 - i - 1)) with 0 by lia. simpl.
           subst text. destruct extracted; [reflexivity | discriminate].
        -- eapply Forall_impl; [exact Hshift | exact Hall].
      * simpl. constructor; [exact Hsorted |].
        apply Forall_map. eapply Forall_impl; [| exact Hall].
        intros p (Hrange & _). simpl. lia.
      * intros [|k] t Hnth Ht.
        -- simpl in Hnth. injection Hnth as ->. subst text. left.
           f_equal. lia.
        -- right. simpl in Hnth. specialize (Hcomplete k t Hnth Ht).
           replace (i + Z.of_nat (S k) + 1)%Z
             with (i + 1 + Z.of_nat k + 1)%Z by lia.
           exact Hcomplete.
Qed.

Lemma flush_page_nonempty (st : docx_state) :
  current_parts st <> [] ->
  flush_page st
  = {| current_page := current_page st + 1;
       current_parts := [];
       current_length := 0;
       pages := (pages st
                   ++ [ProtocolPage.make (current_page st)
                         (join nl (current_parts st))])%list |}.
Proof. unfold flush_page. now destruct (current_parts st). Qed.

Lemma total_length_removelast (block : list (string * bool)) :
  total_length (map fst (removelast block)) <= total_length (map fst block).
Proof.
  induction block as [|p [|q block] IH]; [simpl; lia | simpl; lia |].
  change (removelast (p :: q :: block)) with (p :: removelast (q :: block)).
  cbn [map total_length fold_right] in *. unfold total_length in IH. lia.
Qed.

(** Flushing the page being filled, when it holds the paragraphs [cur]. *)
Lemma close_block (st : docx_state) (blocks : list (list (string * bool)))
    (cur : list (string * bool)) :
  cur <> [] ->
  current_parts st = map fst cur ->
  Forall (fun para => snd para = false) (tl cur) ->
  total_length (map fst (removelast cur)) < PAGE_CHAR_LIMIT ->
  map ProtocolPage.text (pages st) = map page_text_of blocks ->
  map ProtocolPage.page_number (pages st)
  = numbers_from 1 (List.length blocks) ->
  current_page st = (1 + Z.of_nat (List.length blocks))%Z ->
  Forall page_block_ok blocks ->
  docx_invariant (flush_page st) (blocks ++ [cur]) [].
Proof.
  intros Hcur Hparts Hbreaks Hlen Htexts Hnumbers Hpage Hblocks.
  rewrite flush_page_nonempty
    by (rewrite Hparts; destruct cur; [contradiction | discriminate]).
  unfold docx_invariant.
  cbn [current_page current_parts current_length pages].
  split; [reflexivity |]. split; [reflexivity |].
  split; [unfold PAGE_CHAR_LIMIT; apply Nat.lt_0_succ |].
  split; [constructor |].
  rewrite !map_app, length_app, numbers_from_app, Htexts, Hnumbers.
  cbn [map List.length ProtocolPage.text ProtocolPage.page_number].
  split; [unfold page_text_of; now rewrite Hparts |].
  split; [now rewrite Hpage |]. split; [lia |].
  apply Forall_app. split; [exact Hblocks |].
  constructor; [| constructor]. now repeat split.
Qed.

(** One turn of the loop of [load_docx] on a paragraph with text. *)
Lemma docx_step_invariant (st : docx_state)
    (blocks : list (list (string * bool))) (cur : list (string * bool))
    (para : string * bool) :
  docx_invariant st blocks cur ->
  strip (fst para) <> EmptyString ->
  exists blocks' cur',
    docx_invariant (docx_step st para) blocks' cur'
    /\ (concat blocks' ++ cur')%list
       = (concat blocks ++ cur ++ [(strip (fst para), snd para)])%list.
Proof.
  intros Hinv Htext.
  (* after the test for a page break *)
  assert (exists blocks1 cur1,
             docx_invariant
               (if snd para
                   && match current_parts st with [] => false | _ => true end
                then flush_page st else st) blocks1 cur1
             /\ (concat blocks1 ++ cur1)%list = (concat blocks ++ cur)%list
             /\ (cur1 = [] \/ snd para = false))
    as (blocks1 & cur1 & Hinv1 & Hsame & Hhead).
  { destruct Hinv as (Hparts & Hlen & Hlim & Hbreaks & Htexts & Hnumbers
                      & Hpage & Hblocks).
    destruct cur as [|p cur].
    - exists blocks, []. rewrite Hparts. simpl. rewrite andb_false_r.
      split; [| split; [reflexivity | now left]].
      now repeat split.
    - destruct (snd para) eqn:Hbreak.
      + exists (blocks ++ [p :: cur])%list, [].
        rewrite Hparts. simpl andb. cbv iota.
        split; [| split; [| now left]].
        * apply close_block; try assumption; [discriminate |].
          pose proof (total_length_removelast (p :: cur)). lia.
        * rewrite concat_app. simpl. now rewrite !app_nil_r.
      + exists blocks, (p :: cur). simpl andb. cbv iota.
        split; [| split; [reflexivity | now right]].
        now repeat split. }
  revert Hinv1. unfold docx_step.
  destruct (strip (fst para)) as [|a s] eqn:Es; [contradiction |].
  set (text := String a s) in *.
  set (st1 := if snd para
                 && match current_parts st with [] => false | _ => true end
              then flush_page st else st).
  intros (Hparts & Hlen & Hlim & Hbreaks & Htexts & Hnumbers & Hpage
          & Hblocks).
  set (st2 := {| current_page := current_page st1;
                 current_parts := (current_parts st1 ++ [text])%list;
                 current_length := current_length st1 + String.length text;
                 pages := pages st1 |}).
  set (cur2 := (cur1 ++ [(text, snd para)])%list).
  assert (current_parts st2 = map fst cur2) as Hparts2
      by (unfold st2, cur2; cbn [current_parts];
          now rewrite Hparts, map_app).
  assert (Forall (fun q => snd q = false) (tl cur2)) as Hbreaks2.
  { unfold cur2. destruct cur1 as [|p c]; [constructor |].
    destruct Hhead as [E | Hno]; [discriminate |]. simpl.
    apply Forall_app. split; [exact Hbreaks |].
    constructor; [exact Hno | constructor]. }
  assert (removelast cur2 = cur1) as Hlast
      by (unfold cur2; apply removelast_last).
  assert (current_length st2 = total_length (map fst cur2)) as Hlen2.
  { unfold st2, cur2. cbn [current_length].
    rewrite map_app, total_length_app, Hlen. simpl. lia. }
  destruct (PAGE_CHAR_LIMIT <=? current_length st2) eqn:Elim.
  - exists (blocks1 ++ [cur2])%list, []. split.
    + apply close_block; try assumption.
      * unfold cur2. now destruct cur1.
      * rewrite Hlast, <- Hlen. exact Hlim.
    + rewrite concat_app. simpl. rewrite !app_nil_r.
      unfold cur2. now rewrite app_assoc, Hsame, <- app_assoc.
  - exists blocks1, cur2. split.
    + apply Nat.leb_gt in Elim. now repeat split.
    + unfold cur2. now rewrite app_assoc, Hsame, <- app_assoc.
Qed.

Lemma docx_step_blank (st : docx_state) (para : string * bool) :
  strip (fst para) = EmptyString -> docx_step st para = st.
Proof. intros Hblank. unfold docx_step. now rewrite Hblank. Qed.

Lemma read_paragraphs_cons (para : string * bool)
    (rest : list (string * bool)) :
  read_paragraphs (para :: rest)
  = match strip (fst para) with
    | EmptyString => read_paragraphs rest
    | _ => (strip (fst para), snd para) :: read_paragraphs rest
    end.
Proof.
  unfold read_paragraphs. simpl. now destruct (strip (fst para)).
Qed.

(** The loop of [load_docx]: the pages made and the page being filled
    hold the paragraphs read, in order. *)
Lemma docx_loop_invariant (paragraphs : list (string * bool))
    (st : docx_state) (blocks : list (list (string * bool)))
    (cur : list (string * bool)) :
  docx_invariant st blocks cur ->
  exists blocks' cur',
    docx_invariant (docx_loop paragraphs st) blocks' cur'
    /\ (concat blocks' ++ cur')%list
       = (concat blocks ++ cur ++ read_paragraphs paragraphs)%list.
Proof.
  revert st blocks cur.
  induction paragraphs as [|para rest IH]; intros st blocks cur Hinv.
  - exists blocks, cur. split; [exact Hinv |].
    unfold read_paragraphs. simpl. now rewrite app_nil_r.
  - unfold docx_loop. cbn [fold_left]. fold (docx_loop rest (docx_step st para)).
    rewrite read_paragraphs_cons.
    destruct (strip (fst para)) as [|a s] eqn:Es.
    + rewrite (docx_step_blank st para Es). now apply IH.
    + destruct (docx_step_invariant st blocks cur para Hinv)
        as (blocks1 & cur1 & Hinv1 & Hsame1); [now rewrite Es |].
      destruct (IH _ _ _ Hinv1) as (blocks2 & cur2 & Hinv2 & Hsame2).
      exists blocks2, cur2. split; [exact Hinv2 |].
      rewrite Hsame2, app_assoc, Hsame1, Es, <- !app_assoc. reflexivity.
Qed.

(** What [load_docx] has when the loop and the last flush are over. *)
Lemma docx_pages_spec (paragraphs : list (string * bool)) :
  exists blocks,
    docx_invariant (flush_page (docx_loop paragraphs docx_start)) blocks []
    /\ concat blocks = read_paragraphs paragraphs.
Proof.
  assert (docx_invariant docx_start [] []) as Hstart.
  { unfold docx_invariant, docx_start. simpl.
    repeat split; try constructor. unfold PAGE_CHAR_LIMIT.
    apply Nat.lt_0_succ. }
  destruct (docx_loop_invariant paragraphs _ _ _ Hstart)
    as (blocks & cur & Hinv & Hsame).
  simpl in Hsame. destruct cur as [|p cur].
  - exists blocks. rewrite app_nil_r in Hsame. split; [| exact Hsame].
    destruct Hinv as (Hparts & Hrest). unfold flush_page. rewrite Hparts.
    simpl. now split.
  - exists (blocks ++ [p :: cur])%list. split.
    + destruct Hinv as (Hparts & Hlen & Hlim & Hbreaks & Htexts & Hnumbers
                        & Hpage & Hblocks).
      apply close_block; try assumption; [discriminate |].
      pose proof (total_length_removelast (p :: cur)). lia.
    + rewrite concat_app. simpl. now rewrite app_nil_r.
Qed.

Lemma filter_all_true {A : Type} (f : A -> bool) (l : list A) :
  Forall (fun x => f x = true) l -> filter f l = l.
Proof.
  induction 1 as [|x l Hx _ IH]; [reflexivity |]. simpl.
  now rewrite Hx, IH.
Qed.

Lemma load_pdf_cases (filepath : string)
    (reader_pages : list (option string)) :
  exists new,
    pdf_loop reader_pages 0 [] []
    = (new, map IndexedProtocol.page_block new)
    /\ load_pdf filepath (Some reader_pages)
       = match new with
         | [] => Raise (Exn "ValueError"
                            ("No text could be extracted from PDF: "
                               ++ filepath))
         | _ => Ok (IndexedProtocol.make new
                      (join nl (map IndexedProtocol.page_block new))
                      (Z.of_nat (List.length reader_pages)) filepath)
         end.
Proof.
  destruct (pdf_loop_spec reader_pages 0 [] []) as (new & Heq & _).
  simpl in Heq. exists new. split; [exact Heq |].
  unfold load_pdf. now rewrite Heq.
Qed.

Lemma load_docx_cases (filepath : string)
    (paragraphs : list (string * bool)) :
  load_docx filepath (Some paragraphs)
  = let pages := pages (flush_page (docx_loop paragraphs docx_start)) in
    match pages with
    | [] => Raise (Exn "ValueError"
                       ("No text could be extracted from DOCX: "
                          ++ filepath))
    | _ => Ok (IndexedProtocol.make pages
                 (join nl (map IndexedProtocol.page_block pages))
                 (Z.of_nat (List.length pages)) filepath)
    end.
Proof. reflexivity. Qed.

Lemma concat_nonempty {A : Type} (blocks : list (list A)) :
  Forall (fun b => b <> []) blocks -> concat blocks = [] -> blocks = [].
Proof.
  intros Hall. destruct Hall as [|b blocks Hb _]; [reflexivity |].
  simpl. now destruct b.
Qed.

Lemma read_paragraphs_empty (paragraphs : list (string * bool)) :
  read_paragraphs paragraphs = []
  <-> forall para, In para paragraphs -> strip (fst para) = EmptyString.
Proof.
  induction paragraphs as [|para rest IH].
  - split; [intros _ para [] | reflexivity].
  - rewrite read_paragraphs_cons.
    destruct (strip (fst para)) as [|a s] eqn:Es.
    + rewrite IH. split.
      * intros Hrest q [<- | Hin]; [exact Es | now apply Hrest].
      * intros Hall q Hin. apply Hall. now right.
    + split; [discriminate |]. intros Hall.
      specialize (Hall para (or_introl eq_refl)). now rewrite Es in Hall.
Qed.

(** X20: the pages of a loaded PDF are the pages of the file that hold
    text other than white space, each with its text as extracted and its
    1-based position in the file as page number - so the numbers increase
    and stay within [total_pages], which counts the blank pages too. *)
Theorem pdf_pages_keep_positions (filepath : string)
    (reader_pages : list (option string)) (protocol : IndexedProtocol.t) :
  load_pdf filepath (Some reader_pages) = Ok protocol ->
  IndexedProtocol.total_pages protocol
  = Z.of_nat (List.length reader_pages)
  /\ Forall (fun p =>
               (1 <= ProtocolPage.page_number p
                <= IndexedProtocol.total_pages protocol)%Z
               /\ nth_error reader_pages
                    (Z.to_nat (ProtocolPage.page_number p - 1))
                  = Some (Some (ProtocolPage.text p))
               /\ strip (ProtocolPage.text p) <> EmptyString)
            (IndexedProtocol.pages protocol)
  /\ StronglySorted Z.lt
       (map ProtocolPage.page_number (IndexedProtocol.pages protocol))
  /\ (forall k t,
         nth_error reader_pages k = Some (Some t) ->
         strip t <> EmptyString ->
         In (ProtocolPage.make (Z.of_nat k + 1) t)
            (IndexedProtocol.pages protocol)).
Proof.
  unfold load_pdf.
  destruct (pdf_loop_spec reader_pages 0 [] [])
    as (new & Heq & Hall & Hsorted & Hcomplete).
  simpl in Heq. rewrite Heq.
  destruct new as [|p0 new]; [discriminate |].
  intros [= <-]. cbn [IndexedProtocol.total_pages IndexedProtocol.pages].
  split; [reflexivity |]. split; [| split; [exact Hsorted |]].
  - eapply Forall_impl; [| exact Hall].
    intros p (Hrange & Hnth & Htext). split; [lia |].
    split; [| exact Htext].
    now replace (ProtocolPage.page_number p - 1)%Z
      with (ProtocolPage.page_number p - 0 - 1)%Z by lia.
  - intros k t Hnth Ht. exact (Hcomplete k t Hnth Ht).
Qed.

(** X21: a loaded DOCX loses no text and orders it as the file does: the
    paragraphs that hold text, trimmed, are cut into consecutive pages
    numbered 1, 2, ... without a gap; the text of a page is its
    paragraphs joined by newlines; a paragraph with a hard page break is
    the first of its page; and a page exceeds the limit of 3000
    characters by its last paragraph at most. *)
Theorem docx_pagination (filepath : string)
    (paragraphs : list (string * bool)) (protocol : IndexedProtocol.t) :
  load_docx filepath (Some paragraphs) = Ok protocol ->
  exists blocks,
    concat blocks = read_paragraphs paragraphs
    /\ Forall page_block_ok blocks
    /\ map ProtocolPage.text (IndexedProtocol.pages protocol)
       = map page_text_of blocks
    /\ map ProtocolPage.page_number (IndexedProtocol.pages protocol)
       = numbers_from 1 (List.length blocks)
    /\ IndexedProtocol.total_pages protocol
       = Z.of_nat (List.length blocks).
Proof.
  rewrite load_docx_cases. cbv zeta.
  destruct (docx_pages_spec paragraphs) as (blocks & Hinv & Hconcat).
  destruct Hinv as (_ & _ & _ & _ & Htexts & Hnumbers & _ & Hblocks).
  destruct (pages (flush_page (docx_loop paragraphs docx_start)))
    as [|p0 ps] eqn:Ep; [discriminate |].
  assert (List.length (p0 :: ps) = List.length blocks) as Hlen
      by (rewrite <- (length_map ProtocolPage.text (p0 :: ps)), Htexts;
          apply length_map).
  intros [= <-]. cbn [IndexedProtocol.total_pages IndexedProtocol.pages].
  exists blocks. repeat split; try assumption.
  now rewrite <- Hlen.
Qed.

(** X22: a loader raises [ValueError] when the file holds no text but
    white space, and returns a protocol when some page of the PDF, or
    some paragraph of the DOCX, holds other text. *)
Theorem loaders_need_text (filepath : string) :
  (forall reader_pages,
      (forall t, In (Some t) reader_pages -> strip t = EmptyString) ->
      load_pdf filepath (Some reader_pages)
      = Raise (Exn "ValueError"
                   ("No text could be extracted from PDF: " ++ filepath)))
  /\ (forall reader_pages t,
         In (Some t) reader_pages -> strip t <> EmptyString ->
         exists protocol,
           load_pdf filepath (Some reader_pages) = Ok protocol)
  /\ (forall paragraphs,
         (forall para, In para paragraphs ->
                       strip (fst para) = EmptyString) ->
         load_docx filepath (Some paragraphs)
         = Raise (Exn "ValueError"
                      ("No text could be extracted from DOCX: "
                         ++ filepath)))
  /\ (forall paragraphs para,
         In para paragraphs -> strip (fst para) <> EmptyString ->
         exists protocol,
           load_docx filepath (Some paragraphs) = Ok protocol).
Proof.
  split; [| split; [| split]].
  - intros reader_pages Hblank. unfold load_pdf.
    destruct (pdf_loop_spec reader_pages 0 [] [])
      as (new & Heq & Hall & _).
    simpl in Heq. rewrite Heq. destruct new as [|p new]; [reflexivity |].
    inversion Hall as [|? ? (_ & Hnth & Htext) _]; subst.
    apply nth_error_In in Hnth. now rewrite (Hblank _ Hnth) in Htext.
  - intros reader_pages t Hin Ht. unfold load_pdf.
    destruct (pdf_loop_spec reader_pages 0 [] [])
      as (new & Heq & _ & _ & Hcomplete).
    simpl in Heq. rewrite Heq.
    apply In_nth_error in Hin as [k Hk].
    specialize (Hcomplete k t Hk Ht).
    destruct new as [|p new]; [contradiction | now eexists].
  - intros paragraphs Hblank. rewrite load_docx_cases. cbv zeta.
    destruct (docx_pages_spec paragraphs) as (blocks & Hinv & Hconcat).
    destruct Hinv as (_ & _ & _ & _ & Htexts & _ & _ & Hblocks).
    apply read_paragraphs_empty in Hblank. rewrite Hblank in Hconcat.
    apply concat_nonempty in Hconcat;
      [| eapply Forall_impl; [| exact Hblocks]; now intros b [Hb _]].
    subst blocks.
    destruct (pages (flush_page (docx_loop paragraphs docx_start)));
      [reflexivity | discriminate].
  - intros paragraphs para Hin Hpara. rewrite load_docx_cases. cbv zeta.
    destruct (docx_pages_spec paragraphs) as (blocks & Hinv & Hconcat).
    destruct Hinv as (_ & _ & _ & _ & Htexts & _).
    destruct (pages (flush_page (docx_loop paragraphs docx_start)));
      [| now eexists].
    destruct blocks as [|b blocks]; [| discriminate].
    simpl in Hconcat. symmetry in Hconcat.
    now rewrite (proj1 (read_paragraphs_empty paragraphs) Hconcat para Hin)
      in Hpara.
Qed.

(** X23: for a protocol from either loader, the stored [full_text] is
    what [get_page_text] builds from the pages, and the range of pages
    from 1 to [total_pages] is that whole text. *)
Theorem loaded_text_is_page_text (filepath : string)
    (protocol : IndexedProtocol.t) :
  (exists reader_pages,
      load_pdf filepath (Some reader_pages) = Ok protocol)
  \/ (exists paragraphs,
         load_docx filepath (Some paragraphs) = Ok protocol) ->
  IndexedProtocol.full_text protocol = IndexedProtocol.get_page_text protocol
  /\ IndexedProtocol.get_pages_range protocol 1
       (IndexedProtocol.total_pages protocol)
     = IndexedProtocol.full_text protocol
  /\ IndexedProtocol.source_path protocol = filepath.
Proof.
  intros Hloaded.
  assert (IndexedProtocol.full_text protocol
          = IndexedProtocol.get_page_text protocol
          /\ IndexedProtocol.source_path protocol = filepath
          /\ Forall (fun p =>
                       (1 <=? ProtocolPage.page_number p)%Z
                       && (ProtocolPage.page_number p
                           <=? IndexedProtocol.total_pages protocol)%Z
                       = true)
                    (IndexedProtocol.pages protocol))
    as (Htext & Hpath & Hrange).
  { destruct Hloaded as [[reader_pages Hload] | [paragraphs Hload]].
    - revert Hload. unfold load_pdf.
      destruct (pdf_loop_spec reader_pages 0 [] [])
        as (new & Heq & Hall & _).
      simpl in Heq. rewrite Heq. destruct new as [|p0 new]; [discriminate |].
      intros [= <-]. split; [reflexivity |]. split; [reflexivity |].
      cbn [IndexedProtocol.pages IndexedProtocol.total_pages].
      eapply Forall_impl; [| exact Hall]. intros p (Hr & _).
      apply andb_true_iff. split; apply Z.leb_le; lia.
    - revert Hload. rewrite load_docx_cases. cbv zeta.
      destruct (docx_pages_spec paragraphs) as (blocks & Hinv & _).
      destruct Hinv as (_ & _ & _ & _ & Htexts & Hnumbers & _).
      destruct (pages (flush_page (docx_loop paragraphs docx_start)))
        as [|p0 ps] eqn:Ep; [discriminate |].
      intros [= <-]. split; [reflexivity |]. split; [reflexivity |].
      cbn [IndexedProtocol.pages IndexedProtocol.total_pages].
      assert (List.length blocks = List.length (p0 :: ps)) as Hlen
          by (rewrite <- (length_map page_text_of), <- Htexts;
              apply length_map).
      apply Forall_forall. intros p Hin.
      apply (in_map ProtocolPage.page_number) in Hin.
      rewrite Hnumbers in Hin. apply numbers_from_range in Hin.
      rewrite Hlen in Hin. cbn [List.length] in Hin.
      rewrite Nat2Z.inj_succ in Hin. rewrite Zpos_P_of_succ_nat.
      apply andb_true_iff. split; apply Z.leb_le; lia. }
  split; [exact Htext |]. split; [| exact Hpath].
  unfold IndexedProtocol.get_pages_range.
  rewrite (filter_all_true _ _ Hrange). now rewrite Htext.
Qed.

End Loaders.

Lemma pdf_pages_keep_positions_witness :
  exists protocol,
    @load_pdf SampleMore.strict_lib "protocol.pdf"
      (Some [Some "Title"; None; Some "  "; Some "Body"])
    = Ok protocol
    /\ IndexedProtocol.total_pages protocol = 4%Z
    /\ StronglySorted Z.lt
         (map ProtocolPage.page_number (IndexedProtocol.pages protocol))
    /\ In (ProtocolPage.make 4 "Body") (IndexedProtocol.pages protocol).
Proof.
  eexists. split; [reflexivity |].
  destruct (@pdf_pages_keep_positions SampleMore.strict_lib "protocol.pdf"
              [Some "Title"; None; Some "  "; Some "Body"] _ eq_refl)
    as (Htotal & _ & Hsorted & Hcomplete).
  split; [exact Htotal |]. split; [exact Hsorted |].
  apply (Hcomplete 3 "Body" eq_refl). discriminate.
Defined.

Lemma docx_pagination_witness :
  exists protocol blocks,
    @load_docx SampleMore.strict_lib "protocol.docx"
      (Some [(" Title ", false); ("  ", true); ("Body", true);
             ("More", false)])
    = Ok protocol
    /\ concat blocks = [("Title", false); ("Body", true); ("More", false)]
    /\ map ProtocolPage.text (IndexedProtocol.pages protocol)
       = map page_text_of blocks
    /\ map ProtocolPage.page_number (IndexedProtocol.pages protocol)
       = numbers_from 1 (List.length blocks).
Proof.
  eexists.
  destruct (@docx_pagination SampleMore.strict_lib "protocol.docx"
              [(" Title ", false); ("  ", true); ("Body", true);
               ("More", false)] _ eq_refl)
    as (blocks & Hconcat & _ & Htexts & Hnumbers & _).
  exists blocks. split; [reflexivity |].
  split; [exact Hconcat |]. split; [exact Htexts | exact Hnumbers].
Defined.

Lemma loaders_need_text_witness :
  @load_pdf SampleMore.strict_lib "protocol.pdf" (Some [None; Some "  "])
  = Raise (Exn "ValueError"
               "No text could be extracted from PDF: protocol.pdf")
  /\ exists protocol,
       @load_docx SampleMore.strict_lib "protocol.docx"
         (Some [("  ", true); ("Body", false)])
       = Ok protocol.
Proof.
  destruct (@loaders_need_text SampleMore.strict_lib "protocol.pdf")
    as (Hpdf & _).
  destruct (@loaders_need_text SampleMore.strict_lib "protocol.docx")
    as (_ & _ & _ & Hdocx).
  split.
  - apply Hpdf. intros t [E | [E | []]]; [discriminate |].
    injection E as <-. reflexivity.
  - apply (Hdocx _ ("Body", false)); [right; now left | discriminate].
Defined.

Lemma loaded_text_is_page_text_witness :
  exists protocol,
    @load_pdf SampleMore.strict_lib "protocol.pdf"
      (Some [Some "Title"; None; Some "Body"])
    = Ok protocol
    /\ @IndexedProtocol.get_pages_range SampleMore.strict_lib protocol 1 3
       = IndexedProtocol.full_text protocol.
Proof.
  eexists. split; [reflexivity |].
  apply (@loaded_text_is_page_text SampleMore.strict_lib "protocol.pdf").
  left. now exists [Some "Title"; None; Some "Body"].
Defined.

End IngestFacts.
